(* ===== verification/_CoqProject ===== *)
-Q . S2P
Prelude.v
PyVal.v
World.v
Limiter.v
ExecMaxN.v
Sched.v
Interleave.v
WrapperThreads.v
Logging.v
Imports.v
Setup.v
ExecMaxNExample.v
Config.v
Struct.v
StructExample.v
Seed.v
SeedExample.v
ConfigExample.v
Resolvers.v
Info.v
Jax.v
