(* ===== verification/Prelude.v ===== *)
(** * A verification development for tbutils (tboulet/tbutils)

    tbutils is a grab-bag of Python helpers.  Its modules share no runtime
    structure beyond the standard output, two process-wide counter tables,
    the generator of [random] and [os.environ]:

    - [src/tbutils/exec_max_n.py]: rate limiters.  [print_max_n]/[print_once]
      print an object at most [n] times per discriminator key, counting in the
      global [dict_printing_objs_counter]; [log_max_n]/[log_once]/[warn_max_n]/
      [warn_once] do the same through a [logging.Logger] with the separate
      table [dict_log_objs_counter]; [exec_max_n]/[exec_once] wrap a callable
      so that it runs at most [n] times, keeping the budget in the attribute
      [wrapper.counter] of the wrapper object.
    - [src/tbutils/config.py]: [try_get] walks a dotted path through a nested
      config and falls back to a default (a value, or a callable invoked with
      the keyword arguments its [co_varnames] mention), warning through
      [print_once]; [merge_container], [instantiate_class],
      [get_env_variable] and [register_hydra_resolvers].
    - [src/tbutils/struct.py]: [get_dict_flattened], [unflatten_dict] and
      [get_shape].
    - [src/tbutils/seed.py]: [try_get_seed] (calls [try_get] and
      [print_once]) and [set_seed].
    - [src/tbutils/jax.py]: [nest_for_array], a decorator mapping a function
      over the arrays of nested dicts and lists, and [check_jax_device].
    - [src/tbutils/info.py]: [is_installed] and [check_versions], which
      prints the versions of the installed packages.
    - [src/examples/exec_max_n.py], [struct_example.py], [seed.py] and
      [config.py]: scripts calling the helpers of the library.

    ** Layout

    - [Prelude] (this file): Python's strings ([str.split] as [str_split],
      [in] as [str_contains], [str.join]) with the lemma that splitting
      undoes joining; Python's insertion-ordered [dict] as an association
      list under a key test ([od_lookup], [od_insert], [od_of_list] for
      [dict(items)]); the hint database [tbu].
    - [PyVal]: the values ([pyval]: None, bool, int, str, list, tuple, set,
      dict), the exceptions ([py_exc], with [str(e)] as [py_exc_str]), the
      [result] monad, and the builtins the code calls ([==] as [py_eq],
      hashability, [in], [x[k]], [x[k] = v], [len], [iter], [isinstance],
      [str]/[repr]).
    - [World]: the interpreter state the library touches ([world]: standard
      output, logger calls, the two counter tables, the heap of wrapper
      counters, the state of [random], [os.environ], [sys.modules], the
      seeds set in numpy/torch/tensorflow), the state-and-exception monad
      [PyM] with [try]/[except] ([try_except]), Python callables
      ([pyfunc]), and the calculus [outputs] of computations that only
      print, with its tactic [outputs_run].
    - [Limiter]: the abstract specification of a keyed rate limiter.
    - [ExecMaxN]: every function of [exec_max_n.py], one definition each.
    - [Sched]: threads of atomic steps over a shared state, a schedule
      interleaving them ([sched_run]), liveness from a measure each step
      lowers, and the schedule [stale_schedule] of a lost update.
    - [Interleave]: [print_max_n] split into the atomic steps of its lines
      46-51, run by [Sched].
    - [WrapperThreads]: the call of an [exec_max_n] wrapper split into the
      atomic steps of its lines 216-220, run by [Sched].
    - [Logging]: what [logging] does with the calls [log_max_n] makes:
      effective levels, [isEnabledFor], [basicConfig].
    - [ExecMaxNExample]: the script [examples/exec_max_n.py], with the
      [basicConfig] call of its lines 16-19.
    - [Config]: [try_get] (composed with [ExecMaxN.print_once]), the
      abstract walk [lookup_path], [merge_container] over the OmegaConf
      configs and plain values it receives ([cfg_arg], converted by
      [to_container]), [instantiate_class] with [importlib.import_module]
      and [getattr].
    - [Struct]: the three functions of [struct.py] and the path-list
      specification of flattening.
    - [StructExample]: the script [examples/struct_example.py] but for its
      line on a numpy array.
    - [Seed]: [try_get_seed], [set_seed], [get_env_variable].
    - [SeedExample], [ConfigExample]: the scripts [examples/seed.py] and
      [examples/config.py].
    - [Resolvers]: [register_hydra_resolvers] on OmegaConf's table of
      resolvers ([registry], threaded by the monad [RegM]), and the
      resolution of an interpolation through that table, which calls
      [Config.merge_container] and [Seed.get_env_variable].
    - [Info]: [is_installed] and [check_versions] over the facts of the
      machine ([platform_info]).
    - [Jax]: [nest_for_array] and its structural specification [jspec];
      [check_jax_device] over the module's optional import of JAX.
    - [Imports]: the import statements of every module and script
      ([config_imports], ..., [tmeasure_example_imports]) run by a model of
      Python's import system on [sys.modules] ([import_module], with fuel
      bounded by the depth [rank] of the package's import graph).
    - [Setup]: [setup.py], with [find_packages()] over the files of the
      directory it runs in.

    ** What the theorems show (claim numbers C1-C34)

    - C1-C4, C10: [print_max_n] and [log_max_n] refine [Limiter]: a
      sequence of calls prints exactly the calls the keyed limiter fires,
      the first [n] per key; [log_max_n] is equivalent to [print_max_n]
      with the logger as sink (same results, same tables, the log messages
      are the printed lines); an unhashable key raises [TypeError].
    - C5: [log_max_n] spends its budget on calls the logger drops for
      their level, so a message first logged below the logger's level is
      never emitted.
    - C6-C9, C11: the wrapper of [exec_max_n] runs [func] iff the criteria
      hold and the counter is positive, is a budgeted executor over any
      sequence of calls, never runs [func] more than [n] times; the checks
      made (and not made) at wrap time.
    - C12: under a schedule of threads, the stale write of [+= 1] lets
      [k] threads making [n] calls each print [k n] times, against the
      bound the specification gives for races.
    - C13-C14: the same for the wrapper of [exec_max_n]: the stale write
      of [-= 1] lets [k] threads making [n] calls each run [func] [k n]
      times; [k] threads calling once a wrapper whose counter is [c > 0]
      can all pass the test before any decrements, so the wrapper of
      [exec_once] runs [func] [k] times and ends at [1 - k].
    - C15-C18: [try_get] refines [lookup_path]; a walk stuck on a scalar
      raises where the specification asks for the default;
      [merge_container] converts its arguments with
      [OmegaConf.to_container] and returns a list or a dict (never a
      tuple) or raises [ValueError]; [instantiate_class] calls the class
      or raises the exception of the step that fails.
    - C19-C20: [register_hydra_resolvers] succeeds exactly when its three
      names are free, raises at the first taken one leaving the table half
      set up, and cannot run twice; after it, [${env_variable:...}] and
      [${merge:...}] call the functions of [config.py].
    - C21-C24: [unflatten_dict(get_dict_flattened(d)) = d] under its exact
      hypotheses; [get_shape] on ragged sequences, its termination and its
      divergence on strings.
    - C25-C27: the eager default of [try_get_seed], the state [set_seed]
      leaves, and reproducibility after [set_seed].
    - C28-C30: [nest_for_array] computes a structural map with split keys,
      and raises the [ValueError] of the first unsupported value;
      [check_jax_device] never raises.
    - C31-C33: the imports: [tbutils.seed] needs [hydra] and [omegaconf]
      through [tbutils.config], and a failed import leaves part of the
      package in [sys.modules]; [tbutils.jax] raises unless [importlib.util]
      was imported before, and with a JAX without [xla_bridge];
      [examples/tmeasure_example.py] raises at its line 2.
    - C34: [setup.py] passes the packages [find_packages()] finds and
      [README.md], or raises [FileNotFoundError] without it.

    Other theorems of the files are kept as lemmas and examples: one
    call of [print_max_n] or of the wrapper run alone in the threaded
    models is the sequential call, every thread of [Interleave] finishes
    its [m] calls within [4 m] of its steps, the fuel of the import
    interpreter is enough, the defaults the [co_varnames] test of
    [try_get] mishandles, the inputs on which the flattening round trip
    fails, the discriminator example of the specification (property 5), the callable
    default of the specification (property 2), the warning of [try_get]
    going through [print_once]'s shared table, the shape of regular
    nested sequences, the seed [try_get_seed] finds, the imports of the
    example scripts, [find_packages] on a namespace package, the
    output of the example scripts (with every log call of
    [examples/exec_max_n.py] emitted under its [basicConfig] and none
    without it), the functional specification of one [log_max_n] call, the
    limit of [print_max_n] per key, [merge_container] on dicts as a
    right-biased union, the range of the seed drawn by [try_get_seed], the
    liveness of the wrapper's calls under every schedule, the lines
    [check_versions] prints and where it raises, the warning printed once, [get_dict_flattened] as a
    path list, the shape of a list of dicts, the seed drawn again for a
    value that is not an [int].

    ** Bounds and fuel

    Python's [int] is unbounded, so integers are [Z] throughout and no
    wrap-around arises.  The only recursion that is not structural is
    [get_shape], whose argument [fuel] is the depth of the call stack left:
    running out raises [RecursionError] as CPython does.  [get_shape_terminates]
    shows that any depth above the nesting depth [pdepth] of the object gives
    the same result, which is not a [RecursionError], so the fuel is
    adequate; [get_shape_str_diverges] shows the one case where no depth is
    enough.  Every other function is structurally recursive.

    ** Not modelled

    Floats and numpy arrays have no value in [pyval]; strings are byte
    strings.  The libraries the code only calls are abstract: a
    [logger.log] call is recorded in the world, [random] is a generator
    parameter, [jax.random.split] and the decorated function are
    parameters, the modules [importlib.import_module] finds for
    [instantiate_class] are a registry parameter,
    OmegaConf's [register_new_resolver] is written from its documented
    behaviour and [eval] is a parameter; what [info.py] and
    [check_jax_device] read from the machine is the record [platform_info].
    Of [logging], the levels that decide emission are modelled
    ([Logging.log_config]); [logging.disable], handlers, filters and
    formatting are not.  The threaded models take [func] to run as one
    atomic step and cover calls without [criteria_exec] or discriminator.
    The answer to [input] is a parameter.  The imports model the
    statements of the repository and Python's import system; what the
    installed packages import in turn is not modelled (an installed module
    is found and defines what the environment says), and a fresh
    interpreter's [sys.modules] is reduced to whether its start-up imported
    [importlib.util], the only module of the standard library whose
    presence changes an outcome.  The in-place writes of [unflatten_dict]
    and [nest_for_array] are modelled by rebuilding each level, which is
    exact unless the caller keeps another reference to the objects written
    (see the findings).  Of the example scripts under [src/examples],
    [exec_max_n.py], [seed.py] and [config.py] are modelled whole (the
    object [config.py] builds is represented by its [repr], all the script
    uses) and [struct_example.py] but for its call on a numpy array;
    [tmeasure_example.py] stops at its line 2, which imports a module that
    is not in the repository, so its other lines never run.  [setup.py] is
    modelled whole; setuptools' [setup] itself (building the distribution)
    is not: the model gives the arguments it receives. *)

From Stdlib Require Export Ascii ZArith.
From stdpp Require Export base list strings pretty.

Declare Scope py_scope.
Delimit Scope py_scope with py.

(** ** Strings *)

Definition str_of_char (c : ascii) : string := String c EmptyString.

(** [starts_with p s]: [s.startswith(p)]. *)
Fixpoint starts_with (p s : string) : bool :=
  match p, s with
  | EmptyString, _ => true
  | String c p', String d s' => bool_decide (c = d) && starts_with p' s'
  | String _ _, EmptyString => false
  end.

(** [str_contains sub s]: Python's [sub in s] on two strings (substring). *)
Fixpoint str_contains (sub s : string) : bool :=
  starts_with sub s ||
  match s with
  | EmptyString => false
  | String _ s' => str_contains sub s'
  end.

(** [s.split(sep)] for a non-empty [sep]: the occurrences of [sep] are found
    left to right and do not overlap.  [skip] counts the characters of a
    separator just matched that remain to be dropped; [cur] is the piece being
    built. *)
Fixpoint split_go (sep s : string) (skip : nat) (cur : string) : list string :=
  match s with
  | EmptyString => [cur]
  | String c s' =>
      match skip with
      | S k => split_go sep s' k cur
      | O =>
          if starts_with sep s
          then cur :: split_go sep s' (pred (String.length sep)) EmptyString
          else split_go sep s' O (cur +:+ str_of_char c)
      end
  end.

Definition str_split (sep s : string) : list string := split_go sep s O EmptyString.

(** [sep.join(l)]. *)
Fixpoint str_join (sep : string) (l : list string) : string :=
  match l with
  | [] => EmptyString
  | [x] => x
  | x :: l' => x +:+ sep +:+ str_join sep l'
  end.

(** String concatenation ([+:+] does not unfold under [simpl]). *)
Lemma str_app_cons x a s : String x a +:+ s = String x (a +:+ s).
Proof. reflexivity. Qed.

Lemma str_app_nil_l s : EmptyString +:+ s = s.
Proof. reflexivity. Qed.

Lemma str_app_nil_r s : s +:+ EmptyString = s.
Proof. induction s as [|x s IH]; [done|]. by rewrite str_app_cons, IH. Qed.

Lemma str_app_assoc a b c : a +:+ (b +:+ c) = (a +:+ b) +:+ c.
Proof. induction a as [|x a IH]; [done|]. by rewrite !str_app_cons, IH. Qed.


(** Splitting on a one-character separator: a piece without it is
    carried over whole, and the separator closes the current piece. *)
Lemma split_go_no_sep c a s cur :
  str_contains (str_of_char c) a = false ->
  split_go (str_of_char c) (a +:+ s) O cur = split_go (str_of_char c) s O (cur +:+ a).
Proof.
  revert cur. induction a as [|x a IH]; intros cur Ha.
  - by rewrite str_app_nil_r.
  - simpl in Ha. apply orb_false_iff in Ha as [Hx Ha]. rewrite andb_true_r in Hx.
    rewrite str_app_cons. simpl. rewrite andb_true_r, Hx, IH by done.
    by rewrite <- str_app_assoc.
Qed.

Lemma split_go_sep c s cur :
  split_go (str_of_char c) (String c s) O cur = cur :: split_go (str_of_char c) s O EmptyString.
Proof. simpl. by rewrite bool_decide_eq_true_2. Qed.

(** [sep.join(p).split(sep) == p] for a one-character [sep] and pieces that
    do not contain it. *)
Lemma str_split_join c p :
  p <> [] -> Forall (fun s => str_contains (str_of_char c) s = false) p ->
  str_split (str_of_char c) (str_join (str_of_char c) p) = p.
Proof.
  unfold str_split. intros Hne Hp.
  induction Hp as [|x p Hx Hp IH]; [done|]; clear Hne.
  destruct p as [|y p].
  - simpl. rewrite <- (str_app_nil_r x) at 1. by rewrite split_go_no_sep.
  - change (str_join (str_of_char c) (x :: y :: p))
      with (x +:+ str_of_char c +:+ str_join (str_of_char c) (y :: p)).
    rewrite split_go_no_sep by done.
    change (str_of_char c +:+ ?r) with (String c r).
    by rewrite split_go_sep, str_app_nil_l, IH.
Qed.

Lemma existsb_map {A B} (f : B -> bool) (g : A -> B) l :
  existsb f (map g l) = existsb (fun x => f (g x)) l.
Proof. induction l as [|x l IH]; simpl; [done|]. by rewrite IH. Qed.

Lemma NoDup_map_inj {A B} (f : A -> B) l :
  (forall x y, f x = f y -> x = y) -> NoDup l -> NoDup (map f l).
Proof.
  intros Hf. induction 1 as [|x l Hx _ IH]; simpl; constructor; [|done].
  intros (y & Hy & Hin)%list_elem_of_In%in_map_iff. apply Hf in Hy. subst.
  by apply Hx, list_elem_of_In.
Qed.

(** Pairwise test of two lists of the same length. *)
Fixpoint forall2b {A B} (f : A -> B -> bool) (l : list A) (m : list B) : bool :=
  match l, m with
  | [], [] => true
  | x :: l', y :: m' => f x y && forall2b f l' m'
  | _, _ => false
  end.

(** ** Python dicts

    A [dict] keeps its keys in insertion order; assigning to a present key
    keeps the key object already stored and its position.  Keys are compared
    with Python's [==], given here as a boolean test [keq]. *)

Section OrderedDict.
Context {K V : Type} (keq : K -> K -> bool).

Fixpoint od_lookup (k : K) (d : list (K * V)) : option V :=
  match d with
  | [] => None
  | (k', v') :: d' => if keq k k' then Some v' else od_lookup k d'
  end.

(** [d[k] = v] *)
Fixpoint od_insert (k : K) (v : V) (d : list (K * V)) : list (K * V) :=
  match d with
  | [] => [(k, v)]
  | (k', v') :: d' => if keq k k' then (k', v) :: d' else (k', v') :: od_insert k v d'
  end.

Lemma od_lookup_app_r k d1 d2 :
  od_lookup k (d1 ++ d2) = match od_lookup k d1 with Some v => Some v | None => od_lookup k d2 end.
Proof. induction d1 as [|[k' v'] d1 IH]; simpl; [done|]. by destruct (keq k k'). Qed.

Definition od_mem (k : K) (d : list (K * V)) : bool :=
  match od_lookup k d with Some _ => true | None => false end.

(** [dict(items)]: later pairs overwrite earlier ones in place. *)
Definition od_of_list (items : list (K * V)) : list (K * V) :=
  foldl (fun d kv => od_insert kv.1 kv.2 d) [] items.

(** Inserting a key equal to none of the present ones appends it. *)
Lemma od_insert_fresh k v d :
  Forall (fun kv => keq k kv.1 = false) d -> od_insert k v d = d ++ [(k, v)].
Proof. induction 1 as [|[k' v'] d' Hk _ IH]; [done|]. simpl in *. by rewrite Hk, IH. Qed.

Lemma od_insert_app_fresh k v d1 d2 :
  Forall (fun kv => keq k kv.1 = false) d1 -> od_insert k v (d1 ++ d2) = d1 ++ od_insert k v d2.
Proof. induction 1 as [|[k' v'] d' Hk _ IH]; [done|]. simpl in *. by rewrite Hk, IH. Qed.

Lemma od_lookup_fresh k d :
  Forall (fun kv => keq k kv.1 = false) d -> od_lookup k d = None.
Proof. induction 1 as [|[k' v'] d' Hk _ IH]; simpl in *; [done|]. by rewrite Hk. Qed.

(** [dict(items)] returns [items] itself when no key is [==] to an
    earlier one. *)
Fixpoint keys_fresh (d : list (K * V)) : Prop :=
  match d with
  | [] => True
  | kv :: d' => Forall (fun kv' => keq kv'.1 kv.1 = false) d' /\ keys_fresh d'
  end.

Lemma od_of_list_fresh_go acc d :
  Forall (fun kv => Forall (fun kv' => keq kv.1 kv'.1 = false) acc) d -> keys_fresh d ->
  foldl (fun d kv => od_insert kv.1 kv.2 d) acc d = acc ++ d.
Proof.
  revert acc. induction d as [|[k v] d IH]; intros acc Hacc Hfr; simpl; [by rewrite app_nil_r|].
  destruct Hfr as [Hd Hfr].
  apply List.Forall_cons_iff in Hacc as [Hk Hacc].
  rewrite od_insert_fresh by done. rewrite IH, <- app_assoc; [done| |done].
  rewrite List.Forall_forall in Hacc, Hd |- *. intros kv Hin.
  apply List.Forall_app; split; [by apply Hacc|]. by constructor; [apply Hd|].
Qed.

Lemma od_of_list_fresh d : keys_fresh d -> od_of_list d = d.
Proof. intros H. unfold od_of_list. rewrite od_of_list_fresh_go; [done| |done]. by apply Forall_true. Qed.

(** Python's [==] is an equivalence on the keys a dict may hold (the
    hashable values), not on every value; [ok] is that set of keys. *)
Context (ok : K -> Prop)
  (keq_refl : forall x, ok x -> keq x x = true)
  (keq_sym : forall x y, ok x -> ok y -> keq x y = true -> keq y x = true)
  (keq_trans : forall x y z, ok x -> ok y -> ok z ->
               keq x y = true -> keq y z = true -> keq x z = true).

Definition keys_ok (d : list (K * V)) : Prop := Forall (fun kv => ok kv.1) d.

Lemma keys_ok_insert k v d : ok k -> keys_ok d -> keys_ok (od_insert k v d).
Proof.
  intros Hk Hd. induction Hd as [|[k' v'] d' Hk' Hd' IH]; simpl; [by repeat constructor|].
  destruct (keq k k'); constructor; done.
Qed.

Lemma od_lookup_insert_eq k k' v d :
  ok k -> ok k' -> keys_ok d -> keq k' k = true -> od_lookup k' (od_insert k v d) = Some v.
Proof.
  intros Hk Hk' Hd Heq. induction Hd as [|[k'' v''] d' Hk'' Hd' IH]; simpl in *.
  - by rewrite Heq.
  - destruct (keq k k'') eqn:E; simpl.
    + by rewrite (keq_trans k' k k'').
    + destruct (keq k' k'') eqn:E'; [|done].
      assert (keq k k'' = true) by (apply (keq_trans k k' k''); auto). congruence.
Qed.

Lemma od_lookup_insert_ne k k' v d :
  ok k -> ok k' -> keys_ok d -> keq k' k = false ->
  od_lookup k' (od_insert k v d) = od_lookup k' d.
Proof.
  intros Hk Hk' Hd Hne. induction Hd as [|[k'' v''] d' Hk'' Hd' IH]; simpl in *.
  - by rewrite Hne.
  - destruct (keq k k'') eqn:E; simpl; [|by rewrite IH].
    destruct (keq k' k'') eqn:E'; [|done].
    assert (keq k' k = true) by (apply (keq_trans k' k'' k); auto). congruence.
Qed.

Lemma od_lookup_proper k k' d :
  ok k -> ok k' -> keys_ok d -> keq k k' = true -> od_lookup k d = od_lookup k' d.
Proof.
  intros Hk Hk' Hd Heq. induction Hd as [|[k'' v''] d' Hk'' Hd' IH]; simpl in *; [done|].
  destruct (keq k k'') eqn:E, (keq k' k'') eqn:E'; try done.
  - assert (keq k' k'' = true) by (apply (keq_trans k' k k''); auto). congruence.
  - assert (keq k k'' = true) by (apply (keq_trans k k' k''); auto). congruence.
Qed.
End OrderedDict.

(** With string keys compared by [String.eqb], a dict is a plain finite map. *)
Lemma od_lookup_insert_string {V} k k' (v : V) d :
  od_lookup String.eqb k (od_insert String.eqb k' v d) =
    if String.eqb k k' then Some v else od_lookup String.eqb k d.
Proof.
  induction d as [|[k'' v''] d IH]; simpl.
  - by destruct (String.eqb k k').
  - destruct (String.eqb k' k'') eqn:E; simpl.
    + apply String.eqb_eq in E. subst. by destruct (String.eqb k k'').
    + rewrite IH. destruct (String.eqb k k') eqn:E1, (String.eqb k k'') eqn:E2; try done.
      apply String.eqb_eq in E1, E2. subst. by rewrite String.eqb_refl in E.
Qed.

(** A [forallb] that fails names an element that fails the test. *)
Lemma forallb_false_elem {A} (f : A -> bool) l :
  forallb f l = false -> exists x, x ∈ l /\ f x = false.
Proof.
  induction l as [|a l IH]; simpl; [done|]. destruct (f a) eqn:E; simpl.
  - intros H. destruct (IH H) as (x & Hx & Hf). exists x. split; [by constructor|done].
  - intros _. exists a. split; [constructor|done].
Qed.

Create Rewrite HintDb tbu_world.

(** ** Tactics and hints shared by the components *)

Create HintDb tbu discriminated.

(** Case on every boolean [if] and [match] on an option in the goal. *)
Ltac case_ifs :=
  repeat match goal with
         | |- context [if ?b then _ else _] => destruct b eqn:?
         end.
