(* ===== verification/PyVal.v ===== *)
(** * Python values, exceptions and the builtins tbutils calls

    [pyval] is the data tbutils passes around: config trees, printed objects,
    discriminator keys, shapes.  The builtins are written out as CPython
    implements them on that data: [py_truthy] ([bool(x)]), [py_eq] ([==]),
    [py_hashable] (whether [hash(x)] succeeds), [py_contains] ([x in c]),
    [py_getitem] ([c[k]]), [py_setitem] ([c[k] = v]), [py_repr] and [py_str]
    ([repr] and [str], used by [print] and f-strings), [py_len], [py_iter],
    [py_isinstance] and [py_split] ([str.split]).  Failing builtins return
    the exception CPython raises.  A set and a dict are lists in iteration
    order (for a set, the order of its hash table).  [pyval_eq_dec] is
    structural equality, finer than [==]; the [result] monad carries
    exceptions, and [not_rec] says a result is not a [RecursionError]. *)

From S2P Require Import Prelude.

#[local] Set Warnings "-register-all".
Inductive pyval : Type :=
| PNone
| PBool (b : bool)
| PInt (z : Z)
| PStr (s : string)
| PList (l : list pyval)
| PTuple (l : list pyval)
| PSet (l : list pyval)
| PDict (d : list (pyval * pyval)).

Inductive py_exc : Type :=
| TypeError (msg : string)
| ValueError (msg : string)
| AttributeError (msg : string)
| IndexError (msg : string)
| KeyError (k : pyval)
| ModuleNotFoundError (msg : string)
| AssertionError (args : list pyval)
| RecursionError (msg : string)
| NameError (msg : string)
| RuntimeError (msg : string)
| ImportError (msg : string)
| FileNotFoundError (msg : string)
| UnsupportedInterpolationType (msg : string).  (** [omegaconf.errors] *)

(** A computation that returns a value or raises. *)
Inductive result (A : Type) : Type :=
| Ok (a : A)
| Err (e : py_exc).
Arguments Ok {A} a.
Arguments Err {A} e.

#[export] Instance result_ret : MRet result := fun _ a => Ok a.
#[export] Instance result_bind : MBind result :=
  fun _ _ f r => match r with Ok a => f a | Err e => Err e end.

Definition res_map {A B} (f : A -> B) (r : result A) : result B :=
  match r with Ok a => Ok (f a) | Err e => Err e end.

(** ** Types, truthiness, hashability *)

Definition py_type_name (v : pyval) : string :=
  match v with
  | PNone => "NoneType" | PBool _ => "bool" | PInt _ => "int" | PStr _ => "str"
  | PList _ => "list" | PTuple _ => "tuple" | PSet _ => "set" | PDict _ => "dict"
  end.

Definition py_truthy (v : pyval) : bool :=
  match v with
  | PNone => false
  | PBool b => b
  | PInt z => negb (Z.eqb z 0)
  | PStr s => negb (String.eqb s "")
  | PList l | PTuple l | PSet l => negb (length l =? 0)%nat
  | PDict d => negb (length d =? 0)%nat
  end.

Definition is_none (v : pyval) : bool := match v with PNone => true | _ => false end.

Definition is_dict (v : pyval) : bool := match v with PDict _ => true | _ => false end.

(** [isinstance(v, int)]: [bool] is a subclass of [int]. *)
Definition is_int (v : pyval) : bool :=
  match v with PInt _ | PBool _ => true | _ => false end.

Fixpoint py_hashable (v : pyval) : bool :=
  match v with
  | PNone | PBool _ | PInt _ | PStr _ => true
  | PTuple l => forallb py_hashable l
  | PList _ | PSet _ | PDict _ => false
  end.

(** ** Equality [==]

    [True == 1] and [False == 0]; lists never equal tuples; sets and dicts
    compare as sets and as maps, whatever their order. *)

Definition num_of (v : pyval) : option Z :=
  match v with
  | PBool b => Some (if b then 1 else 0)%Z
  | PInt z => Some z
  | _ => None
  end.

Fixpoint py_eq (a b : pyval) : bool :=
  match a, b with
  | PNone, PNone => true
  | (PBool _ | PInt _), (PBool _ | PInt _) =>
      match num_of a, num_of b with Some x, Some y => Z.eqb x y | _, _ => false end
  | PStr s, PStr t => String.eqb s t
  | PList l, PList m | PTuple l, PTuple m => forall2b py_eq l m
  | PSet l, PSet m =>
      (length l =? length m)%nat && forallb (fun x => existsb (py_eq x) m) l
  | PDict d, PDict e =>
      (length d =? length e)%nat &&
      forallb (fun '(k, v) =>
                 existsb (fun '(k', v') => py_eq k k' && py_eq v v') e) d
  | _, _ => false
  end.

(** ** [in], subscription and item assignment *)

Definition unhashable (v : pyval) : py_exc :=
  TypeError ("unhashable type: '" +:+ py_type_name v +:+ "'").

Definition py_contains (x c : pyval) : result bool :=
  match c with
  | PStr s =>
      match x with
      | PStr t => Ok (str_contains t s)
      | _ => Err (TypeError ("'in <string>' requires string as left operand, not "
                              +:+ py_type_name x))
      end
  | PList l | PTuple l => Ok (existsb (py_eq x) l)
  | PSet l =>
      if py_hashable x then Ok (existsb (py_eq x) l) else Err (unhashable x)
  | PDict d =>
      if py_hashable x then Ok (od_mem py_eq x d) else Err (unhashable x)
  | _ => Err (TypeError ("argument of type '" +:+ py_type_name c +:+ "' is not iterable"))
  end.

(** Index [i] into a sequence of length [n], counting from the end when
    negative. *)
Definition norm_index (i : Z) (n : nat) : option nat :=
  let j := if Z.ltb i 0 then (i + Z.of_nat n)%Z else i in
  if Z.leb 0 j && Z.ltb j (Z.of_nat n) then Some (Z.to_nat j) else None.

Definition py_getitem (c k : pyval) : result pyval :=
  match c with
  | PDict d =>
      if py_hashable k then
        match od_lookup py_eq k d with Some v => Ok v | None => Err (KeyError k) end
      else Err (unhashable k)
  | PList l | PTuple l =>
      match num_of k with
      | Some i =>
          match norm_index i (length l) with
          | Some j => match l !! j with Some v => Ok v | None => Err (IndexError "index out of range") end
          | None => Err (IndexError (py_type_name c +:+ " index out of range"))
          end
      | None => Err (TypeError (py_type_name c +:+ " indices must be integers or slices, not "
                                 +:+ py_type_name k))
      end
  | PStr s =>
      match num_of k with
      | Some i =>
          match norm_index i (String.length s) with
          | Some j => match String.get j s with
                      | Some ch => Ok (PStr (str_of_char ch))
                      | None => Err (IndexError "string index out of range")
                      end
          | None => Err (IndexError "string index out of range")
          end
      | None => Err (TypeError "string indices must be integers")
      end
  | _ => Err (TypeError ("'" +:+ py_type_name c +:+ "' object is not subscriptable"))
  end.

(** [c[k] = v]: dicts insert or overwrite; lists overwrite an index in
    range and raise otherwise (they never grow); other values refuse. *)
Definition py_setitem (c k v : pyval) : result pyval :=
  match c with
  | PDict d => if py_hashable k then Ok (PDict (od_insert py_eq k v d)) else Err (unhashable k)
  | PList l =>
      match num_of k with
      | Some i =>
          match norm_index i (length l) with
          | Some j => Ok (PList (<[j := v]> l))
          | None => Err (IndexError "list assignment index out of range")
          end
      | None => Err (TypeError ("list indices must be integers or slices, not " +:+ py_type_name k))
      end
  | _ => Err (TypeError ("'" +:+ py_type_name c +:+ "' object does not support item assignment"))
  end.

(** [d.items()] of a dict, in insertion order. *)
Definition dict_items (v : pyval) : list (pyval * pyval) := match v with PDict d => d | _ => [] end.

(** [s.split(sep)]: an empty separator raises [ValueError]. *)
Definition py_split (sep s : string) : result (list string) :=
  if String.eqb sep "" then Err (ValueError "empty separator") else Ok (str_split sep s).

(** [len(v)] *)
Definition py_len (v : pyval) : result Z :=
  match v with
  | PStr s => Ok (Z.of_nat (String.length s))
  | PList l | PTuple l | PSet l => Ok (Z.of_nat (length l))
  | PDict d => Ok (Z.of_nat (length d))
  | _ => Err (TypeError ("object of type '" +:+ py_type_name v +:+ "' has no len()"))
  end.

(** The characters of a string, each a string of length one. *)
Fixpoint str_chars (s : string) : list pyval :=
  match s with EmptyString => [] | String c s' => PStr (str_of_char c) :: str_chars s' end.

(** [list(iter(v))]: what a [for] loop or [*v] goes through. *)
Definition py_iter (v : pyval) : result (list pyval) :=
  match v with
  | PStr s => Ok (str_chars s)
  | PList l | PTuple l | PSet l => Ok l
  | PDict d => Ok (map fst d)
  | _ => Err (TypeError ("'" +:+ py_type_name v +:+ "' object is not iterable"))
  end.

(** [isinstance(v, t)] for a builtin type named [t]; [bool] is a subclass
    of [int]. *)
Definition py_isinstance (v : pyval) (t : string) : bool :=
  String.eqb (py_type_name v) t || (bool_decide (t = "int") && bool_decide (py_type_name v = "bool")).

(** ** [repr] and [str] *)

Definition hex_digit (n : nat) : ascii :=
  ascii_of_nat (if (n <? 10)%nat then 48 + n else 87 + n).

(** One character of a string literal written by [repr], in quote [q]. *)
Definition repr_char (q c : ascii) : string :=
  let n := nat_of_ascii c in
  if bool_decide (c = q) || bool_decide (n = 92%nat) then String "\" (str_of_char c)
  else if (n =? 9)%nat then "\t"
  else if (n =? 10)%nat then "\n"
  else if (n =? 13)%nat then "\r"
  else if (n <? 32)%nat || (n =? 127)%nat || ((128 <=? n)%nat && (n <=? 160)%nat) || (n =? 173)%nat
  then String "\" (String "x" (String (hex_digit (n / 16)) (str_of_char (hex_digit (n mod 16)))))
  else str_of_char c.

Fixpoint repr_chars (q : ascii) (s : string) : string :=
  match s with
  | EmptyString => EmptyString
  | String c s' => repr_char q c +:+ repr_chars q s'
  end.

(** [repr(s)]: single quotes unless [s] has a single quote and no double one. *)
Definition dquote : ascii := ascii_of_nat 34.

Definition repr_string (s : string) : string :=
  let q := if str_contains "'" s && negb (str_contains (str_of_char dquote) s)
           then dquote else "'"%char in
  String q (repr_chars q s +:+ str_of_char q).

Fixpoint py_repr (v : pyval) : string :=
  match v with
  | PNone => "None"
  | PBool b => if b then "True" else "False"
  | PInt z => pretty z
  | PStr s => repr_string s
  | PList l => "[" +:+ str_join ", " (map py_repr l) +:+ "]"
  | PTuple [x] => "(" +:+ py_repr x +:+ ",)"
  | PTuple l => "(" +:+ str_join ", " (map py_repr l) +:+ ")"
  | PSet [] => "set()"
  | PSet l => "{" +:+ str_join ", " (map py_repr l) +:+ "}"
  | PDict d => "{" +:+ str_join ", " (map (fun '(k, x) => py_repr k +:+ ": " +:+ py_repr x) d) +:+ "}"
  end.

(** [str(v)], which [print] and f-strings use. *)
Definition py_str (v : pyval) : string :=
  match v with PStr s => s | _ => py_repr v end.

(** [f"{expr=}"]: the text of the expression, [=], and the [repr] of its
    value. *)
Definition debug_line (expr : string) (v : pyval) : string := expr +:+ "=" +:+ py_repr v.

(** [str(e)] for an exception [e]: its message; a [KeyError] shows the
    [repr] of its key, an [AssertionError] its arguments as [str] does. *)
Definition py_exc_str (e : py_exc) : string :=
  match e with
  | TypeError m | ValueError m | AttributeError m | IndexError m | ModuleNotFoundError m
  | RecursionError m | NameError m | RuntimeError m | ImportError m | FileNotFoundError m
  | UnsupportedInterpolationType m => m
  | KeyError k => py_repr k
  | AssertionError [] => ""
  | AssertionError [a] => py_str a
  | AssertionError args => py_repr (PTuple args)
  end.

(** ** Induction over nested values *)

Section pyval_ind.
Context (P : pyval -> Prop)
  (HNone : P PNone) (HBool : forall b, P (PBool b)) (HInt : forall z, P (PInt z))
  (HStr : forall s, P (PStr s))
  (HList : forall l, Forall P l -> P (PList l))
  (HTuple : forall l, Forall P l -> P (PTuple l))
  (HSet : forall l, Forall P l -> P (PSet l))
  (HDict : forall d, Forall (fun kv => P kv.1 /\ P kv.2) d -> P (PDict d)).

Fixpoint pyval_ind' (v : pyval) : P v :=
  match v with
  | PNone => HNone
  | PBool b => HBool b
  | PInt z => HInt z
  | PStr s => HStr s
  | PList l => HList l ((fix go (l : list pyval) : Forall P l :=
                           match l with
                           | [] => List.Forall_nil _
                           | x :: l' => @List.Forall_cons _ _ x l' (pyval_ind' x) (go l')
                           end) l)
  | PTuple l => HTuple l ((fix go (l : list pyval) : Forall P l :=
                             match l with
                             | [] => List.Forall_nil _
                             | x :: l' => @List.Forall_cons _ _ x l' (pyval_ind' x) (go l')
                             end) l)
  | PSet l => HSet l ((fix go (l : list pyval) : Forall P l :=
                         match l with
                         | [] => List.Forall_nil _
                         | x :: l' => @List.Forall_cons _ _ x l' (pyval_ind' x) (go l')
                         end) l)
  | PDict d => HDict d ((fix go (d : list (pyval * pyval)) :
                           Forall (fun kv => P kv.1 /\ P kv.2) d :=
                           match d with
                           | [] => List.Forall_nil _
                           | (k, x) :: d' =>
                               @List.Forall_cons _ _ (k, x) d' (conj (pyval_ind' k) (pyval_ind' x)) (go d')
                           end) d)
  end.
End pyval_ind.

(** ** [==] is an equivalence on hashable values

    These are the values a dict or a defaultdict can hold as keys; the
    counter tables of [exec_max_n.py] rely on it. *)

Definition hashable (v : pyval) : Prop := py_hashable v = true.

Lemma hashable_tuple l : hashable (PTuple l) <-> Forall hashable l.
Proof. unfold hashable. simpl. rewrite forallb_forall, List.Forall_forall. done. Qed.

Lemma py_eq_num a b x y :
  num_of a = Some x -> num_of b = Some y -> py_eq a b = Z.eqb x y.
Proof. destruct a, b; simpl; intros; simplify_eq; done. Qed.

Lemma py_eq_refl v : hashable v -> py_eq v v = true.
Proof.
  induction v as [| | | | |l IH| |] using pyval_ind'; intros Hh; simpl; try done.
  - apply Z.eqb_refl.
  - apply Z.eqb_refl.
  - apply String.eqb_refl.
  - apply hashable_tuple in Hh. induction IH; simpl; [done|].
    inversion Hh; subst. apply andb_true_intro; auto.
Qed.

Lemma py_eq_sym a b : hashable a -> hashable b -> py_eq a b = true -> py_eq b a = true.
Proof.
  revert b. induction a as [| | | | |l IH| |] using pyval_ind';
    intros [| | | | |m| |] Ha Hb; simpl; try done;
    try (rewrite !Z.eqb_eq; lia); try (rewrite !String.eqb_eq; done).
  apply hashable_tuple in Ha, Hb. revert m Hb.
  induction IH as [|x l Hx IH' IHl]; intros [|y m] Hm; simpl; try done.
  inversion Ha; inversion Hm; subst.
  rewrite !andb_true_iff. intros [??]. split; [by apply Hx | by apply IHl].
Qed.

Lemma py_eq_trans a b c :
  hashable a -> hashable b -> hashable c ->
  py_eq a b = true -> py_eq b c = true -> py_eq a c = true.
Proof.
  revert b c. induction a as [| | | | |l IH| |] using pyval_ind';
    intros [| | | | |m| |] [| | | | |k| |] Ha Hb Hc; simpl; try done;
    try (rewrite !Z.eqb_eq; lia); try (rewrite !String.eqb_eq; congruence).
  apply hashable_tuple in Ha, Hb, Hc. revert m k Hb Hc.
  induction IH as [|x l Hx IH' IHl]; intros [|y m] [|z k] Hm Hk; simpl; try done.
  inversion Ha; inversion Hm; inversion Hk; subst.
  rewrite !andb_true_iff. intros [??] [??]. split; [by apply (Hx y z) | by apply (IHl H2 m k)].
Qed.

#[export] Hint Resolve py_eq_refl py_eq_sym : tbu.

(** ** The result monad *)

Lemma result_bind_ok {A B} (a : A) (f : A -> result B) : (Ok a ≫= f) = f a.
Proof. reflexivity. Qed.

Lemma result_bind_err {A B} (e : py_exc) (f : A -> result B) : (Err e ≫= f) = Err e.
Proof. reflexivity. Qed.

Lemma mapM_result_ok {A B} (f : A -> result B) (g : A -> B) l :
  Forall (fun x => f x = Ok (g x)) l -> mapM f l = Ok (map g l).
Proof. induction 1 as [|x l Hx _ IH]; [done|]. simpl. by rewrite Hx, result_bind_ok, IH. Qed.

#[export] Hint Rewrite @result_bind_ok @result_bind_err : tbu_world.

Lemma hashable_tuple_map {A} (f : A -> pyval) l :
  (forall x, hashable (f x)) -> hashable (PTuple (map f l)).
Proof. intros Hf. apply hashable_tuple, Forall_fmap, Forall_true. done. Qed.

(** No value of a list of copies of [s] differs from [s]. *)
Lemma existsb_ne_const {A} (s : pyval) (l : list A) :
  hashable s -> existsb (fun s' => negb (py_eq s' s)) (map (fun _ => s) l) = false.
Proof. intros Hs. induction l as [|x l IH]; simpl; [done|]. by rewrite py_eq_refl, IH. Qed.

(** [r] is not the [RecursionError] raised when the call stack runs out. *)
Definition not_rec {A} (r : result A) : Prop := forall msg, r <> Err (RecursionError msg).

(** Closes [not_rec] of a value or of another exception. *)
Ltac not_rec_triv := let msg := fresh "msg" in let H := fresh in intros msg H; discriminate H.

Lemma not_rec_bind {A B} (m : result A) (f : A -> result B) :
  not_rec m -> (forall a, m = Ok a -> not_rec (f a)) -> not_rec (m ≫= f).
Proof. destruct m as [a|e]; simpl; [eauto|]. intros Hm _ msg [= ->]. by apply (Hm msg). Qed.

Lemma not_rec_mapM {A B} (f : A -> result B) l :
  Forall (fun x => not_rec (f x)) l -> not_rec (mapM f l).
Proof.
  induction 1 as [|x l Hx _ IH]; simpl; [done|].
  apply not_rec_bind; [done|]. intros. apply not_rec_bind; [done|]. done.
Qed.

Lemma mapM_ext_in {A B} (f g : A -> result B) l :
  (forall x, In x l -> f x = g x) -> mapM f l = mapM g l.
Proof.
  induction l as [|x l IH]; intros H; simpl; [done|].
  rewrite (H x) by (left; done). by rewrite IH by (intros; apply H; right; done).
Qed.

(** ** Decidable equality of values (structural, not Python's [==]) *)

Fixpoint pyval_eq_dec (x y : pyval) {struct x} : {x = y} + {x <> y}.
Proof.
  decide equality.
  - apply bool_dec.
  - apply Z.eq_dec.
  - apply String.string_dec.
  - apply (List.list_eq_dec pyval_eq_dec).
  - apply (List.list_eq_dec pyval_eq_dec).
  - apply (List.list_eq_dec pyval_eq_dec).
  - apply (List.list_eq_dec (@prod_eq_dec pyval pyval_eq_dec pyval pyval_eq_dec)).
Defined.

#[export] Instance pyval_eq_decision : EqDecision pyval := pyval_eq_dec.
