(* ===== verification/World.v ===== *)
(** * The interpreter state tbutils touches, and its monad

    [world] holds what the library reads and writes outside its arguments:
    - [w_stdout]: the lines written by [print], in order;
    - [w_logs]: the calls made to [Logger.log] (which logger, level, message,
      extra arguments), in order; what the logger then does is not modelled;
    - [w_print_counter] and [w_log_counter]: the module globals
      [dict_printing_objs_counter] and [dict_log_objs_counter] of
      [exec_max_n.py], two [defaultdict(int)] keyed by discriminator objects;
    - [w_wrappers]: the attribute [counter] of every wrapper function created
      by [exec_max_n], indexed by the wrapper's identity (allocation order).
      Wrappers are objects of the heap: two references to one wrapper share
      this counter;
    - [w_random]: the state of the global generator of the [random] module;
    - [w_environ] and [w_modules]: [os.environ] and the names of
      [sys.modules];
    - [w_libs]: what [set_seed] sets in numpy, torch and tensorflow, by the
      name of the function or flag ([numpy.random.seed], [torch.manual_seed],
      [torch.backends.cudnn.deterministic], ...).

    [PyM A] is a computation that reads and writes the world and returns a
    value or raises; side effects made before an exception remain, as in
    Python. *)

From S2P Require Import Prelude PyVal.

Record log_call : Type := {
  lc_logger : string;                    (** [logger.name] *)
  lc_level : Z;                          (** [logging.INFO] is 20, [WARNING] 30 *)
  lc_msg : pyval;
  lc_args : list pyval;
  lc_kwargs : list (string * pyval)
}.

Definition INFO : Z := 20.
Definition WARNING : Z := 30.

(** Python's [random] module: the seed it was last seeded with and the
    bounds of the draws made since, oldest first.  Mersenne Twister is not
    modelled: its outputs are a function of exactly this history. *)
Record rng_state : Type := {
  rs_seed : pyval;
  rs_draws : list Z
}.

Record world : Type := {
  w_stdout : list string;
  w_logs : list log_call;
  w_print_counter : list (pyval * Z);
  w_log_counter : list (pyval * Z);
  w_wrappers : list Z;
  w_random : rng_state;                  (** the global generator of [random] *)
  w_environ : list (string * string);    (** [os.environ] *)
  w_modules : list string;               (** the names in [sys.modules] *)
  w_libs : list (string * pyval)         (** seeds and flags set in numpy, torch, tensorflow *)
}.

Definition world_init : world :=
  {| w_stdout := []; w_logs := []; w_print_counter := []; w_log_counter := [];
     w_wrappers := []; w_random := {| rs_seed := PNone; rs_draws := [] |};
     w_environ := []; w_modules := []; w_libs := [] |}.

Definition set_stdout (o : list string) (w : world) : world :=
  {| w_stdout := o; w_logs := w_logs w; w_print_counter := w_print_counter w;
     w_log_counter := w_log_counter w; w_wrappers := w_wrappers w; w_random := w_random w;
     w_environ := w_environ w; w_modules := w_modules w; w_libs := w_libs w |}.
Definition set_logs (l : list log_call) (w : world) : world :=
  {| w_stdout := w_stdout w; w_logs := l; w_print_counter := w_print_counter w;
     w_log_counter := w_log_counter w; w_wrappers := w_wrappers w; w_random := w_random w;
     w_environ := w_environ w; w_modules := w_modules w; w_libs := w_libs w |}.
Definition set_print_counter (t : list (pyval * Z)) (w : world) : world :=
  {| w_stdout := w_stdout w; w_logs := w_logs w; w_print_counter := t;
     w_log_counter := w_log_counter w; w_wrappers := w_wrappers w; w_random := w_random w;
     w_environ := w_environ w; w_modules := w_modules w; w_libs := w_libs w |}.
Definition set_log_counter (t : list (pyval * Z)) (w : world) : world :=
  {| w_stdout := w_stdout w; w_logs := w_logs w; w_print_counter := w_print_counter w;
     w_log_counter := t; w_wrappers := w_wrappers w; w_random := w_random w;
     w_environ := w_environ w; w_modules := w_modules w; w_libs := w_libs w |}.
Definition set_wrappers (h : list Z) (w : world) : world :=
  {| w_stdout := w_stdout w; w_logs := w_logs w; w_print_counter := w_print_counter w;
     w_log_counter := w_log_counter w; w_wrappers := h; w_random := w_random w;
     w_environ := w_environ w; w_modules := w_modules w; w_libs := w_libs w |}.
Definition set_random (r : rng_state) (w : world) : world :=
  {| w_stdout := w_stdout w; w_logs := w_logs w; w_print_counter := w_print_counter w;
     w_log_counter := w_log_counter w; w_wrappers := w_wrappers w; w_random := r;
     w_environ := w_environ w; w_modules := w_modules w; w_libs := w_libs w |}.
Definition set_environ (e : list (string * string)) (w : world) : world :=
  {| w_stdout := w_stdout w; w_logs := w_logs w; w_print_counter := w_print_counter w;
     w_log_counter := w_log_counter w; w_wrappers := w_wrappers w; w_random := w_random w;
     w_environ := e; w_modules := w_modules w; w_libs := w_libs w |}.
Definition set_libs (l : list (string * pyval)) (w : world) : world :=
  {| w_stdout := w_stdout w; w_logs := w_logs w; w_print_counter := w_print_counter w;
     w_log_counter := w_log_counter w; w_wrappers := w_wrappers w; w_random := w_random w;
     w_environ := w_environ w; w_modules := w_modules w; w_libs := l |}.

(** ** The monad *)

Definition PyM (A : Type) : Type := world -> result A * world.

#[export] Instance pym_ret : MRet PyM := fun _ a w => (Ok a, w).
#[export] Instance pym_bind : MBind PyM :=
  fun _ _ f m w => match m w with
                   | (Ok a, w') => f a w'
                   | (Err e, w') => (Err e, w')
                   end.

Definition raise {A} (e : py_exc) : PyM A := fun w => (Err e, w).

Definition lift {A} (r : result A) : PyM A := fun w => (r, w).

(** [try: m except Exception as e: h(e)]: every exception of the model is
    an [Exception]. *)
Definition try_except {A} (m : PyM A) (h : py_exc -> PyM A) : PyM A :=
  fun w => match m w with
           | (Err e, w') => h e w'
           | r => r
           end.

Definition gets {A} (f : world -> A) : PyM A := fun w => (Ok (f w), w).

Definition modify (f : world -> world) : PyM unit := fun w => (Ok tt, f w).

(** [print(v)] writes [str(v)] as one line. *)
Definition print (v : pyval) : PyM unit :=
  modify (fun w => set_stdout (w_stdout w ++ [py_str v]) w).

(** [print(s)] of a string. *)
Definition print_s (s : string) : PyM unit := print (PStr s).

(** [logger.log(level, msg, *args, **kwargs)]. *)
Definition logger_log (logger : string) (level : Z) (msg : pyval)
    (args : list pyval) (kwargs : list (string * pyval)) : PyM unit :=
  modify (fun w => set_logs (w_logs w ++ [{| lc_logger := logger; lc_level := level;
                                            lc_msg := msg; lc_args := args;
                                            lc_kwargs := kwargs |}]) w).

(** ** Callables

    A Python function: its [__name__], its [__code__.co_varnames] ([None]
    for builtins and classes, which have no [__code__]), and what a call with
    positional and keyword arguments does. *)
Record pyfunc : Type := {
  fn_name : string;
  fn_code : option (list string);
  fn_call : list pyval -> list (string * pyval) -> PyM pyval
}.

(** An argument typed [Any] or [Callable] in the source: data or a function. *)
Inductive pyobj : Type :=
| OVal (v : pyval)
| OFun (f : pyfunc).

Definition callable (o : pyobj) : bool := match o with OFun _ => true | OVal _ => false end.

(** [o is None] *)
Definition is_none_obj (o : pyobj) : bool :=
  match o with OVal PNone => true | _ => false end.

(** [o( *args, **kwargs)]: calling a non-callable raises [TypeError]. *)
Definition py_call (o : pyobj) (args : list pyval) (kwargs : list (string * pyval)) : PyM pyval :=
  match o with
  | OFun f => fn_call f args kwargs
  | OVal v => raise (TypeError ("'" +:+ py_type_name v +:+ "' object is not callable"))
  end.

Definition obj_str (o : pyobj) : string :=
  match o with
  | OVal v => py_str v
  | OFun f => "<function " +:+ fn_name f +:+ ">"
  end.

(** ** Laws of the monad used by the proofs *)

Lemma bind_ret {A B} (a : A) (f : A -> PyM B) w : (mret a ≫= f) w = f a w.
Proof. reflexivity. Qed.

Lemma bind_run {A B} (m : PyM A) (f : A -> PyM B) w a w' :
  m w = (Ok a, w') -> (m ≫= f) w = f a w'.
Proof. intros H. unfold mbind, pym_bind. by rewrite H. Qed.

Lemma bind_err {A B} (m : PyM A) (f : A -> PyM B) w e w' :
  m w = (Err e, w') -> (m ≫= f) w = (Err e, w').
Proof. intros H. unfold mbind, pym_bind. by rewrite H. Qed.

(** ** Binding keyword arguments

    Calling [def f(p1, ..., pn)] with keyword arguments only: an unknown
    keyword raises [TypeError], and so does a parameter left without a
    value.  Used to write the Python functions of the examples. *)
Fixpoint bind_params (fname : string) (params : list string) (kwargs : list (string * pyval))
    : result (list pyval) :=
  match params with
  | [] => Ok []
  | p :: ps =>
      match od_lookup String.eqb p kwargs with
      | Some v => res_map (cons v) (bind_params fname ps kwargs)
      | None => Err (TypeError (fname +:+ "() missing 1 required positional argument: '" +:+ p +:+ "'"))
      end
  end.

Definition bind_kwargs (fname : string) (params : list string) (kwargs : list (string * pyval))
    : result (list pyval) :=
  match List.find (fun kv => negb (existsb (String.eqb kv.1) params)) kwargs with
  | Some (k, _) => Err (TypeError (fname +:+ "() got an unexpected keyword argument '" +:+ k +:+ "'"))
  | None => bind_params fname params kwargs
  end.

(** [m;; return x] returns [x] when [m] returns normally. *)
Lemma seq_ret_fst {A B} (m : PyM A) (x : B) w a :
  (m w).1 = Ok a -> ((m;; mret x) w).1 = Ok x.
Proof. intros H. unfold mbind, pym_bind. destruct (m w) as [[a'|e] w']; simpl in *; congruence. Qed.

(** ** Computations that only print

    [outputs m r ls]: from every world, [m] ends with [r] having printed
    the lines [ls] and changed nothing else. *)
Definition outputs {A} (m : PyM A) (r : result A) (ls : list string) : Prop :=
  forall w, m w = (r, set_stdout (w_stdout w ++ ls) w).

Lemma set_stdout_twice o o' w : set_stdout o (set_stdout o' w) = set_stdout o w.
Proof. reflexivity. Qed.

Lemma outputs_ret {A} (a : A) : outputs (mret a) (Ok a) [].
Proof. intros w. rewrite app_nil_r. by destruct w. Qed.

Lemma outputs_raise {A} e : outputs (raise (A:=A) e) (Err e) [].
Proof. intros w. rewrite app_nil_r. by destruct w. Qed.

Lemma outputs_lift {A} (r : result A) : outputs (lift r) r [].
Proof. intros w. rewrite app_nil_r. by destruct w. Qed.

Lemma outputs_print v : outputs (print v) (Ok tt) [py_str v].
Proof. intros w. reflexivity. Qed.

Lemma outputs_bind {A B} (m : PyM A) (f : A -> PyM B) a r ls1 ls2 :
  outputs m (Ok a) ls1 -> outputs (f a) r ls2 -> outputs (m ≫= f) r (ls1 ++ ls2).
Proof.
  intros H1 H2 w. unfold mbind, pym_bind. rewrite H1, H2. simpl.
  by rewrite set_stdout_twice, app_assoc.
Qed.

Lemma outputs_bind_err {A B} (m : PyM A) (f : A -> PyM B) e ls :
  outputs m (Err e) ls -> outputs (m ≫= f) (Err e) ls.
Proof. intros H w. unfold mbind, pym_bind. by rewrite H. Qed.

Lemma outputs_try_ok {A} (m : PyM A) (h : py_exc -> PyM A) a ls :
  outputs m (Ok a) ls -> outputs (try_except m h) (Ok a) ls.
Proof. intros H w. unfold try_except. by rewrite H. Qed.

Lemma outputs_try_err {A} (m : PyM A) (h : py_exc -> PyM A) e r ls1 ls2 :
  outputs m (Err e) ls1 -> outputs (h e) r ls2 -> outputs (try_except m h) r (ls1 ++ ls2).
Proof.
  intros H1 H2 w. unfold try_except. rewrite H1, H2. simpl.
  by rewrite set_stdout_twice, app_assoc.
Qed.

Lemma outputs_print_s s : outputs (print_s s) (Ok tt) [s].
Proof. intros w. reflexivity. Qed.

Lemma outputs_eq {A} (m : PyM A) r ls ls' : outputs m r ls -> ls = ls' -> outputs m r ls'.
Proof. by intros H ->. Qed.

#[export] Hint Resolve outputs_ret outputs_raise outputs_lift outputs_print outputs_print_s : tbu.

(** Follow a chain of binds whose steps have [outputs] hints, through the
    first exception. *)
Ltac outputs_run :=
  lazymatch goal with
  | |- outputs (mbind ?f ?m) _ _ =>
      first [ eapply outputs_bind; [outputs_run | cbv beta; outputs_run]
            | eapply outputs_bind_err; outputs_run ]
  | _ => solve [eauto with tbu]
  end.
