(* ===== verification/Limiter.v ===== *)
(** * Abstract specification of a keyed rate limiter

    What [print_max_n] and [log_max_n] promise, stated without tables,
    hashing or output: a state gives each key the number of outputs already
    made for it; a call with key [k] and bound [n] outputs iff that number is
    below [n], and then adds one to it for every key equal to [k].  [lim_run]
    runs a sequence of calls and reports, for each call, the count it saw when
    it fired ([Some c]) or that it was suppressed ([None]).

    Theorems: the final count of a key is its initial count plus the calls
    that fired for it ([lim_run_count]); with bounds at most [N], at most
    [N - c0] calls fire per key ([lim_run_bound]); with the same bound [N]
    for every call, exactly the first [N - c0] calls of each key fire
    ([lim_run_first]).  [ExecMaxN] proves that the Python functions refine
    this specification. *)

From S2P Require Import Prelude.

Section Limiter.
Context {K : Type} (keq : K -> K -> bool).

Definition bump (cnt : K -> Z) (k : K) : K -> Z :=
  fun k' => if keq k' k then (cnt k + 1)%Z else cnt k'.

Fixpoint lim_run (cnt : K -> Z) (calls : list (K * Z)) : list (option Z) * (K -> Z) :=
  match calls with
  | [] => ([], cnt)
  | (k, n) :: cs =>
      if bool_decide (cnt k < n)%Z
      then let r := lim_run (bump cnt k) cs in (Some (cnt k) :: r.1, r.2)
      else let r := lim_run cnt cs in (None :: r.1, r.2)
  end.

(** How many of the calls fired for a key equal to [k]. *)
Fixpoint fired_for (k : K) (calls : list (K * Z)) (fires : list (option Z)) : nat :=
  match calls, fires with
  | (k', _) :: cs, Some _ :: fs => (if keq k' k then 1 else 0) + fired_for k cs fs
  | _ :: cs, None :: fs => fired_for k cs fs
  | _, _ => 0
  end.

(** How many of the calls have a key equal to [k]. *)
Fixpoint calls_for (k : K) (calls : list (K * Z)) : nat :=
  match calls with
  | [] => 0
  | (k', _) :: cs => (if keq k' k then 1 else 0) + calls_for k cs
  end.

Context (ok : K -> Prop)
  (keq_refl : forall x, ok x -> keq x x = true)
  (keq_sym : forall x y, ok x -> ok y -> keq x y = true -> keq y x = true)
  (keq_trans : forall x y z, ok x -> ok y -> ok z ->
               keq x y = true -> keq y z = true -> keq x z = true).

(** Counts give equal keys the same value. *)
Definition respects (cnt : K -> Z) : Prop :=
  forall a b, ok a -> ok b -> keq a b = true -> cnt a = cnt b.

Definition keys_of (calls : list (K * Z)) : Prop := Forall (fun c => ok c.1) calls.

Lemma keq_sym_false x y : ok x -> ok y -> keq x y = false -> keq y x = false.
Proof. intros Hx Hy H. destruct (keq y x) eqn:E; [|done]. by rewrite (keq_sym y x) in H. Qed.

Lemma bump_respects cnt k : ok k -> respects cnt -> respects (bump cnt k).
Proof.
  intros Hk Hr a b Ha Hb Hab. unfold bump.
  destruct (keq a k) eqn:Ea, (keq b k) eqn:Eb; try done.
  - assert (keq b k = true) by (apply (keq_trans b a k); auto). congruence.
  - assert (keq a k = true) by (apply (keq_trans a b k); auto). congruence.
  - by apply Hr.
Qed.

(** Counts that agree on every key give the same run. *)
Lemma lim_run_ext cnt1 cnt2 calls :
  (forall k, ok k -> cnt1 k = cnt2 k) -> keys_of calls ->
  (lim_run cnt1 calls).1 = (lim_run cnt2 calls).1 /\
  forall k, ok k -> (lim_run cnt1 calls).2 k = (lim_run cnt2 calls).2 k.
Proof.
  revert cnt1 cnt2. induction calls as [|[k0 n] cs IH]; intros cnt1 cnt2 Heq Hkeys; [done|].
  inversion Hkeys as [|? ? Hk0 Hcs]; subst; simpl in *.
  rewrite (Heq k0 Hk0).
  assert (forall k, ok k -> bump cnt1 k0 k = bump cnt2 k0 k)
    by (intros; unfold bump; rewrite (Heq k0 Hk0); case_match; auto).
  case_bool_decide.
  - destruct (IH (bump cnt1 k0) (bump cnt2 k0)) as [H1 H2]; auto. simpl. by rewrite H1.
  - destruct (IH cnt1 cnt2) as [H1 H2]; auto. simpl. by rewrite H1.
Qed.

Lemma lim_run_count cnt calls k :
  respects cnt -> keys_of calls -> ok k ->
  (lim_run cnt calls).2 k = (cnt k + Z.of_nat (fired_for k calls (lim_run cnt calls).1))%Z.
Proof.
  revert cnt. induction calls as [|[k0 n] cs IH]; intros cnt Hr Hkeys Hk; simpl; [lia|].
  inversion Hkeys as [|? ? Hk0 Hcs]; subst.
  case_bool_decide; simpl.
  - rewrite IH by auto using bump_respects. unfold bump.
    destruct (keq k k0) eqn:E.
    + rewrite (keq_sym k k0) by done. rewrite (Hr k k0) by done. lia.
    + rewrite (keq_sym_false k k0) by done. lia.
  - by apply IH.
Qed.

Lemma lim_run_bound cnt calls k (N : Z) :
  respects cnt -> keys_of calls -> ok k -> Forall (fun c => (c.2 <= N)%Z) calls ->
  (fired_for k calls (lim_run cnt calls).1 <= Z.to_nat (N - cnt k))%nat.
Proof.
  revert cnt. induction calls as [|[k0 n] cs IH]; intros cnt Hr Hkeys Hk HN; simpl; [lia|].
  inversion Hkeys as [|? ? Hk0 Hcs]; inversion HN as [|? ? Hn HN']; subst; simpl in *.
  case_bool_decide; simpl.
  - pose proof (IH (bump cnt k0) (bump_respects _ _ Hk0 Hr) Hcs Hk HN') as IH'.
    assert (Hb : bump cnt k0 k = if keq k k0 then (cnt k0 + 1)%Z else cnt k) by done.
    rewrite Hb in IH'. destruct (keq k k0) eqn:E.
    + rewrite (keq_sym k k0) by done. rewrite (Hr k k0) in * by done. lia.
    + rewrite (keq_sym_false k k0) by done. lia.
  - by apply IH.
Qed.

Lemma lim_run_first cnt calls k (N : Z) :
  respects cnt -> keys_of calls -> ok k -> Forall (fun c => c.2 = N) calls ->
  fired_for k calls (lim_run cnt calls).1 = Nat.min (calls_for k calls) (Z.to_nat (N - cnt k)).
Proof.
  revert cnt. induction calls as [|[k0 n] cs IH]; intros cnt Hr Hkeys Hk HN; simpl; [lia|].
  inversion Hkeys as [|? ? Hk0 Hcs]; inversion HN as [|? ? Hn HN']; subst; simpl in *.
  case_bool_decide; simpl.
  - rewrite (IH (bump cnt k0) (bump_respects _ _ Hk0 Hr) Hcs Hk HN'). unfold bump.
    destruct (keq k0 k) eqn:E.
    + rewrite (keq_sym k0 k), (Hr k k0) by auto. lia.
    + rewrite (keq_sym_false k0 k) by done. lia.
  - rewrite (IH cnt Hr Hcs Hk HN').
    destruct (keq k0 k) eqn:E; [|lia].
    rewrite (Hr k k0) in * by auto. lia.
Qed.
End Limiter.
