(* ===== verification/ExecMaxN.v ===== *)
(** * [src/tbutils/exec_max_n.py]: rate-limited print, log and execution

    The two module globals [dict_printing_objs_counter] and
    [dict_log_objs_counter] are the [w_print_counter] and [w_log_counter]
    fields of the world, named here by [counter_space]; a [defaultdict(int)]
    read inserts a missing key with 0 ([dd_getitem]).  [print_max_n] and
    [log_max_n] are translated statement by statement; the [_once] and [warn_]
    variants are the same calls with [n = 1] or [level = WARNING].
    [exec_max_n] allocates a wrapper whose [counter] attribute lives in the
    world's heap [w_wrappers]; [wrapper_call] is the body of the inner
    [wrapper] function.

    Theorems: the functional behaviour of each operation on every branch
    (key unhashable, budget left, budget spent); the invariant that a counter
    counts the outputs made for its key; the bound of [n] outputs per key
    over any sequence of calls, as a refinement of an abstract limiter; the
    equivalence of [log_max_n] with [print_max_n] whose sink is the logger,
    each counting in its own table; and for [exec_max_n] the
    fail-fast check, the criteria that do not consume the budget and the
    refinement "the first [n] eligible calls run [func]". *)

From S2P Require Import Prelude PyVal World Limiter.

(** ** Counter tables *)

Definition counter_table : Type := list (pyval * Z).

Inductive counter_space : Type :=
| PrintSpace   (** [dict_printing_objs_counter] *)
| LogSpace.    (** [dict_log_objs_counter] *)

Definition table_of (sp : counter_space) (w : world) : counter_table :=
  match sp with PrintSpace => w_print_counter w | LogSpace => w_log_counter w end.

Definition set_table (sp : counter_space) (t : counter_table) (w : world) : world :=
  match sp with PrintSpace => set_print_counter t w | LogSpace => set_log_counter t w end.

(** [table[k]] on a [defaultdict(int)]: an unhashable key raises, a missing
    key is inserted with the default [int()] = 0. *)
Definition dd_getitem (t : counter_table) (k : pyval) : result (Z * counter_table) :=
  if py_hashable k then
    match od_lookup py_eq k t with
    | Some c => Ok (c, t)
    | None => Ok (0%Z, od_insert py_eq k 0%Z t)
    end
  else Err (unhashable k).

(** The value a read of [table[k]] returns. *)
Definition dd_count (t : counter_table) (k : pyval) : Z :=
  default 0%Z (od_lookup py_eq k t).

Definition counter_get (sp : counter_space) (k : pyval) : PyM Z :=
  fun w => match dd_getitem (table_of sp w) k with
           | Ok (c, t) => (Ok c, set_table sp t w)
           | Err e => (Err e, w)
           end.

(** [table[k] += 1] *)
Definition counter_incr (sp : counter_space) (k : pyval) : PyM unit :=
  c ← counter_get sp k;
  modify (fun w => set_table sp (od_insert py_eq k (c + 1)%Z (table_of sp w)) w).

(** ** [obj_to_discr_obj] (lines 6-21) *)

(** Lines 17-18: [if discr_obj is None: discr_obj = obj]. *)
Definition default_discr (obj discr_obj : pyval) : pyval :=
  if is_none discr_obj then obj else discr_obj.

Definition obj_to_discr_obj (obj discr_obj : pyval) (discr_fn : pyobj) : PyM pyval :=
  let discr_obj := default_discr obj discr_obj in
  if is_none_obj discr_fn then mret discr_obj
  else py_call discr_fn [discr_obj] [].

(** [f"{obj} ({counter+1}/{n})"] *)
Definition counter_msg (obj : pyval) (c n : Z) : pyval :=
  PStr (py_str obj +:+ " (" +:+ pretty (c + 1)%Z +:+ "/" +:+ pretty n +:+ ")").

(** ** [print_max_n] and [print_once] (lines 27-70) *)

Definition print_max_n (obj : pyval) (n : Z) (discr_obj : pyval) (discr_fn : pyobj)
    (show_counter : bool) : PyM unit :=
  k ← obj_to_discr_obj obj discr_obj discr_fn;
  c ← counter_get PrintSpace k;
  if bool_decide (c < n)%Z then
    (if show_counter
     then c' ← counter_get PrintSpace k; print (counter_msg obj c' n)
     else print obj);;
    counter_incr PrintSpace k
  else mret tt.

Definition print_once (obj discr_obj : pyval) (discr_fn : pyobj) (show_counter : bool)
    : PyM unit :=
  print_max_n obj 1 discr_obj discr_fn show_counter.

(** ** [log_max_n], [log_once], [warn_max_n], [warn_once] (lines 76-192) *)

Definition log_max_n (logger : string) (obj : pyval) (n : Z) (discr_obj : pyval)
    (discr_fn : pyobj) (level : Z) (show_counter : bool)
    (args : list pyval) (kwargs : list (string * pyval)) : PyM unit :=
  k ← obj_to_discr_obj obj discr_obj discr_fn;
  c ← counter_get LogSpace k;
  if bool_decide (c < n)%Z then
    msg ← (if show_counter
           then c' ← counter_get LogSpace k; mret (counter_msg obj c' n)
           else mret obj);
    logger_log logger level msg args kwargs;;
    counter_incr LogSpace k
  else mret tt.

Definition log_once (logger : string) (obj discr_obj : pyval) (discr_fn : pyobj)
    (level : Z) (show_counter : bool) (args : list pyval)
    (kwargs : list (string * pyval)) : PyM unit :=
  log_max_n logger obj 1 discr_obj discr_fn level show_counter args kwargs.

Definition warn_max_n (logger : string) (obj : pyval) (n : Z) (discr_obj : pyval)
    (discr_fn : pyobj) (show_counter : bool) (args : list pyval)
    (kwargs : list (string * pyval)) : PyM unit :=
  log_max_n logger obj n discr_obj discr_fn WARNING show_counter args kwargs.

Definition warn_once (logger : string) (obj discr_obj : pyval) (discr_fn : pyobj)
    (show_counter : bool) (args : list pyval) (kwargs : list (string * pyval)) : PyM unit :=
  log_once logger obj discr_obj discr_fn WARNING show_counter args kwargs.

(** ** [exec_max_n] and [exec_once] (lines 195-239)

    The inner function [wrapper] closes over [func], [n], [criteria_exec] and
    [show_counter]; its attribute [counter] is the heap cell [wr_id]. *)

Record wrapper : Type := {
  wr_func : pyfunc;
  wr_n : Z;
  wr_criteria : pyobj;
  wr_show : bool;
  wr_id : nat
}.

Definition wrapper_counter (id : nat) : PyM Z :=
  fun w => match w_wrappers w !! id with
           | Some c => (Ok c, w)
           | None => (Err (AttributeError "'function' object has no attribute 'counter'"), w)
           end.

Definition set_wrapper_counter (id : nat) (c : Z) : PyM unit :=
  modify (fun w => set_wrappers (<[id := c]> (w_wrappers w)) w).

(** [f"{func.__name__} was called ({n-wrapper.counter+1}/{n})"] *)
Definition called_msg (f : pyfunc) (n c : Z) : pyval :=
  PStr (fn_name f +:+ " was called (" +:+ pretty (n - c + 1)%Z +:+ "/" +:+ pretty n +:+ ")").

(** [criteria_exec is None or criteria_exec( *args, **kwargs)], the negation
    of the early-return test (line 214). *)
Definition criteria_ok (criteria_exec : pyobj) (args : list pyval)
    (kwargs : list (string * pyval)) : PyM bool :=
  if is_none_obj criteria_exec then mret true
  else r ← py_call criteria_exec args kwargs; mret (py_truthy r).

(** The body of [wrapper( *args, **kwargs)]. *)
Definition wrapper_call (wr : wrapper) (args : list pyval) (kwargs : list (string * pyval))
    : PyM pyval :=
  criteria_ok (wr_criteria wr) args kwargs ≫= fun (proceed : bool) =>
  if proceed then
    (c ← wrapper_counter (wr_id wr);
     if bool_decide (0 < c)%Z then
       (if wr_show wr
        then c' ← wrapper_counter (wr_id wr); print (called_msg (wr_func wr) (wr_n wr) c')
        else mret tt);;
       c'' ← wrapper_counter (wr_id wr);
       set_wrapper_counter (wr_id wr) (c'' - 1)%Z;;
       fn_call (wr_func wr) args kwargs
     else mret PNone)
  else mret PNone.

Definition exec_max_n (func : pyobj) (n : Z) (criteria_exec : pyobj) (show_counter : bool)
    : PyM wrapper :=
  match func with
  | OVal v => raise (AssertionError [PStr ("Expected a callable, got " +:+ py_str v)])
  | OFun f =>
      fun w => (Ok {| wr_func := f; wr_n := n; wr_criteria := criteria_exec;
                      wr_show := show_counter; wr_id := length (w_wrappers w) |},
                set_wrappers (w_wrappers w ++ [n]) w)
  end.

Definition exec_once (func : pyobj) (criteria_exec : pyobj) (show_counter : bool)
    : PyM wrapper :=
  exec_max_n func 1 criteria_exec show_counter.

(** ** Counter tables: reading, touching and incrementing *)

(** The keys of a dict are hashable. *)
Definition table_wf (t : counter_table) : Prop := keys_ok hashable t.

(** The table after a read of [table[k]]: [k] is present. *)
Definition dd_touch (t : counter_table) (k : pyval) : counter_table :=
  match od_lookup py_eq k t with Some _ => t | None => od_insert py_eq k 0%Z t end.

Ltac world_simpl :=
  cbn [w_stdout w_logs w_print_counter w_log_counter w_wrappers w_random w_environ w_modules
       w_libs set_stdout set_logs set_print_counter set_log_counter set_wrappers set_random
       set_environ set_libs table_of set_table] in *.

Section Tables.
Implicit Types (t : counter_table) (k : pyval).

Lemma table_wf_insert t k v : table_wf t -> hashable k -> table_wf (od_insert py_eq k v t).
Proof. intros. by apply keys_ok_insert. Qed.

Lemma table_wf_touch t k : table_wf t -> hashable k -> table_wf (dd_touch t k).
Proof. unfold dd_touch. intros. case_match; [done|]. by apply table_wf_insert. Qed.

Lemma count_insert_eq t k k' v :
  table_wf t -> hashable k -> hashable k' -> py_eq k' k = true ->
  dd_count (od_insert py_eq k v t) k' = v.
Proof.
  intros. unfold dd_count.
  by rewrite (od_lookup_insert_eq py_eq hashable py_eq_sym py_eq_trans).
Qed.

Lemma count_insert_ne t k k' v :
  table_wf t -> hashable k -> hashable k' -> py_eq k' k = false ->
  dd_count (od_insert py_eq k v t) k' = dd_count t k'.
Proof.
  intros. unfold dd_count.
  by rewrite (od_lookup_insert_ne py_eq hashable py_eq_sym py_eq_trans).
Qed.

Lemma count_proper t k k' :
  table_wf t -> hashable k -> hashable k' -> py_eq k k' = true ->
  dd_count t k = dd_count t k'.
Proof.
  intros. unfold dd_count.
  by rewrite (od_lookup_proper py_eq hashable py_eq_sym py_eq_trans k k').
Qed.

Lemma count_touch t k k' :
  table_wf t -> hashable k -> hashable k' -> dd_count (dd_touch t k) k' = dd_count t k'.
Proof.
  intros Ht Hk Hk'. unfold dd_touch. destruct (od_lookup py_eq k t) eqn:E; [done|].
  destruct (py_eq k' k) eqn:Eq.
  - rewrite count_insert_eq by done. unfold dd_count.
    rewrite (od_lookup_proper py_eq hashable py_eq_sym py_eq_trans k' k); [by rewrite E|..]; done.
  - by rewrite count_insert_ne.
Qed.

Lemma touch_touch t k : table_wf t -> hashable k -> dd_touch (dd_touch t k) k = dd_touch t k.
Proof.
  intros Ht Hk. unfold dd_touch at 2. destruct (od_lookup py_eq k t) eqn:E.
  - unfold dd_touch. by rewrite E.
  - unfold dd_touch.
    by rewrite (od_lookup_insert_eq py_eq hashable py_eq_sym py_eq_trans k k 0%Z t Hk Hk Ht
                  (py_eq_refl k Hk)), E.
Qed.

Lemma dd_getitem_hashable t k :
  hashable k -> dd_getitem t k = Ok (dd_count t k, dd_touch t k).
Proof.
  unfold dd_getitem, dd_count, dd_touch, hashable. intros ->.
  by destruct (od_lookup py_eq k t).
Qed.

Lemma counter_get_run sp k w :
  hashable k ->
  counter_get sp k w = (Ok (dd_count (table_of sp w) k), set_table sp (dd_touch (table_of sp w) k) w).
Proof. intros Hk. unfold counter_get. by rewrite dd_getitem_hashable. Qed.

Lemma counter_get_unhashable sp k w :
  ~ hashable k -> counter_get sp k w = (Err (unhashable k), w).
Proof.
  unfold counter_get, dd_getitem, hashable. intros Hk.
  by destruct (py_hashable k).
Qed.

Lemma table_of_set sp t w : table_of sp (set_table sp t w) = t.
Proof. by destruct sp. Qed.
End Tables.

#[export] Hint Resolve table_wf_insert table_wf_touch : tbu.
#[export] Hint Rewrite table_of_set : tbu_world.

(** ** One call of [print_max_n] and [log_max_n] *)

Ltac pym_unfold :=
  unfold counter_incr, counter_get, print, logger_log, modify, mbind, pym_bind, mret, pym_ret.
Ltac pym_cbn := cbn -[dd_getitem dd_count dd_touch od_insert py_str counter_msg called_msg].
Ltac pym_run := repeat progress (pym_cbn; rewrite ?dd_getitem_hashable by done).

(** The count after a firing call: one more for the key and the keys equal
    to it, the same for the others. *)
Lemma count_fire t k k' :
  table_wf t -> hashable k -> hashable k' ->
  dd_count (od_insert py_eq k (dd_count t k + 1)%Z (dd_touch t k)) k' = bump py_eq (dd_count t) k k'.
Proof.
  intros Ht Hk Hk'. unfold bump. destruct (py_eq k' k) eqn:E.
  - by rewrite count_insert_eq by auto with tbu.
  - rewrite count_insert_ne by auto with tbu. by apply count_touch.
Qed.

Lemma count_respects t : table_wf t -> respects py_eq hashable (dd_count t).
Proof. intros Ht a b Ha Hb Hab. by apply count_proper. Qed.

(** With a hashable discriminator key, [print_max_n] returns normally. *)
Lemma print_max_n_ok obj n d f show w k w1 :
  obj_to_discr_obj obj d f w = (Ok k, w1) -> hashable k -> (print_max_n obj n d f show w).1 = Ok tt.
Proof.
  intros Hd Hk. unfold print_max_n. rewrite (bind_run _ _ _ _ _ Hd).
  pym_unfold. pym_run. case_bool_decide; [|done]. destruct show; pym_run; done.
Qed.

(** One call of [print_max_n] with a hashable key, as the claim below states it; shared by the proofs on sequences of calls. *)
Lemma print_max_n_call obj n d f show w k w1 :
  obj_to_discr_obj obj d f w = (Ok k, w1) -> hashable k -> table_wf (w_print_counter w1) ->
  print_max_n obj n d f show w =
    (let c := dd_count (w_print_counter w1) k in
     let t := dd_touch (w_print_counter w1) k in
     if bool_decide (c < n)%Z
     then (Ok tt, set_print_counter (od_insert py_eq k (c + 1)%Z t)
                    (set_stdout (w_stdout w1 ++ [py_str (if show then counter_msg obj c n else obj)]) w1))
     else (Ok tt, set_print_counter t w1)).
Proof.
  intros Hd Hk Ht. unfold print_max_n. rewrite (bind_run _ _ _ _ _ Hd).
  pym_unfold. pym_run. case_bool_decide; [|done].
  destruct show; pym_run; rewrite ?count_touch, ?touch_touch by auto with tbu; done.
Qed.

(** C2: [print_max_n] with a hashable discriminator key [k]: when the key has
    been printed fewer than [n] times it prints [obj] (or
    [f"{obj} ({c+1}/{n})"] with [show_counter]) and adds one to the key's
    counter; otherwise it prints nothing and only leaves the key in the table
    with its count (the defaultdict read). *)
Theorem print_max_n_run obj n d f show w k w1 :
  obj_to_discr_obj obj d f w = (Ok k, w1) -> hashable k -> table_wf (w_print_counter w1) ->
  print_max_n obj n d f show w =
    (let c := dd_count (w_print_counter w1) k in
     let t := dd_touch (w_print_counter w1) k in
     if bool_decide (c < n)%Z
     then (Ok tt, set_print_counter (od_insert py_eq k (c + 1)%Z t)
                    (set_stdout (w_stdout w1 ++ [py_str (if show then counter_msg obj c n else obj)]) w1))
     else (Ok tt, set_print_counter t w1)).
Proof. apply print_max_n_call. Qed.

(** C10: An unhashable discriminator key (the printed object itself when no
    [discr_obj] is given, e.g. a list or a dict) makes [print_max_n] raise
    [TypeError: unhashable type] before anything is printed: the helper does
    not degrade silently on such input. *)
Theorem print_max_n_unhashable obj n d f show w k w1 :
  obj_to_discr_obj obj d f w = (Ok k, w1) -> ~ hashable k ->
  print_max_n obj n d f show w = (Err (unhashable k), w1).
Proof.
  intros Hd Hk. unfold print_max_n. rewrite (bind_run _ _ _ _ _ Hd).
  by rewrite (bind_err _ _ _ _ _ (counter_get_unhashable PrintSpace k w1 Hk)).
Qed.

(** [log_max_n] with a hashable key: it calls [logger.log(level, msg,
    *args, **kwargs)] exactly when the key has been logged fewer than [n]
    times, and counts in [dict_log_objs_counter]; standard output and the
    printing counters are untouched. *)
Theorem log_max_n_run logger obj n d f level show args kwargs w k w1 :
  obj_to_discr_obj obj d f w = (Ok k, w1) -> hashable k -> table_wf (w_log_counter w1) ->
  log_max_n logger obj n d f level show args kwargs w =
    (let c := dd_count (w_log_counter w1) k in
     let t := dd_touch (w_log_counter w1) k in
     if bool_decide (c < n)%Z
     then (Ok tt, set_log_counter (od_insert py_eq k (c + 1)%Z t)
                    (set_logs (w_logs w1 ++ [{| lc_logger := logger; lc_level := level;
                                                lc_msg := if show then counter_msg obj c n else obj;
                                                lc_args := args; lc_kwargs := kwargs |}]) w1))
     else (Ok tt, set_log_counter t w1)).
Proof.
  intros Hd Hk Ht. unfold log_max_n. rewrite (bind_run _ _ _ _ _ Hd).
  pym_unfold. pym_run. case_bool_decide; [|done].
  destruct show; pym_run; rewrite ?count_touch, ?touch_touch by auto with tbu; done.
Qed.

(** ** Sequences of [print_max_n] calls refine the abstract limiter *)

Record print_call : Type := {
  pc_obj : pyval;
  pc_n : Z;
  pc_discr : pyval;
  pc_show : bool
}.

Definition pc_key (c : print_call) : pyval := default_discr (pc_obj c) (pc_discr c).

Fixpoint run_prints (calls : list print_call) : PyM unit :=
  match calls with
  | [] => mret tt
  | c :: cs => print_max_n (pc_obj c) (pc_n c) (pc_discr c) (OVal PNone) (pc_show c);; run_prints cs
  end.

Definition lim_calls (calls : list print_call) : list (pyval * Z) :=
  map (fun c => (pc_key c, pc_n c)) calls.

Definition print_line (c : print_call) (cnt : Z) : string :=
  py_str (if pc_show c then counter_msg (pc_obj c) cnt (pc_n c) else pc_obj c).

(** The lines the calls that fired write. *)
Fixpoint print_lines (calls : list print_call) (fires : list (option Z)) : list string :=
  match calls, fires with
  | c :: cs, Some cnt :: fs => print_line c cnt :: print_lines cs fs
  | _ :: cs, None :: fs => print_lines cs fs
  | _, _ => []
  end.

Lemma keys_of_lim_calls calls :
  Forall (fun c => hashable (pc_key c)) calls -> keys_of hashable (lim_calls calls).
Proof. intros H. unfold keys_of, lim_calls. by apply Forall_fmap. Qed.

(** The simulation between [run_prints] and [lim_run], shared by the
    theorems on sequences of prints. *)
Lemma run_prints_sim calls w :
  table_wf (w_print_counter w) -> Forall (fun c => hashable (pc_key c)) calls ->
  exists w', run_prints calls w = (Ok tt, w') /\
    w_stdout w' = w_stdout w ++
      print_lines calls (lim_run py_eq (dd_count (w_print_counter w)) (lim_calls calls)).1 /\
    (forall k, hashable k -> dd_count (w_print_counter w') k =
      (lim_run py_eq (dd_count (w_print_counter w)) (lim_calls calls)).2 k) /\
    table_wf (w_print_counter w') /\
    w_logs w' = w_logs w /\ w_log_counter w' = w_log_counter w /\ w_wrappers w' = w_wrappers w.
Proof.
  revert w. induction calls as [|c cs IH]; intros w Ht Hkeys; simpl.
  { exists w. rewrite app_nil_r. done. }
  inversion Hkeys as [|? ? Hk Hcs]; subst.
  pose proof (print_max_n_call (pc_obj c) (pc_n c) (pc_discr c) (OVal PNone) (pc_show c)
                w (pc_key c) w eq_refl Hk Ht) as Hrun. cbv zeta in Hrun.
  destruct (decide (dd_count (w_print_counter w) (pc_key c) < pc_n c)%Z) as [Hlt|Hlt].
  - rewrite (bool_decide_eq_true_2 _ Hlt) in Hrun |- *.
    rewrite (bind_run _ _ _ _ _ Hrun).
    match type of Hrun with _ = (_, ?w1) =>
      destruct (IH w1) as (w' & Hw' & Hout & Hcnt & Hwf & Hl & Hlc & Hwr);
      [world_simpl; auto with tbu | done |] end.
    world_simpl.
    destruct (lim_run_ext py_eq hashable
                (dd_count (od_insert py_eq (pc_key c) (dd_count (w_print_counter w) (pc_key c) + 1)%Z
                             (dd_touch (w_print_counter w) (pc_key c))))
                (bump py_eq (dd_count (w_print_counter w)) (pc_key c)) (lim_calls cs))
      as [Hf1 Hf2]; [intros; by apply count_fire | by apply keys_of_lim_calls |].
    exists w'. split; [done|]. rewrite Hout, Hf1, <- app_assoc. split; [done|].
    split; [intros; rewrite Hcnt by done; by apply Hf2|]. done.
  - rewrite (bool_decide_eq_false_2 _ Hlt) in Hrun |- *.
    rewrite (bind_run _ _ _ _ _ Hrun).
    match type of Hrun with _ = (_, ?w1) =>
      destruct (IH w1) as (w' & Hw' & Hout & Hcnt & Hwf & Hl & Hlc & Hwr);
      [world_simpl; auto with tbu | done |] end.
    world_simpl.
    destruct (lim_run_ext py_eq hashable (dd_count (dd_touch (w_print_counter w) (pc_key c)))
                (dd_count (w_print_counter w)) (lim_calls cs))
      as [Hf1 Hf2]; [intros; by apply count_touch | by apply keys_of_lim_calls |].
    exists w'. split; [done|]. rewrite Hout, Hf1. split; [done|].
    split; [intros; rewrite Hcnt by done; by apply Hf2|]. done.
Qed.

(** C1: Refinement: running any sequence of [print_max_n] calls (discriminator
    objects, no discriminator function) from a world whose printing table
    gives counts [c0] writes exactly the lines of the calls the abstract
    limiter [lim_run] fires, in order, and leaves the table with the
    limiter's final counts; logs, the log table and the wrapper heap are
    untouched. *)
Theorem run_prints_refines calls w :
  table_wf (w_print_counter w) -> Forall (fun c => hashable (pc_key c)) calls ->
  exists w', run_prints calls w = (Ok tt, w') /\
    w_stdout w' = w_stdout w ++
      print_lines calls (lim_run py_eq (dd_count (w_print_counter w)) (lim_calls calls)).1 /\
    (forall k, hashable k -> dd_count (w_print_counter w') k =
      (lim_run py_eq (dd_count (w_print_counter w)) (lim_calls calls)).2 k) /\
    table_wf (w_print_counter w') /\
    w_logs w' = w_logs w /\ w_log_counter w' = w_log_counter w /\ w_wrappers w' = w_wrappers w.
Proof. apply run_prints_sim. Qed.

Lemma lim_calls_bound calls (N : Z) :
  Forall (fun c => (pc_n c <= N)%Z) calls -> Forall (fun c => (c.2 <= N)%Z) (lim_calls calls).
Proof. intros H. unfold lim_calls. by apply Forall_fmap. Qed.

Lemma lim_calls_same calls (N : Z) :
  Forall (fun c => pc_n c = N) calls -> Forall (fun c => c.2 = N) (lim_calls calls).
Proof. intros H. unfold lim_calls. by apply Forall_fmap. Qed.

(** C3: When every call has the same bound [N], exactly the first [N - c0]
    calls of each discriminator key print ([c0] the key's count before the
    sequence): [print_max_n] prints an object at most [N] times, and
    suppresses only once the budget is spent. *)
Theorem run_prints_first_n calls w k N :
  table_wf (w_print_counter w) -> Forall (fun c => hashable (pc_key c)) calls -> hashable k ->
  Forall (fun c => pc_n c = N) calls ->
  exists w', run_prints calls w = (Ok tt, w') /\
    w_stdout w' = w_stdout w ++
      print_lines calls (lim_run py_eq (dd_count (w_print_counter w)) (lim_calls calls)).1 /\
    fired_for py_eq k (lim_calls calls)
      (lim_run py_eq (dd_count (w_print_counter w)) (lim_calls calls)).1
    = Nat.min (calls_for py_eq k (lim_calls calls)) (Z.to_nat (N - dd_count (w_print_counter w) k)).
Proof.
  intros Ht Hkeys Hk HN.
  destruct (run_prints_sim calls w Ht Hkeys) as (w' & Hrun & Hout & _).
  exists w'. split; [done|]. split; [done|].
  apply (lim_run_first py_eq hashable py_eq_sym py_eq_trans); auto using count_respects,
    keys_of_lim_calls, lim_calls_same.
Qed.

(** With bounds at most [N], at most [N - c0] of the printed lines come
    from calls with a key equal to [k], whatever the interleaving with other
    keys; the table's final count for [k] is [c0] plus that number. *)
Theorem run_prints_at_most calls w k N :
  table_wf (w_print_counter w) -> Forall (fun c => hashable (pc_key c)) calls -> hashable k ->
  Forall (fun c => (pc_n c <= N)%Z) calls ->
  exists w', run_prints calls w = (Ok tt, w') /\
    let fires := (lim_run py_eq (dd_count (w_print_counter w)) (lim_calls calls)).1 in
    w_stdout w' = w_stdout w ++ print_lines calls fires /\
    dd_count (w_print_counter w') k =
      (dd_count (w_print_counter w) k + Z.of_nat (fired_for py_eq k (lim_calls calls) fires))%Z /\
    (fired_for py_eq k (lim_calls calls) fires <= Z.to_nat (N - dd_count (w_print_counter w) k))%nat.
Proof.
  intros Ht Hkeys Hk HN.
  destruct (run_prints_sim calls w Ht Hkeys) as (w' & Hrun & Hout & Hcnt & _).
  exists w'. split; [done|]. simpl. split; [done|]. split.
  - rewrite Hcnt by done.
    apply (lim_run_count py_eq hashable py_eq_sym py_eq_trans);
      auto using count_respects, keys_of_lim_calls.
  - apply (lim_run_bound py_eq hashable py_eq_sym py_eq_trans);
      auto using count_respects, keys_of_lim_calls, lim_calls_bound.
Qed.

(** ** [log_max_n] is [print_max_n] with another sink *)

(** The calls of [run_prints] made to [log_max_n] instead. *)
Fixpoint run_logs (logger : string) (level : Z) (calls : list print_call) : PyM unit :=
  match calls with
  | [] => mret tt
  | c :: cs => log_max_n logger (pc_obj c) (pc_n c) (pc_discr c) (OVal PNone) level (pc_show c) [] [];;
               run_logs logger level cs
  end.

(** One call of each, from tables that agree. *)
Lemma print_log_step logger level c wp wl :
  w_print_counter wp = w_log_counter wl ->
  let '(rp, wp') := print_max_n (pc_obj c) (pc_n c) (pc_discr c) (OVal PNone) (pc_show c) wp in
  let '(rl, wl') := log_max_n logger (pc_obj c) (pc_n c) (pc_discr c) (OVal PNone) level (pc_show c) [] [] wl in
  rp = rl /\ w_print_counter wp' = w_log_counter wl' /\
  exists logs, w_logs wl' = w_logs wl ++ logs /\
    w_stdout wp' = w_stdout wp ++ map (fun l => py_str (lc_msg l)) logs /\
    Forall (fun l => lc_logger l = logger /\ lc_level l = level) logs.
Proof.
  intros Heq. unfold print_max_n, log_max_n, obj_to_discr_obj. simpl is_none_obj. cbv iota.
  pym_unfold. cbn -[dd_getitem od_insert py_str counter_msg]. rewrite <- Heq.
  repeat (case_match; simplify_eq/=; world_simpl;
          repeat match goal with H : ?x = _, H' : ?x = _ |- _ => rewrite H in H'; simplify_eq end);
  (split; [done|]; split; [done|]);
  first [exists []; rewrite !app_nil_r; done | eexists [_]; split; [done|]; split; [done|]; repeat constructor].
Qed.


(** C4: Equivalence of the two limiters: [log_max_n] (lines 103-107)
    repeats the code of [print_max_n] (lines 46-51) with the logger as its
    sink.  From tables that agree, any sequence of calls of the two
    functions with the same arguments ends with the same result (the same
    exception included), tables that agree again, and a log whose messages,
    as strings, are the printed lines, each logged under the given logger
    and level. *)
Theorem print_log_equiv logger level calls wp wl :
  w_print_counter wp = w_log_counter wl ->
  (run_prints calls wp).1 = (run_logs logger level calls wl).1 /\
  w_print_counter (run_prints calls wp).2 = w_log_counter (run_logs logger level calls wl).2 /\
  exists logs, w_logs (run_logs logger level calls wl).2 = w_logs wl ++ logs /\
    w_stdout (run_prints calls wp).2 = w_stdout wp ++ map (fun l => py_str (lc_msg l)) logs /\
    Forall (fun l => lc_logger l = logger /\ lc_level l = level) logs.
Proof.
  revert wp wl. induction calls as [|c cs IH]; intros wp wl Heq.
  - do 2 (split; [done|]). exists []. by rewrite !app_nil_r.
  - pose proof (print_log_step logger level c wp wl Heq) as Hs. cbn [run_prints run_logs].
    unfold mbind, pym_bind.
    destruct (print_max_n _ _ _ _ _ wp) as [[[]|e] wp1], (log_max_n _ _ _ _ _ _ _ _ _ wl) as [rl wl1];
      destruct Hs as (<- & Heq1 & logs1 & Hl1 & Ho1 & Hf1); [|by do 2 (split; [done|]); exists logs1].
    destruct (IH wp1 wl1 Heq1) as (Hr & Hc & logs2 & Hl2 & Ho2 & Hf2).
    do 2 (split; [done|]). exists (logs1 ++ logs2).
    rewrite Hl2, Hl1, Ho2, Ho1, map_app, !app_assoc. do 2 (split; [done|]). by apply Forall_app.
Qed.


(** ** Witnesses *)

Definition print_x3 : print_call :=
  {| pc_obj := PStr "Will be printed only 3 times"; pc_n := 3; pc_discr := PNone; pc_show := true |}.

Lemma run_prints_first_n_witness :
  exists w', run_prints [print_x3; print_x3; print_x3; print_x3; print_x3] world_init = (Ok tt, w') /\
    w_stdout w' = w_stdout world_init ++
      print_lines [print_x3; print_x3; print_x3; print_x3; print_x3]
        (lim_run py_eq (dd_count (w_print_counter world_init))
           (lim_calls [print_x3; print_x3; print_x3; print_x3; print_x3])).1 /\
    fired_for py_eq (PStr "Will be printed only 3 times")
      (lim_calls [print_x3; print_x3; print_x3; print_x3; print_x3])
      (lim_run py_eq (dd_count (w_print_counter world_init))
         (lim_calls [print_x3; print_x3; print_x3; print_x3; print_x3])).1
    = Nat.min (calls_for py_eq (PStr "Will be printed only 3 times")
                 (lim_calls [print_x3; print_x3; print_x3; print_x3; print_x3]))
              (Z.to_nat (3 - dd_count (w_print_counter world_init) (PStr "Will be printed only 3 times"))).
Proof.
  apply run_prints_first_n; [constructor | repeat constructor | reflexivity | repeat constructor].
Defined.

Lemma run_prints_refines_witness :
  exists w', run_prints [print_x3; print_x3; print_x3; print_x3] world_init = (Ok tt, w') /\
    w_stdout w' = ["Will be printed only 3 times (1/3)"; "Will be printed only 3 times (2/3)";
                   "Will be printed only 3 times (3/3)"].
Proof.
  destruct (run_prints_refines [print_x3; print_x3; print_x3; print_x3] world_init)
    as (w' & Hrun & Hout & _); [constructor | repeat constructor |].
  exists w'. split; [exact Hrun | rewrite Hout; reflexivity].
Defined.

Definition print_ab (s : string) (n : Z) : print_call :=
  {| pc_obj := PStr s; pc_n := n; pc_discr := PNone; pc_show := false |}.

Lemma run_prints_at_most_witness :
  exists w', run_prints [print_ab "a" 2; print_ab "b" 1; print_ab "a" 1; print_ab "a" 2] world_init
             = (Ok tt, w') /\ w_stdout w' = ["a"; "b"; "a"] /\ dd_count (w_print_counter w') (PStr "a") = 2%Z.
Proof.
  destruct (run_prints_at_most [print_ab "a" 2; print_ab "b" 1; print_ab "a" 1; print_ab "a" 2]
              world_init (PStr "a") 2) as (w' & Hrun & Hout & Hcnt & _);
    [constructor | repeat constructor | reflexivity | repeat constructor; simpl; lia |].
  exists w'. split; [exact Hrun|]. split; [rewrite Hout; reflexivity | rewrite Hcnt; reflexivity].
Defined.

Lemma print_max_n_run_witness :
  print_max_n (PStr "hello") 2 PNone (OVal PNone) true world_init =
    (Ok tt, set_print_counter [(PStr "hello", 1%Z)] (set_stdout ["hello (1/2)"] world_init)).
Proof. rewrite (print_max_n_run _ _ _ _ _ _ (PStr "hello") world_init); reflexivity || constructor. Defined.

Lemma log_max_n_run_witness :
  log_max_n "app" (PStr "disk full") 1 PNone (OVal PNone) WARNING false [] [] world_init =
    (Ok tt, set_log_counter [(PStr "disk full", 1%Z)]
              (set_logs [{| lc_logger := "app"; lc_level := WARNING; lc_msg := PStr "disk full";
                            lc_args := []; lc_kwargs := [] |}] world_init)).
Proof. rewrite (log_max_n_run _ _ _ _ _ _ _ _ _ world_init (PStr "disk full") world_init); reflexivity || constructor. Defined.

Lemma print_log_equiv_witness :
  w_print_counter world_init = w_log_counter world_init /\
  (run_prints [print_x3; print_x3; print_x3; print_x3] world_init).1 =
    (run_logs "app" INFO [print_x3; print_x3; print_x3; print_x3] world_init).1 /\
  w_print_counter (run_prints [print_x3; print_x3; print_x3; print_x3] world_init).2 =
    w_log_counter (run_logs "app" INFO [print_x3; print_x3; print_x3; print_x3] world_init).2 /\
  exists logs, w_logs (run_logs "app" INFO [print_x3; print_x3; print_x3; print_x3] world_init).2 =
      w_logs world_init ++ logs /\
    w_stdout (run_prints [print_x3; print_x3; print_x3; print_x3] world_init).2 =
      w_stdout world_init ++ map (fun l => py_str (lc_msg l)) logs /\
    Forall (fun l => lc_logger l = "app" /\ lc_level l = INFO) logs.
Proof. split; [reflexivity|]. apply print_log_equiv. reflexivity. Defined.

(** ** The examples of the specification *)

(** [lambda x: x // 10] *)
Definition div10 : pyfunc :=
  {| fn_name := "<lambda>"; fn_code := Some ["x"];
     fn_call := fun args _ => match args with
                              | [PInt z] => mret (PInt (z / 10)%Z)
                              | _ => raise (TypeError "unsupported operand type(s) for //")
                              end |}.

Fixpoint print_new_tens (ks : list Z) : PyM unit :=
  match ks with
  | [] => mret tt
  | k :: ks' => print_once (PStr ("A number of a new ten was detected : " +:+ pretty k)) (PInt k)
                  (OFun div10) false;; print_new_tens ks'
  end.

(** Section 8, property 5, on [examples/exec_max_n.py]: printing once per ten the numbers 5, 9, 13,
    14, 15, 16, 25 (discriminator [k // 10]) prints 5, 13 and 25 only; the
    counters hold one print for each of the tens 0, 1 and 2. *)
Example print_once_discriminator_example :
  print_new_tens [5; 9; 13; 14; 15; 16; 25]%Z world_init =
    (Ok tt, set_print_counter [(PInt 0, 1%Z); (PInt 1, 1%Z); (PInt 2, 1%Z)]
              (set_stdout ["A number of a new ten was detected : 5";
                           "A number of a new ten was detected : 13";
                           "A number of a new ten was detected : 25"] world_init)).
Proof. vm_compute. reflexivity. Qed.

(** ** [exec_max_n]: one call of the wrapper *)

(** [wrapper.counter = c] *)
Definition upd_cell (id : nat) (c : Z) (w : world) : world :=
  set_wrappers (<[id := c]> (w_wrappers w)) w.

(** One call of a wrapper, as the claim below states it; shared by the proofs on sequences of calls. *)
Lemma wrapper_call_run wr args kw w b w1 c :
  criteria_ok (wr_criteria wr) args kw w = (Ok b, w1) ->
  w_wrappers w1 !! wr_id wr = Some c ->
  wrapper_call wr args kw w =
    if b && bool_decide (0 < c)%Z
    then fn_call (wr_func wr) args kw
           (upd_cell (wr_id wr) (c - 1)%Z
              (if wr_show wr
               then set_stdout (w_stdout w1 ++ [py_str (called_msg (wr_func wr) (wr_n wr) c)]) w1
               else w1))
    else (Ok PNone, w1).
Proof.
  intros Hc Hcell. unfold wrapper_call. rewrite (bind_run _ _ _ _ _ Hc).
  destruct b; simpl; [|done].
  unfold wrapper_counter, set_wrapper_counter, print, modify, mbind, pym_bind, mret, pym_ret.
  rewrite Hcell. case_bool_decide; [|done].
  destruct (wr_show wr);
    do 3 (simpl; try change (w_wrappers (set_stdout ?o w1)) with (w_wrappers w1); rewrite ?Hcell);
    reflexivity.
Qed.

(** C6: One call of a wrapper built by [exec_max_n]: after the criteria (if
    any) evaluate to [b], [func] runs iff [b] holds and the wrapper's
    counter [c] is positive; it then runs with the counter already lowered
    to [c - 1] (and, with [show_counter], after printing
    [f"{func.__name__} was called ({n-c+1}/{n})"]).  Otherwise the call
    returns [None] and leaves the counter as it was: a call rejected by the
    criteria does not consume the budget. *)
Theorem wrapper_call_spec wr args kw w b w1 c :
  criteria_ok (wr_criteria wr) args kw w = (Ok b, w1) ->
  w_wrappers w1 !! wr_id wr = Some c ->
  wrapper_call wr args kw w =
    if b && bool_decide (0 < c)%Z
    then fn_call (wr_func wr) args kw
           (upd_cell (wr_id wr) (c - 1)%Z
              (if wr_show wr
               then set_stdout (w_stdout w1 ++ [py_str (called_msg (wr_func wr) (wr_n wr) c)]) w1
               else w1))
    else (Ok PNone, w1).
Proof. apply wrapper_call_run. Qed.

(** The counter of a wrapper never goes below 0 through its own calls, and
    a wrapper whose counter is 0 or less never runs [func]. *)
Lemma wrapper_call_spent wr args kw w b w1 c :
  criteria_ok (wr_criteria wr) args kw w = (Ok b, w1) ->
  w_wrappers w1 !! wr_id wr = Some c -> (c <= 0)%Z ->
  wrapper_call wr args kw w = (Ok PNone, w1).
Proof.
  intros Hc Hcell Hle. rewrite (wrapper_call_run _ _ _ _ _ _ _ Hc Hcell).
  rewrite bool_decide_eq_false_2 by lia. by rewrite andb_false_r.
Qed.

(** C7: Fail fast: wrapping something that is not callable raises
    [AssertionError] at wrap time and allocates nothing; wrapping a
    callable allocates a fresh counter cell holding [n] and changes nothing
    else. *)
Theorem exec_max_n_alloc func n crit show w :
  (callable func = false ->
   exists msg, exec_max_n func n crit show w = (Err (AssertionError [PStr msg]), w)) /\
  (callable func = true ->
   exists wr, exec_max_n func n crit show w = (Ok wr, set_wrappers (w_wrappers w ++ [n]) w) /\
     wr_id wr = length (w_wrappers w) /\ wr_n wr = n /\ wr_criteria wr = crit /\
     (set_wrappers (w_wrappers w ++ [n]) w).(w_wrappers) !! wr_id wr = Some n).
Proof.
  destruct func as [v|f]; simpl; split; intros H; try done.
  - by eexists.
  - eexists. split; [reflexivity|]. repeat split. simpl.
    by rewrite lookup_app_r, Nat.sub_diag by lia.
Qed.

Definition callee : pyfunc :=
  {| fn_name := "test_func2"; fn_code := Some [];
     fn_call := fun _ _ => print (PStr "Will be printed only 3 times");; mret PNone |}.

Lemma exec_max_n_alloc_witness :
  exists wr, exec_max_n (OFun callee) 3 (OVal PNone) false world_init =
               (Ok wr, set_wrappers [3%Z] world_init) /\ wr_id wr = 0%nat.
Proof.
  destruct (proj2 (exec_max_n_alloc (OFun callee) 3 (OVal PNone) false world_init) eq_refl)
    as (wr & H & Hid & _).
  exists wr. split; [exact H | exact Hid].
Defined.

Lemma wrapper_call_spec_witness :
  wrapper_call {| wr_func := callee; wr_n := 3; wr_criteria := OVal PNone; wr_show := true;
                  wr_id := 0 |} [] [] (set_wrappers [3%Z] world_init) =
    (Ok PNone, set_stdout ["test_func2 was called (1/3)"; "Will be printed only 3 times"]
                 (set_wrappers [2%Z] world_init)).
Proof.
  rewrite (wrapper_call_spec _ _ _ _ true (set_wrappers [3%Z] world_init) 3); reflexivity.
Defined.

(** ** Sequences of wrapper calls refine a budgeted executor *)

Fixpoint run_wrapper (wr : wrapper) (calls : list (list pyval * list (string * pyval)))
    : PyM (list pyval) :=
  match calls with
  | [] => mret []
  | (a, kw) :: cs => r ← wrapper_call wr a kw; rs ← run_wrapper wr cs; mret (r :: rs)
  end.

(** The specification: a budget of [b] executions outside the heap; each
    call whose criteria hold spends one unit and runs [f] ([Some] result),
    or is suppressed ([None]) once the budget is spent.  The state is the
    remaining budget and the world. *)
Fixpoint budget_run (f : pyfunc) (crit : pyobj) (calls : list (list pyval * list (string * pyval)))
    (b : nat) (w : world) : result (list (option pyval)) * (nat * world) :=
  match calls with
  | [] => (Ok [], (b, w))
  | (a, kw) :: cs =>
      match criteria_ok crit a kw w with
      | (Err e, w1) => (Err e, (b, w1))
      | (Ok false, w1) => let '(r, s) := budget_run f crit cs b w1 in (res_map (cons None) r, s)
      | (Ok true, w1) =>
          match b with
          | O => let '(r, s) := budget_run f crit cs O w1 in (res_map (cons None) r, s)
          | S b' =>
              match fn_call f a kw w1 with
              | (Err e, w2) => (Err e, (b', w2))
              | (Ok x, w2) => let '(r, s) := budget_run f crit cs b' w2 in (res_map (cons (Some x)) r, s)
              end
          end
      end
  end.

(** [m] neither reads nor writes the counter cell [id] and keeps it
    allocated. *)
Definition frames {A} (id : nat) (m : PyM A) : Prop :=
  forall w c, (id < length (w_wrappers w))%nat ->
    (id < length (w_wrappers (m w).2))%nat /\ m (upd_cell id c w) = ((m w).1, upd_cell id c (m w).2).

Lemma upd_cell_twice id c c' w : upd_cell id c' (upd_cell id c w) = upd_cell id c' w.
Proof. unfold upd_cell. simpl. by rewrite list_insert_insert_eq. Qed.

Lemma upd_cell_lookup id c w :
  (id < length (w_wrappers w))%nat -> w_wrappers (upd_cell id c w) !! id = Some c.
Proof. intros. unfold upd_cell. simpl. by apply list_lookup_insert_eq. Qed.

Lemma criteria_none_frames id a kw : frames id (criteria_ok (OVal PNone) a kw).
Proof. intros w c H. done. Qed.

Lemma bind_cons_ret {A} (x : A) (m : PyM (list A)) w :
  (rs ← m; mret (x :: rs)) w =
    match m w with (Ok rs, w') => (Ok (x :: rs), w') | (Err e, w') => (Err e, w') end.
Proof. reflexivity. Qed.

(** The simulation between [run_wrapper] and [budget_run]. *)
Lemma run_wrapper_sim wr calls b w :
  wr_show wr = false ->
  (forall a kw, frames (wr_id wr) (fn_call (wr_func wr) a kw)) ->
  (forall a kw, frames (wr_id wr) (criteria_ok (wr_criteria wr) a kw)) ->
  (wr_id wr < length (w_wrappers w))%nat ->
  run_wrapper wr calls (upd_cell (wr_id wr) (Z.of_nat b) w) =
    (let '(r, (b', w')) := budget_run (wr_func wr) (wr_criteria wr) calls b w in
     (res_map (map (default PNone)) r, upd_cell (wr_id wr) (Z.of_nat b') w')).
Proof.
  intros Hshow Hf Hc. revert b w. induction calls as [|[a kw] cs IH]; intros b w Hlen; [done|].
  cbn [run_wrapper budget_run].
  destruct (Hc a kw w (Z.of_nat b) Hlen) as [Hlen1 Hcrun].
  destruct (criteria_ok (wr_criteria wr) a kw w) as [[bb|e] w1] eqn:Ec; simpl in Hcrun, Hlen1.
  - pose proof (wrapper_call_run wr a kw _ bb _ (Z.of_nat b) Hcrun (upd_cell_lookup _ _ _ Hlen1))
      as Hcall.
    rewrite Hshow in Hcall.
    destruct bb, b as [|b']; cbn [andb] in Hcall.
    + rewrite bool_decide_eq_false_2 in Hcall by lia.
      rewrite (bind_run _ _ _ _ _ Hcall), bind_cons_ret, IH by done.
      by destruct (budget_run _ _ cs O w1) as [[?|?] [? ?]].
    + rewrite bool_decide_eq_true_2 in Hcall by lia.
      rewrite upd_cell_twice in Hcall. replace (Z.of_nat (S b') - 1)%Z with (Z.of_nat b') in Hcall by lia.
      destruct (Hf a kw w1 (Z.of_nat b') Hlen1) as [Hlen2 Hfrun].
      rewrite Hfrun in Hcall.
      destruct (fn_call (wr_func wr) a kw w1) as [[x|e] w2]; simpl in Hcall, Hlen2.
      * rewrite (bind_run _ _ _ _ _ Hcall), bind_cons_ret, IH by done.
        by destruct (budget_run _ _ cs b' w2) as [[?|?] [? ?]].
      * by rewrite (bind_err _ _ _ _ _ Hcall).
    + rewrite (bind_run _ _ _ _ _ Hcall), bind_cons_ret, IH by done.
      by destruct (budget_run _ _ cs O w1) as [[?|?] [? ?]].
    + rewrite (bind_run _ _ _ _ _ Hcall), bind_cons_ret, IH by done.
      by destruct (budget_run _ _ cs (S b') w1) as [[?|?] [? ?]].
  - assert (Hw : wrapper_call wr a kw (upd_cell (wr_id wr) (Z.of_nat b) w) =
                 (Err e, upd_cell (wr_id wr) (Z.of_nat b) w1))
      by (unfold wrapper_call; by rewrite (bind_err _ _ _ _ _ Hcrun)).
    by rewrite (bind_err _ _ _ _ _ Hw).
Qed.

(** C8: Refinement of [exec_max_n]: when [func] and the criteria leave the
    wrapper's counter cell alone (no re-entrant call of the same wrapper),
    calling the wrapper on a sequence of arguments from a counter [b >= 0]
    behaves as an executor with a budget of [b]: every call whose criteria
    hold spends one unit and runs [func] while the budget lasts, every other
    call returns [None], and the counter cell ends at the remaining budget,
    also when [func] or the criteria raise. *)
Theorem run_wrapper_refines wr calls b w :
  wr_show wr = false ->
  (forall a kw, frames (wr_id wr) (fn_call (wr_func wr) a kw)) ->
  (forall a kw, frames (wr_id wr) (criteria_ok (wr_criteria wr) a kw)) ->
  (wr_id wr < length (w_wrappers w))%nat ->
  run_wrapper wr calls (upd_cell (wr_id wr) (Z.of_nat b) w) =
    (let '(r, (b', w')) := budget_run (wr_func wr) (wr_criteria wr) calls b w in
     (res_map (map (default PNone)) r, upd_cell (wr_id wr) (Z.of_nat b') w')).
Proof. apply run_wrapper_sim. Qed.

(** How many calls ran [func]. *)
Fixpoint count_some {A} (l : list (option A)) : nat :=
  match l with
  | [] => 0
  | Some _ :: l' => S (count_some l')
  | None :: l' => count_some l'
  end.

Lemma budget_run_spent f crit calls b w rs b' w' :
  budget_run f crit calls b w = (Ok rs, (b', w')) ->
  length rs = length calls /\ (count_some rs + b' = b)%nat.
Proof.
  revert b w rs. induction calls as [|[a kw] cs IH]; intros b w rs H; simpl in H.
  - by simplify_eq.
  - destruct (criteria_ok crit a kw w) as [[[|]|e] w1]; [destruct b as [|b1]| |]; try done.
    + destruct (budget_run f crit cs O w1) as [[rs'|?] [b'' w'']] eqn:E; simplify_eq/=.
      destruct (IH _ _ _ E). simpl. lia.
    + destruct (fn_call f a kw w1) as [[x|e] w2]; [|done].
      destruct (budget_run f crit cs b1 w2) as [[rs'|?] [b'' w'']] eqn:E; simplify_eq/=.
      destruct (IH _ _ _ E). simpl. lia.
    + destruct (budget_run f crit cs b w1) as [[rs'|?] [b'' w'']] eqn:E; simplify_eq/=.
      destruct (IH _ _ _ E). simpl. lia.
Qed.

(** C9: [exec_max_n(func, n)] runs [func] at most [n] times: when a
    sequence of calls of the wrapper (counter [n >= 0], no re-entrant call)
    returns, its results are those of the budgeted executor, the calls that
    ran [func] number [n] minus the final counter, and the final counter is
    never negative. *)
Theorem run_wrapper_at_most_n wr calls n w rs w' :
  wr_show wr = false ->
  (forall a kw, frames (wr_id wr) (fn_call (wr_func wr) a kw)) ->
  (forall a kw, frames (wr_id wr) (criteria_ok (wr_criteria wr) a kw)) ->
  (wr_id wr < length (w_wrappers w))%nat ->
  run_wrapper wr calls (upd_cell (wr_id wr) (Z.of_nat n) w) = (Ok rs, w') ->
  exists ss n' w'', budget_run (wr_func wr) (wr_criteria wr) calls n w = (Ok ss, (n', w'')) /\
    rs = map (default PNone) ss /\ w' = upd_cell (wr_id wr) (Z.of_nat n') w'' /\
    (count_some ss + n' = n)%nat /\ length ss = length calls.
Proof.
  intros Hs Hf Hc Hl Hrun. rewrite run_wrapper_sim in Hrun by done.
  destruct (budget_run _ _ calls n w) as [[ss|e] [n' w'']] eqn:E; simplify_eq/=.
  destruct (budget_run_spent _ _ _ _ _ _ _ _ E).
  exists ss, n', w''. done.
Qed.

(** A callee that only prints leaves every wrapper counter alone. *)
Lemma callee_frames id a kw : frames id (fn_call callee a kw).
Proof. intros w c H. split; [done | reflexivity]. Qed.

Definition callee_wrapper : wrapper :=
  {| wr_func := callee; wr_n := 3; wr_criteria := OVal PNone; wr_show := false; wr_id := 0 |}.

Lemma run_wrapper_refines_witness :
  run_wrapper callee_wrapper [([], []); ([], []); ([], []); ([], [])]
    (upd_cell 0 (Z.of_nat 3) (set_wrappers [3%Z] world_init)) =
    (Ok [PNone; PNone; PNone; PNone],
     upd_cell 0 0 (set_stdout ["Will be printed only 3 times"; "Will be printed only 3 times";
                               "Will be printed only 3 times"] (set_wrappers [3%Z] world_init))).
Proof.
  rewrite run_wrapper_refines; [reflexivity | reflexivity | apply callee_frames |
                                 apply criteria_none_frames | simpl; lia].
Defined.

Lemma run_wrapper_at_most_n_witness :
  exists ss n' w'', budget_run callee (OVal PNone) [([], []); ([], []); ([], []); ([], [])] 3
                      (set_wrappers [3%Z] world_init) = (Ok ss, (n', w'')) /\
    (count_some ss + n' = 3)%nat.
Proof.
  destruct (run_wrapper_at_most_n callee_wrapper [([], []); ([], []); ([], []); ([], [])] 3
              (set_wrappers [3%Z] world_init) [PNone; PNone; PNone; PNone]
              (upd_cell 0 0 (set_stdout ["Will be printed only 3 times"; "Will be printed only 3 times";
                               "Will be printed only 3 times"] (set_wrappers [3%Z] world_init))))
    as (ss & n' & w'' & H1 & _ & _ & H2 & _);
    [reflexivity | apply callee_frames | apply criteria_none_frames | simpl; lia |
     vm_compute; reflexivity |].
  exists ss, n', w''. split; [exact H1 | exact H2].
Defined.

Lemma print_max_n_unhashable_witness :
  print_once (PList [PInt 1; PInt 2]) PNone (OVal PNone) false world_init =
    (Err (TypeError "unhashable type: 'list'"), world_init).
Proof. apply (print_max_n_unhashable _ _ _ _ _ world_init (PList [PInt 1; PInt 2])); [reflexivity | done]. Defined.

(** C11: [exec_max_n] does not check [criteria_exec]: a wrapper built with a
    non-callable, non-None criteria is accepted at wrap time, and every call
    of it raises [TypeError] (the object is not callable) without running
    [func] or touching its counter. *)
Theorem wrapper_call_bad_criteria wr v args kw w :
  wr_criteria wr = OVal v -> is_none v = false ->
  wrapper_call wr args kw w = (Err (TypeError ("'" +:+ py_type_name v +:+ "' object is not callable")), w).
Proof.
  intros Hc Hv. unfold wrapper_call, criteria_ok. rewrite Hc.
  destruct v; try done.
Qed.

Lemma wrapper_call_bad_criteria_witness :
  exists wr, exec_max_n (OFun callee) 2 (OVal (PInt 1)) false world_init = (Ok wr, set_wrappers [2%Z] world_init) /\
    wrapper_call wr [] [] (set_wrappers [2%Z] world_init) =
      (Err (TypeError "'int' object is not callable"), set_wrappers [2%Z] world_init).
Proof.
  eexists. split; [reflexivity|].
  apply (wrapper_call_bad_criteria _ (PInt 1)); reflexivity.
Defined.
