(* ===== verification/Sched.v ===== *)
(** * Threads interleaved by a schedule

    The concurrent models ([Interleave] for [print_max_n], [WrapperThreads]
    for the wrapper of [exec_max_n]) split a call into atomic steps: a step
    function takes the shared state and one thread to the next shared state
    and thread, or to [None] when the thread has nothing left to do.  A
    schedule is the list of the threads that take the next steps.

    Lemmas: running the concatenation of two schedules; the number of
    threads is kept; and, for a step function with a measure that each
    step lowers, every thread has reached its final state once the
    schedule has given it as many steps as its measure (liveness by
    well-founded induction on the measure).  The schedule [stale_schedule]
    is the one that makes a read-modify-write lose updates. *)

From S2P Require Import Prelude.

Section Scheduler.
Context {S T : Type} (stp : S -> T -> option (S * T)).

(** Each entry of the schedule names the thread that takes the next step;
    a finished or absent thread does nothing. *)
Fixpoint sched_run (sched : list nat) (s : S) (ths : list T) : S * list T :=
  match sched with
  | [] => (s, ths)
  | i :: sched' =>
      match ths !! i with
      | Some th =>
          match stp s th with
          | Some (s', th') => sched_run sched' s' (<[i := th']> ths)
          | None => sched_run sched' s ths
          end
      | None => sched_run sched' s ths
      end
  end.

Lemma sched_run_app s1 s2 sh ths :
  sched_run (s1 ++ s2) sh ths = sched_run s2 (sched_run s1 sh ths).1 (sched_run s1 sh ths).2.
Proof.
  revert sh ths. induction s1 as [|i s1 IH]; intros sh ths; [done|]. simpl.
  destruct (ths !! i) as [th|]; [|apply IH]. destruct (stp sh th) as [[sh' th']|]; apply IH.
Qed.

Lemma sched_run_cons i s sh ths :
  sched_run (i :: s) sh ths =
    match ths !! i with
    | Some th => match stp sh th with
                 | Some (sh', th') => sched_run s sh' (<[i := th']> ths)
                 | None => sched_run s sh ths
                 end
    | None => sched_run s sh ths
    end.
Proof. reflexivity. Qed.

(** A step of thread [i] from a known state. *)
Lemma sched_run_step i s sh ths th sh' th' :
  ths !! i = Some th -> stp sh th = Some (sh', th') ->
  sched_run (i :: s) sh ths = sched_run s sh' (<[i := th']> ths).
Proof. intros Hi Hs. by rewrite sched_run_cons, Hi, Hs. Qed.

Lemma sched_run_length sched s ths : length (sched_run sched s ths).2 = length ths.
Proof.
  revert s ths. induction sched as [|j sched IH]; intros s ths; [done|]. rewrite sched_run_cons.
  destruct (ths !! j) as [th|]; [destruct (stp s th) as [[s' th']|]|];
    rewrite ?IH, ?length_insert; done.
Qed.

(** ** Liveness from a measure *)

Section Finish.
Context (wf : T -> Prop) (rank : T -> nat) (final : T).
Hypothesis step_progress : forall s th s' th',
  wf th -> stp s th = Some (s', th') -> wf th' /\ rank th' < rank th.
Hypothesis step_stuck : forall s th, wf th -> stp s th = None -> th = final.
Hypothesis rank_zero : forall th, wf th -> rank th = O -> th = final.
Hypothesis rank_final : rank final = O.

(** Thread [i] reaches [final] once the schedule has given it as many
    steps as its measure. *)
Lemma sched_run_finishes sched s ths i th :
  ths !! i = Some th -> wf th -> rank th <= count_occ Nat.eq_dec sched i ->
  (sched_run sched s ths).2 !! i = Some final.
Proof.
  revert s ths th. induction sched as [|j sched IH]; intros s ths th Hi Hwf Hle; simpl in Hle.
  - simpl. rewrite Hi. by rewrite (rank_zero th Hwf ltac:(lia)).
  - rewrite sched_run_cons. revert Hle. destruct (Nat.eq_dec j i) as [->|Hne]; intros Hle.
    + rewrite Hi.
      destruct (stp s th) as [[s' th']|] eqn:Hs.
      * destruct (step_progress s th s' th' Hwf Hs).
        apply (IH _ _ th'); [rewrite list_lookup_insert_eq; [done|by eapply lookup_lt_Some]|done|lia].
      * pose proof (step_stuck s th Hwf Hs) as ->. apply (IH _ _ final); [done|done|lia].
    + destruct (ths !! j) as [thj|]; [destruct (stp s thj) as [[s' thj']|]|];
        (apply (IH _ _ th); [rewrite ?list_lookup_insert_ne by done; done|done|lia]).
Qed.

(** Every thread has reached [final] once each has been given its
    measure in steps. *)
Lemma sched_run_all_final sched s ths :
  (forall i th, ths !! i = Some th -> wf th /\ rank th <= count_occ Nat.eq_dec sched i) ->
  (sched_run sched s ths).2 = map (fun _ => final) ths.
Proof.
  intros Hall. apply list_eq. intros i.
  destruct (ths !! i) as [th|] eqn:Hth.
  - rewrite list_lookup_fmap, Hth. destruct (Hall i th Hth).
    by apply (sched_run_finishes sched s ths i th Hth).
  - apply lookup_ge_None_1 in Hth.
    rewrite !lookup_ge_None_2; [done| rewrite length_map; lia | rewrite sched_run_length; lia].
Qed.
End Finish.
End Scheduler.

(** ** A thread between others *)

Lemma insert_middle {A} (pre post : list A) (x y : A) :
  <[length pre := y]> (pre ++ x :: post) = pre ++ y :: post.
Proof. rewrite insert_app_r_alt by lia. rewrite Nat.sub_diag. done. Qed.

Lemma lookup_middle {A} (pre post : list A) (x : A) : (pre ++ x :: post) !! length pre = Some x.
Proof. rewrite lookup_app_r by lia. by rewrite Nat.sub_diag. Qed.

Lemma snoc_app {A} (pre post : list A) (x : A) : (pre ++ [x]) ++ post = pre ++ x :: post.
Proof. by rewrite <- app_assoc. Qed.

(** ** The schedule of a lost update

    Of [k] threads numbered from [b], each making [n] calls of [pre + post]
    steps: thread [b] takes the first [pre] steps of its first call (up to
    the read of a read-modify-write), the threads after it make all their
    calls under this schedule, then thread [b] takes the last [post] steps
    of its call (the stale write) and makes its other calls.  A single
    thread makes its calls one after the other. *)
Fixpoint stale_schedule (pre post b k n : nat) : list nat :=
  match k with
  | O => []
  | S O => repeat b ((pre + post) * n)
  | S k' => repeat b pre ++ stale_schedule pre post (S b) k' n ++ repeat b post ++
            repeat b ((pre + post) * (n - 1))
  end.

Lemma stale_schedule_SS pre post b k n :
  stale_schedule pre post b (S (S k)) n =
    repeat b pre ++ stale_schedule pre post (S b) (S k) n ++ repeat b post ++
    repeat b ((pre + post) * (n - 1)).
Proof. reflexivity. Qed.

Lemma stale_schedule_head pre post b k n :
  (1 <= pre)%nat -> (1 <= k)%nat -> (1 <= n)%nat -> exists s, stale_schedule pre post b k n = b :: s.
Proof.
  intros Hp Hk Hn. destruct pre as [|pre]; [lia|].
  destruct k as [|[|k]]; [lia| |by eexists].
  destruct n as [|n]; [lia|]. simpl. by eexists.
Qed.
