(* ===== verification/Interleave.v ===== *)
(** * Interleaved calls of [print_max_n]

    Section 5 of the specification allows several threads to call the
    print helpers and states that a race exceeds a limit by at most the
    number of threads minus one.  This file splits [print_max_n(obj, n)]
    (no discriminator, [show_counter=False]) into the atomic steps of its
    lines 46-51 and lets a schedule interleave threads:

    - [Idle]: line 46, read [dict_printing_objs_counter[obj]] and compare it
      with [n] (the call ends here when the test fails);
    - [Checked]: line 50, [print(obj)];
    - [Printed]: line 51, the read of [counter[obj] += 1];
    - [ReadIncr c]: line 51, the write of [c + 1].

    Theorems: one call run alone is [ExecMaxN.print_max_n] on the counter
    table and the output; and the write of a stale read can lower the
    counter, so that [k] threads making [n] calls each print [k n] times
    for every [k] and [n]: more than [n + k - 1] as soon as [k, n >= 2];
    and progress:
    under every schedule a thread has finished its [m] calls once it has
    taken [4 m] steps ([remaining] is the measure each of its steps
    lowers). *)

From S2P Require Import Prelude PyVal World Limiter ExecMaxN Sched.

Inductive pc : Type :=
| Idle
| Checked
| Printed
| ReadIncr (c : Z).

(** A thread: the calls it has still to finish, and where the current
    one stands. *)
Abbreviation thread := (nat * pc)%type.

(** What the threads share: the counter table and the output. *)
Abbreviation shared := (counter_table * list string)%type.

Section Steps.
Context (obj : pyval) (n : Z).

Definition step (s : shared) (th : thread) : option (shared * thread) :=
  let '(t, out) := s in
  match th with
  | (S m, Idle) =>
      let c := dd_count t obj in
      if bool_decide (c < n)%Z then Some ((dd_touch t obj, out), (S m, Checked))
      else Some ((dd_touch t obj, out), (m, Idle))
  | (m, Checked) => Some ((t, out ++ [py_str obj]), (m, Printed))
  | (m, Printed) => Some ((dd_touch t obj, out), (m, ReadIncr (dd_count t obj)))
  | (S m, ReadIncr c) => Some ((od_insert py_eq obj (c + 1)%Z t, out), (m, Idle))
  | (O, _) => None
  end.

End Steps.


(** ** One call run alone *)

(** The four steps of a single call, with no other thread in between,
    leave the counter table and the output exactly as [print_max_n] does. *)
Theorem print_max_n_alone obj n w :
  hashable obj -> table_wf (w_print_counter w) ->
  exists w', print_max_n obj n PNone (OVal PNone) false w = (Ok tt, w') /\
    sched_run (step obj n) [0; 0; 0; 0]%nat (w_print_counter w, w_stdout w) [(1%nat, Idle)] =
      ((w_print_counter w', w_stdout w'), [(0%nat, Idle)]).
Proof.
  intros Hk Ht. unfold print_max_n.
  rewrite (bind_run _ _ _ obj w) by reflexivity.
  pym_unfold. pym_run. case_bool_decide; pym_run; (eexists; split; [reflexivity|done]).
Qed.

(** ** A lost update *)

Section LostUpdate.
Context (obj : pyval) (Hobj : hashable obj).

(** The counter table once [obj] is in it, alone. *)
Lemma count_single c : dd_count [(obj, c)] obj = c.
Proof. unfold dd_count. simpl. by rewrite py_eq_refl. Qed.

Lemma touch_empty : dd_touch [] obj = [(obj, 0%Z)].
Proof. reflexivity. Qed.

Lemma touch_single c : dd_touch [(obj, c)] obj = [(obj, c)].
Proof. unfold dd_touch. simpl. by rewrite py_eq_refl. Qed.

Lemma insert_single (c v : Z) : od_insert py_eq obj v [(obj, c)] = [(obj, v)].
Proof. simpl. by rewrite py_eq_refl. Qed.

(** Thread [i] makes one whole call that prints. *)
Lemma one_call n i ths m c out :
  ths !! i = Some (S m, Idle) -> (c < n)%Z ->
  sched_run (step obj n) [i; i; i; i] ([(obj, c)], out) ths =
    (([(obj, (c + 1)%Z)], out ++ [py_str obj]), <[i := (m, Idle)]> ths).
Proof.
  intros Hi Hc. assert (Hlt : (i < length ths)%nat) by (by eapply lookup_lt_Some).
  rewrite sched_run_cons, Hi.
  repeat progress (simpl; rewrite ?count_single, ?touch_single, ?insert_single, ?list_insert_insert_eq,
                     ?bool_decide_eq_true_2, ?list_lookup_insert_eq
                     by (rewrite ?length_insert; done)).
  by rewrite py_eq_refl.
Qed.

(** Thread [i] makes [k] whole calls in a row, all of which print. *)
Lemma solo_calls (n : nat) i ths k m (c : nat) out :
  ths !! i = Some ((k + m)%nat, Idle) -> (c + k <= n)%nat ->
  sched_run (step obj (Z.of_nat n)) (repeat i (4 * k)) ([(obj, Z.of_nat c)], out) ths =
    (([(obj, Z.of_nat (c + k))], out ++ repeat (py_str obj) k), <[i := (m, Idle)]> ths).
Proof.
  revert ths c out. induction k as [|k IH]; intros ths c out Hi Hck.
  - simpl. rewrite Nat.add_0_r, app_nil_r, list_insert_id by done. done.
  - replace (4 * S k)%nat with (4 + 4 * k)%nat by lia. rewrite repeat_app, sched_run_app.
    change (repeat i 4) with [i; i; i; i].
    rewrite (one_call (Z.of_nat n) i ths (k + m) (Z.of_nat c) out) by (try done; lia). cbn [fst snd].
    replace (Z.of_nat c + 1)%Z with (Z.of_nat (S c)) by lia.
    assert (Hlt : (i < length ths)%nat) by (eapply lookup_lt_Some, Hi).
    rewrite IH; [|by rewrite list_lookup_insert_eq|lia].
    rewrite list_insert_insert_eq, <- app_assoc. by replace (S c + k)%nat with (c + S k)%nat by lia.
Qed.

(** Thread [b] checks, prints and reads the counter for [+=]; the threads
    after it make all their calls under this schedule; thread [b] then
    writes its stale value and makes its other calls, which all print.  A
    single thread makes its calls one after the other. *)
Definition lost_schedule (b k n : nat) : list nat := stale_schedule 3 1 b k n.

Lemma lost_schedule_SS b k n :
  lost_schedule b (S (S k)) n = [b; b; b] ++ lost_schedule (S b) (S k) n ++ [b] ++ repeat b (4 * (n - 1)).
Proof. reflexivity. Qed.

(** Thread [i] checks, prints and reads the counter for [+=], and stops
    before writing. *)
Lemma three_steps n i ths m (c : Z) out :
  ths !! i = Some (S m, Idle) -> (c < n)%Z ->
  sched_run (step obj n) [i; i; i] ([(obj, c)], out) ths =
    (([(obj, c)], out ++ [py_str obj]), <[i := (S m, ReadIncr c)]> ths).
Proof.
  intros Hi Hc. assert (Hlt : (i < length ths)%nat) by (by eapply lookup_lt_Some).
  rewrite sched_run_cons, Hi.
  repeat progress (simpl; rewrite ?count_single, ?touch_single, ?list_insert_insert_eq,
                     ?bool_decide_eq_true_2, ?list_lookup_insert_eq
                     by (rewrite ?length_insert; done)).
  done.
Qed.

(** The [k] threads after [pre], from the table holding 0 for [obj],
    print [k n] times and leave the counter at [n]. *)
Lemma lost_k (n : nat) k pre out :
  (1 <= n)%nat ->
  sched_run (step obj (Z.of_nat n)) (lost_schedule (length pre) k n) ([(obj, 0%Z)], out) (pre ++ repeat (n, Idle) k) =
    (([(obj, Z.of_nat (if k is O then 0 else n))], out ++ repeat (py_str obj) (k * n)), pre ++ repeat (0%nat, Idle) k).
Proof.
  intros Hn. revert pre out. induction k as [|k IH]; intros pre out.
  - simpl. by rewrite !app_nil_r.
  - destruct k as [|k'].
    + cbn [lost_schedule repeat]. replace (1 * n)%nat with n by lia.
      rewrite (solo_calls n (length pre) _ n 0 0 out); [| rewrite Nat.add_0_r; apply lookup_middle | lia].
      by rewrite insert_middle.
    + rewrite lost_schedule_SS, sched_run_app. destruct n as [|n']; [lia|].
      change (repeat (S n', Idle) (S (S k'))) with ((S n', Idle) :: repeat (S n', Idle) (S k')).
      rewrite (three_steps _ _ _ n' 0 out) by (simpl; try apply lookup_middle; lia). cbn [fst snd].
      rewrite insert_middle, sched_run_app.
      replace (pre ++ (S n', ReadIncr 0%Z) :: repeat (S n', Idle) (S k'))
        with ((pre ++ [(S n', ReadIncr 0%Z)]) ++ repeat (S n', Idle) (S k')) by by rewrite <- app_assoc.
      replace (S (length pre)) with (length (pre ++ [(S n', ReadIncr 0%Z)])) by (rewrite length_app; simpl; lia).
      rewrite IH. cbn [fst snd]. rewrite <- app_assoc. simpl (_ ++ _ :: _).
      rewrite snoc_app, sched_run_app, sched_run_cons, lookup_middle.
      cbn [step sched_run]. rewrite insert_single, insert_middle. cbn [fst snd].
      replace (S n' - 1)%nat with n' by lia. replace (0 + 1)%Z with (Z.of_nat 1) by lia.
      rewrite (solo_calls (S n') (length pre) _ n' 0 1); [|rewrite Nat.add_0_r; apply lookup_middle|lia].
      rewrite insert_middle. replace (1 + n')%nat with (S n') by lia.
      replace (S (S k') * S n')%nat with (1 + S k' * S n' + n')%nat by lia.
      rewrite !repeat_app, !app_assoc. done.
Qed.
(** The first step of an idle thread is the same from the empty table
    and from the table holding 0 for [obj]. *)
Lemma run_from_empty n i s ths m out :
  ths !! i = Some (S m, Idle) ->
  sched_run (step obj n) (i :: s) ([], out) ths = sched_run (step obj n) (i :: s) ([(obj, 0%Z)], out) ths.
Proof.
  intros Hi. rewrite !sched_run_cons, Hi. cbn [step].
  change (dd_count [] obj) with 0%Z. rewrite touch_empty, touch_single, count_single.
  by case_bool_decide.
Qed.

Lemma lost_schedule_head b k n : (1 <= k)%nat -> (1 <= n)%nat -> exists s, lost_schedule b k n = b :: s.
Proof.
  intros Hk Hn. destruct k as [|[|k]]; [lia| |by eexists].
  destruct n as [|n]; [lia|]. by eexists.
Qed.

(** C12: [counter[obj] += 1] is a read followed by a write: a thread that
    read the counter before other threads' calls writes back a smaller
    value.  With [k >= 1] threads each making [n >= 1] calls of
    [print_max_n(obj, n)], this schedule prints all [k n] calls, so the
    limit is exceeded by [(k - 1) n], not by at most [k - 1] (the number of
    threads minus one) as the specification states. *)
Theorem lost_update_all_print (k n : nat) :
  (1 <= k)%nat -> (1 <= n)%nat ->
  sched_run (step obj (Z.of_nat n)) (lost_schedule 0 k n) ([], []) (repeat (n, Idle) k) =
    (([(obj, Z.of_nat n)], repeat (py_str obj) (k * n)), repeat (0%nat, Idle) k).
Proof.
  intros Hk Hn. destruct (lost_schedule_head 0 k n Hk Hn) as [s Hs].
  destruct k as [|k']; [lia|]. destruct n as [|n']; [lia|].
  rewrite Hs, (run_from_empty _ 0 s _ n'), <- Hs by done.
  apply (lost_k (S n') (S k') [] []). lia.
Qed.
End LostUpdate.

(** ** Progress: every call returns after four steps of its thread

    A thread's remaining work is four steps per call still to make, less
    the steps its current call has taken.  Each step of the thread lowers
    it, whatever the other threads did in between, and the steps of other
    threads leave the thread alone: the calls of [print_max_n] are
    wait-free. *)

Definition pc_rank (p : pc) : nat :=
  match p with Idle => 4 | Checked => 3 | Printed => 2 | ReadIncr _ => 1 end.

Definition remaining (th : thread) : nat :=
  match th with (O, _) => 0 | (S m, p) => 4 * m + pc_rank p end.

(** A thread with no calls left is idle. *)
Definition thread_wf (th : thread) : Prop := th.1 = O -> th.2 = Idle.

Section Progress.
Context (obj : pyval) (n : Z).

Lemma step_progress s th s' th' :
  thread_wf th -> step obj n s th = Some (s', th') -> thread_wf th' /\ remaining th' < remaining th.
Proof.
  destruct s as [t out], th as [[|m] p]; intros Hwf Hs.
  - specialize (Hwf eq_refl). simpl in Hwf. subst p. discriminate Hs.
  - unfold thread_wf, remaining; destruct p; simpl in Hs; [case_bool_decide|..];
      injection Hs as <- <-; simpl; (split; [intros Hm; done || discriminate Hm|destruct m; simpl; lia]).
Qed.

Lemma step_stuck s th : thread_wf th -> step obj n s th = None -> th = (O, Idle).
Proof.
  destruct s as [t out], th as [[|m] p]; intros Hwf Hs.
  - specialize (Hwf eq_refl). simpl in Hwf. by subst p.
  - destruct p; simpl in Hs; [case_bool_decide|..]; discriminate.
Qed.

Lemma remaining_zero th : thread_wf th -> remaining th = O -> th = (O, Idle).
Proof. destruct th as [[|m] p]; unfold remaining; intros Hwf H;
  [specialize (Hwf eq_refl); simpl in Hwf; by subst p | destruct p; simpl in H; lia].
Qed.

End Progress.

(** Liveness: whatever the interleaving, a thread that starts idle
    with [m] calls of [print_max_n(obj, n)] to make has made them all, and
    holds no call in progress, once the schedule has given it [4 m] steps:
    no thread can be kept from finishing by the others. *)
Theorem all_threads_finish obj n sched s (ms : list nat) :
  Forall (fun i => 4 * (ms !!! i) <= count_occ Nat.eq_dec sched i) (seq 0 (length ms)) ->
  (sched_run (step obj n) sched s (map (fun m => (m, Idle)) ms)).2 = map (fun _ => (O, Idle)) ms.
Proof.
  intros Hall. rewrite (sched_run_all_final _ thread_wf remaining (O, Idle)); [by rewrite map_map| | | |..].
  - apply step_progress.
  - apply step_stuck.
  - apply remaining_zero.
  - done.
  - intros i th. rewrite list_lookup_fmap. destruct (ms !! i) as [m|] eqn:Hm; intros [= <-].
    split; [done|]. rewrite List.Forall_forall in Hall.
    specialize (Hall i ltac:(apply in_seq; apply lookup_lt_Some in Hm; lia)).
    rewrite (list_lookup_total_correct ms i m Hm) in Hall. destruct m; simpl in *; lia.
Qed.

(** ** Witnesses *)

Lemma print_max_n_alone_witness :
  hashable (PStr "x") /\ table_wf (w_print_counter world_init) /\
  exists w', print_max_n (PStr "x") 2 PNone (OVal PNone) false world_init = (Ok tt, w') /\
    sched_run (step (PStr "x") 2) [0; 0; 0; 0]%nat (w_print_counter world_init, w_stdout world_init) [(1%nat, Idle)] =
      ((w_print_counter w', w_stdout w'), [(0%nat, Idle)]).
Proof.
  assert (Hk : hashable (PStr "x")) by reflexivity.
  assert (Ht : table_wf (w_print_counter world_init)) by constructor.
  split; [exact Hk|]. split; [exact Ht|]. exact (print_max_n_alone (PStr "x") 2 world_init Hk Ht).
Defined.

Lemma lost_update_all_print_witness :
  hashable (PStr "x") /\ (1 <= 3)%nat /\ (1 <= 2)%nat /\
  sched_run (step (PStr "x") (Z.of_nat 2)) (lost_schedule 0 3 2) ([], []) (repeat (2%nat, Idle) 3) =
    (([(PStr "x", Z.of_nat 2)], repeat "x" 6), repeat (0%nat, Idle) 3).
Proof.
  assert (Hk : hashable (PStr "x")) by reflexivity.
  split; [exact Hk|]. split; [lia|]. split; [lia|].
  exact (lost_update_all_print (PStr "x") Hk 3 2 ltac:(lia) ltac:(lia)).
Defined.

Lemma all_threads_finish_witness :
  Forall (fun i => 4 * ([2; 2] !!! i) <= count_occ Nat.eq_dec (lost_schedule 0 2 2) i) (seq 0 2) /\
  (sched_run (step (PStr "x") 2) (lost_schedule 0 2 2) ([], []) [(2%nat, Idle); (2%nat, Idle)]).2 =
    [(0%nat, Idle); (0%nat, Idle)].
Proof.
  assert (H : Forall (fun i => 4 * ([2; 2] !!! i) <= count_occ Nat.eq_dec (lost_schedule 0 2 2) i)
                (seq 0 2)) by (repeat constructor; vm_compute; lia).
  split; [exact H|]. exact (all_threads_finish (PStr "x") 2 (lost_schedule 0 2 2) ([], []) [2; 2] H).
Defined.
