(* ===== verification/WrapperThreads.v ===== *)
(** * Interleaved calls of an [exec_max_n] wrapper

    The wrapper that [exec_max_n(func, n)] returns keeps its budget in the
    attribute [wrapper.counter].  A call with no [criteria_exec] is split
    into the atomic steps of lines 216-220 of [exec_max_n.py]:

    - [WIdle]: line 216, read [wrapper.counter] and test [> 0] (the call
      returns [None] here when the test fails);
    - [WChecked]: lines 217-218, [if show_counter: print(...)], which reads
      the counter again for the message;
    - [WShown]: line 219, the read of [wrapper.counter -= 1];
    - [WRead c]: line 219, the write of [c - 1];
    - [WRun]: line 220, [func( *args, **kwargs)], taken as atomic, printing
      the lines [fout].

    The shared state is the counter and the standard output.  Theorems: one
    call run alone is [ExecMaxN.wrapper_call] on the counter and the
    output; under the schedule [stale_schedule 3 2] every one of [k]
    threads making [n] calls runs [func] [n] times, so the wrapper of
    [exec_max_n(func, n)] runs [func] [k n] times; [k] threads calling the
    wrapper of [exec_once] once each can all pass the test before any
    decrements, so that [func] runs [k] times and the counter ends at
    [1 - k]; every thread finishes its [m] calls within [5 m] of its steps. *)

From S2P Require Import Prelude PyVal World Limiter ExecMaxN Sched.

Inductive wpc : Type :=
| WIdle
| WChecked
| WShown
| WRead (c : Z)
| WRun.

(** A thread: the calls it has still to make, and where the current one
    stands. *)
Abbreviation wthread := (nat * wpc)%type.

(** What the threads share: [wrapper.counter] and the output. *)
Abbreviation wshared := (Z * list string)%type.

Section Steps.
Context (wr : wrapper) (fout : list string).

(** Lines 217-218: what [if show_counter: print(...)] prints when the
    counter reads [c]. *)
Definition called_line (c : Z) : list string :=
  if wr_show wr then [py_str (called_msg (wr_func wr) (wr_n wr) c)] else [].

Definition wstep (s : wshared) (th : wthread) : option (wshared * wthread) :=
  let '(c, out) := s in
  match th with
  | (S m, WIdle) =>
      if bool_decide (0 < c)%Z then Some ((c, out), (S m, WChecked))
      else Some ((c, out), (m, WIdle))
  | (m, WChecked) => Some ((c, out ++ called_line c), (m, WShown))
  | (m, WShown) => Some ((c, out), (m, WRead c))
  | (m, WRead c0) => Some (((c0 - 1)%Z, out), (m, WRun))
  | (S m, WRun) => Some ((c, out ++ fout), (m, WIdle))
  | (O, _) => None
  end.

End Steps.


(** ** One call run alone *)

(** The five steps of a single call of a wrapper without
    [criteria_exec], with no other thread in between, leave the counter and
    the output as [ExecMaxN.wrapper_call] does, when [func] prints [fout]
    and touches nothing else. *)
Theorem wrapper_call_alone wr fout r args kw w c :
  wr_criteria wr = OVal PNone -> w_wrappers w !! wr_id wr = Some c ->
  (forall w0, fn_call (wr_func wr) args kw w0 = (Ok r, set_stdout (w_stdout w0 ++ fout) w0)) ->
  exists v w' c', wrapper_call wr args kw w = (Ok v, w') /\ w_wrappers w' !! wr_id wr = Some c' /\
    sched_run (wstep wr fout) [0; 0; 0; 0; 0]%nat (c, w_stdout w) [(1%nat, WIdle)] = ((c', w_stdout w'), [(0%nat, WIdle)]).
Proof.
  intros Hcrit Hc Hf.
  assert (Hlt : (wr_id wr < length (w_wrappers w))%nat) by (eapply lookup_lt_Some, Hc).
  rewrite (wrapper_call_run wr args kw w true w c) by (try done; by rewrite Hcrit).
  simpl. case_bool_decide; simpl; [|by do 3 eexists].
  rewrite Hf. do 3 eexists. split; [reflexivity|].
  unfold upd_cell, called_line. destruct (wr_show wr); world_simpl;
    (split; [rewrite list_lookup_insert_eq by done; reflexivity|]); by rewrite ?app_nil_r.
Qed.

(** ** A lost update: every thread runs [func] [n] times *)

Section Race.
Context (wr : wrapper) (fout : list string) (Hshow : wr_show wr = false).

Lemma called_line_off c : called_line wr c = [].
Proof. unfold called_line. by rewrite Hshow. Qed.

Ltac wsteps :=
  repeat progress (simpl; rewrite ?called_line_off, ?list_insert_insert_eq, ?bool_decide_eq_true_2,
                     ?list_lookup_insert_eq, ?app_nil_r by (rewrite ?length_insert; done || lia)).

(** Thread [i] makes one whole call that runs [func]. *)
Lemma one_wcall i ths m c out :
  ths !! i = Some (S m, WIdle) -> (0 < c)%Z ->
  sched_run (wstep wr fout) [i; i; i; i; i] (c, out) ths = (((c - 1)%Z, out ++ fout), <[i := (m, WIdle)]> ths).
Proof.
  intros Hi Hc. assert (Hlt : (i < length ths)%nat) by (by eapply lookup_lt_Some).
  rewrite sched_run_cons, Hi. wsteps. done.
Qed.

(** Thread [i] makes [k] whole calls in a row, all of which run [func]. *)
Lemma solo_wcalls i ths k m c out :
  ths !! i = Some ((k + m)%nat, WIdle) -> (Z.of_nat k <= c)%Z ->
  sched_run (wstep wr fout) (repeat i (5 * k)) (c, out) ths =
    (((c - Z.of_nat k)%Z, out ++ concat (repeat fout k)), <[i := (m, WIdle)]> ths).
Proof.
  revert ths c out. induction k as [|k IH]; intros ths c out Hi Hck.
  - simpl. rewrite Z.sub_0_r, app_nil_r, list_insert_id by done. done.
  - replace (5 * S k)%nat with (5 + 5 * k)%nat by lia. rewrite repeat_app, sched_run_app.
    change (repeat i 5) with [i; i; i; i; i].
    rewrite (one_wcall i ths (k + m) c out) by (try done; lia). cbn [fst snd].
    assert (Hlt : (i < length ths)%nat) by (eapply lookup_lt_Some, Hi).
    rewrite IH; [|by rewrite list_lookup_insert_eq|lia].
    rewrite list_insert_insert_eq, <- app_assoc. do 2 f_equal; lia.
Qed.

(** Thread [i] checks the counter and reads it for [-= 1], and stops
    before writing. *)
Lemma three_wsteps i ths m c out :
  ths !! i = Some (S m, WIdle) -> (0 < c)%Z ->
  sched_run (wstep wr fout) [i; i; i] (c, out) ths = ((c, out), <[i := (S m, WRead c)]> ths).
Proof.
  intros Hi Hc. assert (Hlt : (i < length ths)%nat) by (by eapply lookup_lt_Some).
  rewrite sched_run_cons, Hi. wsteps. done.
Qed.

(** The [k] threads after [pre], from the counter [n], run [func] [k n]
    times and leave the counter at 0. *)
Lemma stale_wk (n : nat) k pre out :
  (1 <= n)%nat ->
  sched_run (wstep wr fout) (stale_schedule 3 2 (length pre) k n) (Z.of_nat n, out) (pre ++ repeat (n, WIdle) k) =
    (((if k is O then Z.of_nat n else 0%Z), out ++ concat (repeat fout (k * n))),
     pre ++ repeat (0%nat, WIdle) k).
Proof.
  intros Hn. revert pre out. induction k as [|k IH]; intros pre out.
  - simpl. by rewrite !app_nil_r.
  - destruct k as [|k'].
    + cbn [stale_schedule repeat]. replace (1 * n)%nat with n by lia.
      rewrite (solo_wcalls (length pre) _ n 0); [| rewrite Nat.add_0_r; apply lookup_middle | lia].
      rewrite insert_middle. do 3 f_equal. lia.
    + rewrite stale_schedule_SS, sched_run_app. destruct n as [|n']; [lia|].
      change (repeat (S n', WIdle) (S (S k'))) with ((S n', WIdle) :: repeat (S n', WIdle) (S k')).
      change (repeat (length pre) 3) with [length pre; length pre; length pre].
      rewrite (three_wsteps _ _ n') by (try apply lookup_middle; lia). cbn [fst snd].
      rewrite insert_middle, sched_run_app, <- snoc_app.
      replace (S (length pre)) with (length (pre ++ [(S n', WRead (Z.of_nat (S n')))]))
        by (rewrite length_app; simpl; lia).
      rewrite IH. cbn [fst snd]. rewrite snoc_app.
      change (repeat (length pre) 2 ++ ?X) with (length pre :: length pre :: X).
      erewrite (sched_run_step (wstep wr fout)); [|apply lookup_middle|reflexivity]. rewrite insert_middle.
      erewrite (sched_run_step (wstep wr fout)); [|apply lookup_middle|reflexivity]. rewrite insert_middle.
      replace ((3 + 2) * (S n' - 1))%nat with (5 * n')%nat by lia.
      rewrite (solo_wcalls (length pre) _ n' 0); [|rewrite Nat.add_0_r; apply lookup_middle|lia].
      rewrite insert_middle. replace (S (S k') * S n')%nat with (S k' * S n' + 1 + n')%nat by lia.
      rewrite !repeat_app, !concat_app, !app_assoc. simpl. rewrite app_nil_r. do 3 f_equal. lia.
Qed.

(** C13: [wrapper.counter -= 1] is a read followed by a write, after the
    test [wrapper.counter > 0]: a thread that read the counter before other
    threads' calls writes back a larger value.  With [k >= 1] threads each
    making [n >= 1] calls of the wrapper of [exec_max_n(func, n)] (no
    criteria, no counter shown), this schedule runs [func] in all [k n]
    calls and leaves the counter at 0: the decorator's "at most [n] times"
    holds for one thread only. *)
Theorem exec_max_n_race (k n : nat) :
  (1 <= k)%nat -> (1 <= n)%nat ->
  sched_run (wstep wr fout) (stale_schedule 3 2 0 k n) (Z.of_nat n, []) (repeat (n, WIdle) k) =
    ((0%Z, concat (repeat fout (k * n))), repeat (0%nat, WIdle) k).
Proof.
  intros Hk Hn. pose proof (stale_wk n k [] [] Hn) as H. simpl in H.
  destruct k as [|k]; [lia|]. exact H.
Qed.
End Race.

(** ** All threads pass the test: the wrapper of [exec_once] *)

Section AllPass.
Context (wr : wrapper) (fout : list string).

(** The threads after [pre], each with one call to make, test a positive
    counter one after the other, and none writes it. *)
Lemma all_checked k pre c out :
  (0 < c)%Z ->
  sched_run (wstep wr fout) (seq (length pre) k) (c, out) (pre ++ repeat (1%nat, WIdle) k) =
    ((c, out), pre ++ repeat (1%nat, WChecked) k).
Proof.
  intros Hc. revert pre. induction k as [|k IH]; intros pre; [done|].
  cbn [seq repeat]. erewrite (sched_run_step (wstep wr fout)); [|apply lookup_middle|].
  2:{ simpl. rewrite bool_decide_eq_true_2 by done. reflexivity. }
  rewrite insert_middle, <- snoc_app.
  replace (S (length pre)) with (length (pre ++ [(1%nat, WChecked)])) by (rewrite length_app; simpl; lia).
  rewrite IH. by rewrite snoc_app.
Qed.

(** The last four steps of a call that passed the test: the counter is
    shown, read and written back less one, and [func] runs. *)
Lemma finish_checked pre post c out :
  sched_run (wstep wr fout) [length pre; length pre; length pre; length pre] (c, out)
    (pre ++ (1%nat, WChecked) :: post) =
    (((c - 1)%Z, out ++ called_line wr c ++ fout), pre ++ (0%nat, WIdle) :: post).
Proof.
  do 4 (erewrite (sched_run_step (wstep wr fout)); [|apply lookup_middle|reflexivity]; rewrite insert_middle).
  simpl. by rewrite app_assoc.
Qed.

(** The threads after [pre] then finish their calls one after the other. *)
Lemma all_finish k pre c out :
  sched_run (wstep wr fout) (concat (map (fun i => [i; i; i; i]) (seq (length pre) k))) (c, out)
    (pre ++ repeat (1%nat, WChecked) k) =
    (((c - Z.of_nat k)%Z, out ++ concat (map (fun j => called_line wr (c - Z.of_nat j) ++ fout) (seq 0 k))),
     pre ++ repeat (0%nat, WIdle) k).
Proof.
  revert pre c out. induction k as [|k IH]; intros pre c out.
  { cbn [seq repeat map concat sched_run Z.of_nat]. by rewrite Z.sub_0_r, !app_nil_r. }
  cbn [seq repeat map concat]. rewrite sched_run_app, finish_checked. cbn [fst snd].
  rewrite <- snoc_app.
  replace (S (length pre)) with (length (pre ++ [(0%nat, WIdle)])) by (rewrite length_app; simpl; lia).
  rewrite IH, snoc_app, <- seq_shift, map_map, Z.sub_0_r, <- !app_assoc.
  rewrite (map_ext (fun j => called_line wr (c - 1 - Z.of_nat j) ++ fout)
                   (fun j => called_line wr (c - Z.of_nat (S j)) ++ fout)) by (intros j; do 2 f_equal; lia).
  do 2 f_equal. lia.
Qed.

(** C14: the test [wrapper.counter > 0] and the decrement are separate
    steps, so [k] threads making one call each of a wrapper whose counter
    is [c > 0] can all pass the test before any decrements: [func] runs
    [k] times, the counter ends at [c - k], and the [j]-th thread shows the
    counter [c - j].  For [exec_once(func)] ([c = 1]) [func] runs once per
    thread and the counter ends at [1 - k]. *)
Theorem exec_once_all_run (k : nat) (c : Z) :
  (0 < c)%Z ->
  sched_run (wstep wr fout) (seq 0 k ++ concat (map (fun i => [i; i; i; i]) (seq 0 k))) (c, [])
    (repeat (1%nat, WIdle) k) =
    (((c - Z.of_nat k)%Z, concat (map (fun j => called_line wr (c - Z.of_nat j) ++ fout) (seq 0 k))),
     repeat (0%nat, WIdle) k).
Proof.
  intros Hc. rewrite sched_run_app.
  pose proof (all_checked k [] c [] Hc) as H1. pose proof (all_finish k [] c []) as H2.
  cbn [length app] in H1, H2. by rewrite H1.
Qed.
End AllPass.

(** ** Progress: every call returns after five steps of its thread *)

Definition wpc_rank (p : wpc) : nat :=
  match p with WIdle => 5 | WChecked => 4 | WShown => 3 | WRead _ => 2 | WRun => 1 end.

Definition wremaining (th : wthread) : nat :=
  match th with (O, _) => 0 | (S m, p) => 5 * m + wpc_rank p end.

(** A thread with no calls left is idle. *)
Definition wthread_wf (th : wthread) : Prop := th.1 = O -> th.2 = WIdle.

Section Progress.
Context (wr : wrapper) (fout : list string).

Lemma wstep_progress s th s' th' :
  wthread_wf th -> wstep wr fout s th = Some (s', th') -> wthread_wf th' /\ wremaining th' < wremaining th.
Proof.
  destruct s as [c out], th as [[|m] p]; intros Hwf Hs.
  - specialize (Hwf eq_refl). simpl in Hwf. subst p. discriminate Hs.
  - unfold wthread_wf, wremaining; destruct p; simpl in Hs; [case_bool_decide|..];
      injection Hs as <- <-; simpl; (split; [intros Hm; done || discriminate Hm|destruct m; simpl; lia]).
Qed.

Lemma wstep_stuck s th : wthread_wf th -> wstep wr fout s th = None -> th = (O, WIdle).
Proof.
  destruct s as [c out], th as [[|m] p]; intros Hwf Hs.
  - specialize (Hwf eq_refl). simpl in Hwf. by subst p.
  - destruct p; simpl in Hs; [case_bool_decide|..]; discriminate.
Qed.

Lemma wremaining_zero th : wthread_wf th -> wremaining th = O -> th = (O, WIdle).
Proof. destruct th as [[|m] p]; unfold wremaining; intros Hwf H;
  [specialize (Hwf eq_refl); simpl in Hwf; by subst p | destruct p; simpl in H; lia].
Qed.

(** Whatever the interleaving, a thread that starts idle with [m] calls of
    the wrapper to make has made them all once the schedule has given it
    [5 m] steps: the wrapper's calls are wait-free. *)
Theorem wrapper_threads_finish sched s (ms : list nat) :
  (forall i m, ms !! i = Some m -> 5 * m <= count_occ Nat.eq_dec sched i) ->
  (sched_run (wstep wr fout) sched s (map (fun m => (m, WIdle)) ms)).2 = map (fun _ => (O, WIdle)) ms.
Proof.
  intros Hall. rewrite (sched_run_all_final _ wthread_wf wremaining (O, WIdle)); [by rewrite map_map| | | |..].
  - apply wstep_progress.
  - apply wstep_stuck.
  - apply wremaining_zero.
  - done.
  - intros i th. rewrite list_lookup_fmap. destruct (ms !! i) as [m|] eqn:Hm; intros [= <-].
    split; [done|]. specialize (Hall i m Hm). destruct m; simpl; lia.
Qed.
End Progress.

(** ** Witnesses *)

(** A function that prints [hi], and wrappers of it. *)
Definition say_hi : pyfunc :=
  {| fn_name := "say_hi"; fn_code := Some []; fn_call := fun _ _ => print_s "hi";; mret PNone |}.

Definition hi_wrapper (n : Z) (show : bool) : wrapper :=
  {| wr_func := say_hi; wr_n := n; wr_criteria := OVal PNone; wr_show := show; wr_id := 0 |}.

Lemma wrapper_call_alone_witness :
  wr_criteria (hi_wrapper 2 true) = OVal PNone /\
  w_wrappers (set_wrappers [2%Z] world_init) !! 0%nat = Some 2%Z /\
  exists v w' c', wrapper_call (hi_wrapper 2 true) [] [] (set_wrappers [2%Z] world_init) = (Ok v, w') /\
    w_wrappers w' !! 0%nat = Some c' /\
    sched_run (wstep (hi_wrapper 2 true) ["hi"]) [0; 0; 0; 0; 0]%nat (2%Z, []) [(1%nat, WIdle)] =
      ((c', w_stdout w'), [(0%nat, WIdle)]).
Proof.
  split; [reflexivity|]. split; [reflexivity|].
  exact (wrapper_call_alone (hi_wrapper 2 true) ["hi"] PNone [] [] (set_wrappers [2%Z] world_init) 2
           eq_refl eq_refl (fun w0 => eq_refl)).
Defined.

Lemma exec_max_n_race_witness :
  wr_show (hi_wrapper 2 false) = false /\ (1 <= 3)%nat /\ (1 <= 2)%nat /\
  sched_run (wstep (hi_wrapper 2 false) ["hi"]) (stale_schedule 3 2 0 3 2) (Z.of_nat 2, []) (repeat (2%nat, WIdle) 3) =
    ((0%Z, repeat "hi" 6), repeat (0%nat, WIdle) 3).
Proof.
  split; [reflexivity|]. split; [lia|]. split; [lia|].
  exact (exec_max_n_race (hi_wrapper 2 false) ["hi"] eq_refl 3 2 ltac:(lia) ltac:(lia)).
Defined.

Lemma exec_once_all_run_witness :
  (0 < 1)%Z /\
  sched_run (wstep (hi_wrapper 1 false) ["hi"]) (seq 0 3 ++ concat (map (fun i => [i; i; i; i]) (seq 0 3)))
    (1%Z, []) (repeat (1%nat, WIdle) 3) =
    (((1 - Z.of_nat 3)%Z,
      concat (map (fun j => called_line (hi_wrapper 1 false) (1 - Z.of_nat j) ++ ["hi"]) (seq 0 3))),
     repeat (0%nat, WIdle) 3).
Proof. split; [lia|]. exact (exec_once_all_run (hi_wrapper 1 false) ["hi"] 3 1 ltac:(lia)). Defined.
