(* ===== verification/Logging.v ===== *)
(** * What Python's [logging] does with the calls of [log_max_n]

    The world records every call of [Logger.log] that [exec_max_n.py]
    makes ([w_logs]).  Whether a call produces a record is decided by
    [logging]: [Logger.log(level, ...)] returns at once unless
    [isEnabledFor(level)], that is [level >= getEffectiveLevel()], the
    level of the nearest ancestor of the logger (by dotted name) whose
    level is set, or of the root logger, [WARNING] by default.
    [logging.basicConfig(level=...)] sets the root level when the root
    logger has no handler yet, and does nothing otherwise.  [logging.disable]
    and handler-level filters are not modelled.

    Theorem: [log_max_n] counts the calls it passes to [Logger.log], not
    the records the logger emits: a call made at a disabled level spends
    the budget, and the later calls at an enabled level are suppressed. *)

From S2P Require Import Prelude PyVal World Limiter ExecMaxN.

(** The state of [logging] that decides emission: the root level, the
    levels set with [setLevel] on named loggers, and whether the root
    logger has a handler. *)
Record log_config : Type := {
  root_level : Z;
  logger_levels : list (string * Z);
  root_configured : bool
}.

(** A fresh interpreter: root at [WARNING], no handler. *)
Definition default_log_config : log_config :=
  {| root_level := WARNING; logger_levels := []; root_configured := false |}.

(** [logging.basicConfig(level=lvl, format=...)]: only the first call (on
    a root logger without handler) has an effect. *)
Definition basic_config (lvl : Z) (cfg : log_config) : log_config :=
  if root_configured cfg then cfg
  else {| root_level := lvl; logger_levels := logger_levels cfg; root_configured := true |}.

(** The logger named [name] and its ancestors, nearest first:
    ["a.b.c"], ["a.b"], ["a"]. *)
Definition ancestors (name : string) : list string :=
  let parts := str_split "." name in
  rev (map (fun k => str_join "." (take k parts)) (seq 1 (length parts))).

(** [getEffectiveLevel()]: the first level set (non-zero, [NOTSET] being
    0) on the way up, else the root's. *)
Definition effective_level (cfg : log_config) (name : string) : Z :=
  match List.find (fun nm => match od_lookup String.eqb nm (logger_levels cfg) with
                             | Some l => negb (Z.eqb l 0)
                             | None => false
                             end) (ancestors name) with
  | Some nm => default (root_level cfg) (od_lookup String.eqb nm (logger_levels cfg))
  | None => root_level cfg
  end.

(** [logger.isEnabledFor(level)] *)
Definition is_enabled (cfg : log_config) (l : log_call) : bool :=
  bool_decide (effective_level cfg (lc_logger l) <= lc_level l)%Z.

(** The records the calls produce. *)
Definition emitted (cfg : log_config) (logs : list log_call) : list log_call :=
  List.filter (is_enabled cfg) logs.

Lemma emitted_app cfg l1 l2 : emitted cfg (l1 ++ l2) = emitted cfg l1 ++ emitted cfg l2.
Proof. unfold emitted. induction l1 as [|l l1 IH]; simpl; [done|]. destruct (is_enabled cfg l); simpl; by rewrite IH. Qed.

Lemma effective_level_default name : effective_level default_log_config name = WARNING.
Proof.
  unfold effective_level. cbn [logger_levels default_log_config od_lookup].
  by induction (ancestors name).
Qed.

(** C5: [log_max_n] spends its budget on calls the logger drops: when
    [log_once] is called first at a level below the logger's effective
    level, it increments the key's counter although no record is emitted,
    and a second [log_once] of the same message at any level, enabled or
    not, is suppressed: the message is never emitted. *)
Theorem log_budget_spent_when_disabled cfg logger obj lvl lvl' w :
  hashable obj -> table_wf (w_log_counter w) -> dd_count (w_log_counter w) obj = 0%Z ->
  (lvl < effective_level cfg logger)%Z ->
  exists w', (log_once logger obj PNone (OVal PNone) lvl false [] [];;
              log_once logger obj PNone (OVal PNone) lvl' false [] []) w = (Ok tt, w') /\
    emitted cfg (w_logs w') = emitted cfg (w_logs w) /\
    dd_count (w_log_counter w') obj = 1%Z.
Proof.
  intros Hk Ht H0 Hlvl. unfold log_once.
  pose proof (log_max_n_run logger obj 1 PNone (OVal PNone) lvl false [] [] w obj w eq_refl Hk Ht) as H1.
  cbv zeta in H1. rewrite H0, bool_decide_eq_true_2 in H1 by lia.
  rewrite (bind_run _ _ _ _ _ H1).
  set (w1 := set_log_counter _ _).
  assert (Ht1 : table_wf (w_log_counter w1)) by (subst w1; world_simpl; auto with tbu).
  rewrite (log_max_n_run logger obj 1 PNone (OVal PNone) lvl' false [] [] w1 obj w1 eq_refl Hk Ht1).
  cbv zeta. subst w1. world_simpl.
  rewrite count_insert_eq by auto with tbu. rewrite bool_decide_eq_false_2 by lia.
  eexists. split; [reflexivity|]. world_simpl. split.
  - rewrite emitted_app. cbn. unfold is_enabled. cbn.
    rewrite bool_decide_eq_false_2 by lia. by rewrite app_nil_r.
  - rewrite count_touch, count_insert_eq by auto with tbu. done.
Qed.

Lemma log_budget_spent_when_disabled_witness :
  (10 < effective_level (basic_config INFO default_log_config) "__main__")%Z /\
  exists w', (log_once "__main__" (PStr "x") PNone (OVal PNone) 10 false [] [];;
              log_once "__main__" (PStr "x") PNone (OVal PNone) WARNING false [] []) world_init = (Ok tt, w') /\
    emitted (basic_config INFO default_log_config) (w_logs w') = [] /\
    dd_count (w_log_counter w') (PStr "x") = 1%Z.
Proof.
  assert (Hl : (10 < effective_level (basic_config INFO default_log_config) "__main__")%Z)
    by (vm_compute; reflexivity).
  split; [exact Hl|].
  apply (log_budget_spent_when_disabled (basic_config INFO default_log_config) "__main__" (PStr "x") 10 WARNING world_init);
    [constructor|constructor|reflexivity|exact Hl].
Defined.
