(* ===== verification/Imports.v ===== *)
(** * The import statements of the modules and scripts

    Each module of [src/tbutils] and each script of [src/examples] opens
    with import statements; [tbutils/jax.py] guards some of them with
    [if importlib.util.find_spec("jax") is not None:].  Running them is
    Python's import system on [sys.modules] (a list of module names):

    - [import a.b.c] imports [a], [a.b], [a.b.c] in turn, each one unless
      already in [sys.modules]; a module of the repository is entered in
      [sys.modules] before its statements run and removed again when one of
      them raises (the modules it imported before stay); a module of the
      standard library is always found, any other one when the environment
      [ext_env] has it, and otherwise [ModuleNotFoundError] names the first
      missing prefix;
    - [from m import x, y] imports [m], then raises [ImportError] at the
      first name [m] does not define;
    - [importlib.util] is an attribute of [importlib] only once the
      submodule [importlib.util] is in [sys.modules].

    The interpreter [import_module] takes fuel, a bound on the nesting of
    imports of repository modules; [rank] is the depth of the import graph
    of the repository below a module, and the theorems show that any fuel
    at least the rank gives the same result, never a [RecursionError]: the
    fuel is enough, as Python's own import (which needs none: a module is
    in [sys.modules] before its body runs) always ends.

    Theorems: the outcome of importing [tbutils.seed] (it needs [hydra] and
    [omegaconf] through [tbutils.config]); the outcome of importing
    [tbutils.jax]; [examples/tmeasure_example.py] raises at its line 2
    whatever is installed. *)

From S2P Require Import Prelude PyVal.

Inductive import_line : Type :=
| Import (m : string) (asname : option string)   (** [import m] or [import m as x] *)
| FromImport (m : string) (names : list string). (** [from m import a, b] *)

Inductive stmt : Type :=
| Line (i : import_line)
| IfFindSpec (probe : string) (body : list import_line).
    (** [if importlib.util.find_spec(probe) is not None:] followed by imports *)

(** ** The sources *)

(** [tbutils/exec_max_n.py], lines 1-3 *)
Definition exec_max_n_imports : list stmt :=
  [Line (FromImport "collections" ["defaultdict"]);
   Line (FromImport "logging" ["INFO"; "WARNING"; "Logger"]);
   Line (FromImport "typing" ["Any"; "Callable"; "Dict"; "Union"])].

(** [tbutils/config.py], lines 1-10 *)
Definition config_imports : list stmt :=
  [Line (Import "importlib" None);
   Line (FromImport "typing" ["Any"; "Callable"; "Dict"; "List"; "Union"]);
   Line (FromImport "abc" ["ABC"; "abstractmethod"]);
   Line (FromImport "functools" ["partial"]);
   Line (Import "os" None);
   Line (Import "hydra" None);
   Line (FromImport "omegaconf" ["OmegaConf"]);
   Line (FromImport "tbutils.exec_max_n" ["print_once"])].

(** [tbutils/info.py], lines 1-3 *)
Definition info_imports : list stmt :=
  [Line (Import "sys" None); Line (Import "platform" None); Line (Import "importlib.util" None)].

(** [tbutils/jax.py], lines 1-11 *)
Definition jax_imports : list stmt :=
  [Line (Import "importlib" None);
   Line (FromImport "typing" ["Any"; "Dict"; "List"; "Union"]);
   Line (FromImport "abc" ["ABC"; "abstractmethod"]);
   Line (FromImport "functools" ["partial"]);
   IfFindSpec "jax"
     [Import "jax" None; FromImport "jax" ["random"]; Import "jax.numpy" (Some "jnp");
      Import "numpy" (Some "np"); FromImport "jax.lib" ["xla_bridge"]]].

(** [tbutils/seed.py], lines 1-7 *)
Definition seed_imports : list stmt :=
  [Line (Import "os" None);
   Line (FromImport "typing" ["Dict"; "Type"; "Any"; "Tuple"; "Union"]);
   Line (Import "random" None);
   Line (Import "sys" None);
   Line (FromImport "tbutils.exec_max_n" ["print_once"]);
   Line (FromImport "tbutils.config" ["try_get"])].

(** [tbutils/struct.py], lines 1-4 *)
Definition struct_imports : list stmt :=
  [Line (Import "sys" None);
   Line (FromImport "typing" ["Any"; "Dict"; "Tuple"; "Union"]);
   Line (Import "importlib" None);
   Line (Import "numpy" (Some "np"))].

(** The modules of the package, with their imports and the names their
    [def]s and assignments define. *)
Definition repo_modules : list (string * (list stmt * list string)) :=
  [("tbutils.exec_max_n", (exec_max_n_imports,
      ["dict_printing_objs_counter"; "obj_to_discr_obj"; "print_max_n"; "print_once";
       "dict_log_objs_counter"; "log_max_n"; "log_once"; "warn_max_n"; "warn_once";
       "exec_max_n"; "exec_once"]));
   ("tbutils.config", (config_imports,
      ["try_get"; "merge_container"; "get_env_variable"; "register_hydra_resolvers";
       "instantiate_class"]));
   ("tbutils.info", (info_imports, ["is_installed"; "check_versions"]));
   ("tbutils.jax", (jax_imports, ["check_jax_device"; "nest_for_array"]));
   ("tbutils.seed", (seed_imports, ["try_get_seed"; "set_seed"]));
   ("tbutils.struct", (struct_imports, ["get_dict_flattened"; "unflatten_dict"; "get_shape"]))].

(** The scripts: [examples/config.py] line 1, [examples/exec_max_n.py]
    lines 1-14, [examples/seed.py] line 2, [examples/struct_example.py]
    lines 1-7, [examples/tmeasure_example.py] lines 1-2. *)
Definition example_config_imports : list stmt :=
  [Line (FromImport "tbutils.config" ["instantiate_class"; "get_env_variable"; "try_get"])].

Definition example_exec_max_n_imports : list stmt :=
  [Line (FromImport "logging" ["Logger"]);
   Line (Import "logging" None);
   Line (FromImport "time" ["sleep"]);
   Line (FromImport "tbutils.exec_max_n"
           ["print_max_n"; "print_once"; "log_max_n"; "log_once"; "warn_max_n"; "warn_once";
            "exec_max_n"; "exec_once"])].

Definition example_seed_imports : list stmt :=
  [Line (FromImport "tbutils.seed" ["try_get_seed"; "set_seed"])].

Definition example_struct_imports : list stmt :=
  [Line (Import "sys" None);
   Line (FromImport "typing" ["Any"; "Dict"; "Tuple"; "Union"]);
   Line (Import "importlib" None);
   Line (Import "numpy" (Some "np"));
   Line (FromImport "tbutils.struct" ["get_dict_flattened"; "unflatten_dict"; "get_shape"])].

Definition tmeasure_example_imports : list stmt :=
  [Line (Import "time" None); Line (FromImport "tbutils.tmeasure" ["RuntimeMeter"])].

(** ** Names and the environment *)

Definition repo_root : string := "tbutils".

Definition is_repo_name (m : string) : bool := starts_with (repo_root +:+ ".") m.

(** [a.b.c] gives [a], [a.b], [a.b.c]. *)
Definition dotted_prefixes (m : string) : list string :=
  let parts := str_split "." m in
  map (fun k => str_join "." (take k parts)) (seq 1 (length parts)).

Definition top_level (m : string) : string := default m (head (str_split "." m)).

(** The modules of the standard library the code imports. *)
Definition stdlib : list string :=
  ["os"; "sys"; "typing"; "abc"; "functools"; "importlib"; "collections"; "logging";
   "random"; "platform"; "time"].

Definition is_stdlib (m : string) : bool := existsb (String.eqb (top_level m)) stdlib.

(** What is installed besides the standard library: the importable
    modules, and the names a module defines. *)
Record ext_env : Type := {
  ext_module : string -> bool;
  ext_has : string -> string -> bool
}.

Definition mem (x : string) (l : list string) : bool := existsb (String.eqb x) l.

Definition list_remove (x : string) (l : list string) : list string :=
  List.filter (fun y => negb (String.eqb x y)) l.

(** The names an import statement binds. *)
Definition line_binds (i : import_line) : list string :=
  match i with
  | Import m (Some a) => [a]
  | Import m None => [top_level m]
  | FromImport _ names => names
  end.

(** The names of a repository module: its definitions and what its
    unconditional imports bind. *)
Definition namespace (body : list stmt) (defs : list string) : list string :=
  defs ++ concat (map (fun s => match s with Line i => line_binds i | IfFindSpec _ _ => [] end) body).

(** ** Running import statements *)

Section Exec.
Context (env : ext_env) (imp : string -> list string -> result unit * list string).

Definition available (m : string) : bool := is_stdlib m || ext_module env m.

Definition has_name (m n : string) : bool :=
  match od_lookup String.eqb m repo_modules with
  | Some (body, defs) => mem n (namespace body defs)
  | None => is_stdlib m || ext_has env m n
  end.

Fixpoint check_names (m : string) (names : list string) : result unit :=
  match names with
  | [] => Ok tt
  | n :: names' =>
      if has_name m n then check_names m names'
      else Err (ImportError ("cannot import name '" +:+ n +:+ "' from '" +:+ m +:+ "'"))
  end.

Definition exec_line (i : import_line) (l : list string) : result unit * list string :=
  match i with
  | Import m _ => imp m l
  | FromImport m names =>
      match imp m l with
      | (Ok _, l') => (check_names m names, l')
      | r => r
      end
  end.

Fixpoint exec_lines (lines : list import_line) (l : list string) : result unit * list string :=
  match lines with
  | [] => (Ok tt, l)
  | i :: lines' =>
      match exec_line i l with
      | (Ok _, l') => exec_lines lines' l'
      | r => r
      end
  end.

(** [importlib.util.find_spec(p) is not None] for a top-level name. *)
Definition find_spec (p : string) : bool :=
  String.eqb p repo_root || available p.

Definition exec_stmt (s : stmt) (l : list string) : result unit * list string :=
  match s with
  | Line i => exec_line i l
  | IfFindSpec p body =>
      if mem "importlib.util" l then
        if find_spec p then exec_lines body l else (Ok tt, l)
      else (Err (AttributeError "module 'importlib' has no attribute 'util'"), l)
  end.

Fixpoint exec_stmts (ss : list stmt) (l : list string) : result unit * list string :=
  match ss with
  | [] => (Ok tt, l)
  | s :: ss' =>
      match exec_stmt s l with
      | (Ok _, l') => exec_stmts ss' l'
      | r => r
      end
  end.
End Exec.

(** [import m]: each prefix of [m] in turn; [run_body] runs the statements
    of a repository module, [sys.modules] already holding it. *)
Fixpoint import_prefixes (env : ext_env) (run_body : list stmt -> list string -> result unit * list string)
    (ps : list string) (l : list string) : result unit * list string :=
  match ps with
  | [] => (Ok tt, l)
  | p :: ps' =>
      if mem p l then import_prefixes env run_body ps' l else
      match od_lookup String.eqb p repo_modules with
      | Some (body, _) =>
          match run_body body (p :: l) with
          | (Ok _, l') => import_prefixes env run_body ps' l'
          | (Err e, l') => (Err e, list_remove p l')
          end
      | None =>
          if String.eqb p repo_root || (negb (is_repo_name p) && available env p)
          then import_prefixes env run_body ps' (p :: l)
          else (Err (ModuleNotFoundError ("No module named '" +:+ p +:+ "'")), l)
      end
  end.

Fixpoint import_module (env : ext_env) (fuel : nat) (m : string) (l : list string)
    : result unit * list string :=
  import_prefixes env
    (fun body l' => match fuel with
                    | O => (Err (RecursionError "maximum recursion depth exceeded"), l')
                    | S f => exec_stmts env (import_module env f) body l'
                    end)
    (dotted_prefixes m) l.

(** Running the import lines of a script from [sys.modules] = [l]. *)
Definition run_imports (env : ext_env) (fuel : nat) (body : list stmt) (l : list string)
    : result unit * list string :=
  exec_stmts env (import_module env fuel) body l.

(** ** The depth of the import graph *)

Definition line_module (i : import_line) : string :=
  match i with Import m _ => m | FromImport m _ => m end.

(** The modules the statements of a body import. *)
Definition body_imports (body : list stmt) : list string :=
  concat (map (fun s => match s with
                        | Line i => [line_module i]
                        | IfFindSpec _ lines => map line_module lines
                        end) body).

(** One more than the largest rank of what a repository module imports;
    0 for a module of another package. *)
Fixpoint mod_rank (fuel : nat) (p : string) : nat :=
  match fuel with
  | O => 0
  | S f =>
      match od_lookup String.eqb p repo_modules with
      | Some (body, _) =>
          S (list_max (map (fun m => list_max (map (mod_rank f) (dotted_prefixes m))) (body_imports body)))
      | None => 0
      end
  end.

Definition prank (p : string) : nat := mod_rank (length repo_modules) p.

Definition rank (m : string) : nat := list_max (map prank (dotted_prefixes m)).

(** ** Lemmas *)

Lemma od_lookup_string_In {V} (k : string) (d : list (string * V)) v :
  od_lookup String.eqb k d = Some v -> In (k, v) d.
Proof.
  induction d as [|[k' v'] d IH]; simpl; [done|].
  destruct (String.eqb k k') eqn:E; [apply String.eqb_eq in E as ->; intros [= ->]; by left|].
  intros H; right; exact (IH H).
Qed.

(** The graph of the package is ranked: what a module imports has a
    smaller rank. *)
Lemma ranks_checked :
  forallb (fun '(p, (body, _)) =>
             (1 <=? prank p) && forallb (fun m => rank m <? prank p) (body_imports body)) repo_modules = true.
Proof. vm_compute. reflexivity. Qed.

Lemma ranks_decrease p body defs :
  od_lookup String.eqb p repo_modules = Some (body, defs) ->
  1 <= prank p /\ forall m, In m (body_imports body) -> rank m < prank p.
Proof.
  intros Hp. apply od_lookup_string_In in Hp.
  pose proof ranks_checked as H. rewrite forallb_forall in H. specialize (H _ Hp). cbv beta iota in H.
  apply andb_true_iff in H as [H1 H2]. apply Nat.leb_le in H1. split; [done|].
  intros m Hm. rewrite forallb_forall in H2. by apply Nat.ltb_lt, H2.
Qed.

Lemma rank_prefix m p n : rank m <= n -> In p (dotted_prefixes m) -> prank p <= n.
Proof.
  unfold rank. rewrite list_max_le, List.Forall_forall. intros H Hp. apply H, in_map, Hp.
Qed.

Section Fuel.
Context (env : ext_env).

Lemma check_names_not_rec m names : not_rec (check_names env m names).
Proof. induction names as [|n names IH]; simpl; [not_rec_triv|]. destruct (has_name env m n); [done|not_rec_triv]. Qed.

(** A step that runs the imports of its line with [imp]. *)
Lemma exec_line_ext imp1 imp2 i l :
  (forall l, imp1 (line_module i) l = imp2 (line_module i) l) ->
  exec_line env imp1 i l = exec_line env imp2 i l.
Proof. destruct i; simpl; intros H; by rewrite H. Qed.

Lemma exec_lines_ext imp1 imp2 lines l :
  (forall m l, In m (map line_module lines) -> imp1 m l = imp2 m l) ->
  exec_lines env imp1 lines l = exec_lines env imp2 lines l.
Proof.
  revert l. induction lines as [|i lines IH]; intros l H; simpl; [done|].
  rewrite (exec_line_ext imp1 imp2) by (intros; apply H; by left).
  destruct (exec_line env imp2 i l) as [[] l']; [|done]. apply IH. intros; apply H; by right.
Qed.

Lemma exec_stmts_ext imp1 imp2 body l :
  (forall m l, In m (body_imports body) -> imp1 m l = imp2 m l) ->
  exec_stmts env imp1 body l = exec_stmts env imp2 body l.
Proof.
  revert l. induction body as [|s body IH]; intros l H; simpl; [done|].
  assert (Hs : exec_stmt env imp1 s l = exec_stmt env imp2 s l).
  { destruct s as [i|p lines]; simpl.
    - apply exec_line_ext. intros; apply H. unfold body_imports. simpl. by left.
    - destruct (mem "importlib.util" l), (find_spec env p); try done.
      apply exec_lines_ext. intros; apply H. unfold body_imports. simpl. apply in_or_app. by left. }
  rewrite Hs. destruct (exec_stmt env imp2 s l) as [[] l']; [|done].
  apply IH. intros; apply H. unfold body_imports. simpl. apply in_or_app. by right.
Qed.

Lemma exec_line_not_rec imp i l :
  (forall l, not_rec (imp (line_module i) l).1) -> not_rec (exec_line env imp i l).1.
Proof.
  destruct i as [m a|m ns]; simpl; intros H; [done|].
  specialize (H l). destruct (imp m l) as [[] l']; [apply check_names_not_rec|done].
Qed.

Lemma exec_lines_not_rec imp lines l :
  (forall m l, In m (map line_module lines) -> not_rec (imp m l).1) -> not_rec (exec_lines env imp lines l).1.
Proof.
  revert l. induction lines as [|i lines IH]; intros l H; simpl; [not_rec_triv|].
  pose proof (exec_line_not_rec imp i l ltac:(intros; apply H; by left)) as Hi.
  destruct (exec_line env imp i l) as [[] l']; [|done]. apply IH. intros; apply H; by right.
Qed.

Lemma exec_stmts_not_rec imp body l :
  (forall m l, In m (body_imports body) -> not_rec (imp m l).1) -> not_rec (exec_stmts env imp body l).1.
Proof.
  revert l. induction body as [|s body IH]; intros l H; simpl; [not_rec_triv|].
  assert (Hs : not_rec (exec_stmt env imp s l).1).
  { destruct s as [i|p lines]; simpl.
    - apply exec_line_not_rec. intros; apply H. unfold body_imports. simpl. by left.
    - destruct (mem "importlib.util" l), (find_spec env p); try not_rec_triv.
      apply exec_lines_not_rec. intros; apply H. unfold body_imports. simpl. apply in_or_app. by left. }
  destruct (exec_stmt env imp s l) as [[] l']; [|done].
  apply IH. intros; apply H. unfold body_imports. simpl. apply in_or_app. by right.
Qed.

Lemma import_prefixes_ext rb1 rb2 ps l :
  (forall p body defs l, In p ps -> od_lookup String.eqb p repo_modules = Some (body, defs) ->
     rb1 body l = rb2 body l) ->
  import_prefixes env rb1 ps l = import_prefixes env rb2 ps l.
Proof.
  revert l. induction ps as [|p ps IH]; intros l H; cbn [import_prefixes]; [done|].
  destruct (mem p l); [apply IH; intros; eapply H; [by right|done]|].
  destruct (od_lookup String.eqb p repo_modules) as [[body defs]|] eqn:Hp.
  - rewrite (H p body defs (p :: l)) by (try left; done).
    destruct (rb2 body (p :: l)) as [[] l']; [|done]. apply IH. intros; eapply H; [by right|done].
  - case_match; [|done]. apply IH. intros; eapply H; [by right|done].
Qed.

Lemma import_prefixes_not_rec rb ps l :
  (forall p body defs l, In p ps -> od_lookup String.eqb p repo_modules = Some (body, defs) ->
     not_rec (rb body l).1) ->
  not_rec (import_prefixes env rb ps l).1.
Proof.
  revert l. induction ps as [|p ps IH]; intros l H; cbn [import_prefixes]; [not_rec_triv|].
  destruct (mem p l); [apply IH; intros; eapply H; [by right|done]|].
  destruct (od_lookup String.eqb p repo_modules) as [[body defs]|] eqn:Hp.
  - pose proof (H p body defs (p :: l) ltac:(by left) Hp) as Hb.
    destruct (rb body (p :: l)) as [[] l']; [|done]. apply IH. intros; eapply H; [by right|done].
  - case_match; [|not_rec_triv]. apply IH. intros; eapply H; [by right|done].
Qed.

Lemma import_module_unfold fuel m l :
  import_module env fuel m l =
    import_prefixes env
      (fun body l' => match fuel with
                      | O => (Err (RecursionError "maximum recursion depth exceeded"), l')
                      | S f => exec_stmts env (import_module env f) body l'
                      end)
      (dotted_prefixes m) l.
Proof. by destruct fuel. Qed.

(** With fuel [f] at least [n] and the rank of [m] at most [n], the import
    is the one with fuel [n], and it does not run out of fuel. *)
Lemma import_fuel n : forall m, rank m <= n -> forall f l, n <= f ->
  import_module env f m l = import_module env n m l /\ not_rec (import_module env n m l).1.
Proof.
  induction n as [|n IH]; intros m Hm f l Hf; rewrite !import_module_unfold; split.
  - apply import_prefixes_ext. intros p body defs l' Hp Hb.
    pose proof (rank_prefix m p 0 Hm Hp). pose proof (ranks_decrease p body defs Hb). lia.
  - apply import_prefixes_not_rec. intros p body defs l' Hp Hb.
    pose proof (rank_prefix m p 0 Hm Hp). pose proof (ranks_decrease p body defs Hb). lia.
  - destruct f as [|f]; [lia|]. apply import_prefixes_ext. intros p body defs l' Hp Hb.
    apply exec_stmts_ext. intros m' l'' Hm'.
    destruct (ranks_decrease p body defs Hb) as [_ Hlt]. pose proof (Hlt m' Hm').
    pose proof (rank_prefix m p (S n) Hm Hp).
    exact (proj1 (IH m' ltac:(lia) f l'' ltac:(lia))).
  - apply import_prefixes_not_rec. intros p body defs l' Hp Hb.
    apply exec_stmts_not_rec. intros m' l'' Hm'.
    destruct (ranks_decrease p body defs Hb) as [_ Hlt]. pose proof (Hlt m' Hm').
    pose proof (rank_prefix m p (S n) Hm Hp). exact (proj2 (IH m' ltac:(lia) n l'' ltac:(lia))).
Qed.
End Fuel.

(** A prefix already in [sys.modules] is skipped; one that is not a
    module of the package and is found is added. *)
Lemma import_prefixes_present env rb p ps l :
  mem p l = true -> import_prefixes env rb (p :: ps) l = import_prefixes env rb ps l.
Proof. intros H. cbn [import_prefixes]. by rewrite H. Qed.

Lemma import_prefixes_found env rb p ps l :
  mem p l = false -> od_lookup String.eqb p repo_modules = None ->
  (String.eqb p repo_root || (negb (is_repo_name p) && available env p)) = true ->
  import_prefixes env rb (p :: ps) l = import_prefixes env rb ps (p :: l).
Proof. intros H1 H2 H3. cbn [import_prefixes]. by rewrite H1, H2, H3. Qed.

(** The outcome of [import time] or of reaching the package [tbutils]. *)
Lemma import_prefixes_added env rb p ps l :
  od_lookup String.eqb p repo_modules = None ->
  (String.eqb p repo_root || (negb (is_repo_name p) && available env p)) = true ->
  exists l', import_prefixes env rb (p :: ps) l = import_prefixes env rb ps l' /\
    (forall x, String.eqb x p = false -> mem x l' = mem x l).
Proof.
  intros H2 H3. destruct (mem p l) eqn:H1.
  - exists l. by rewrite import_prefixes_present.
  - exists (p :: l). rewrite import_prefixes_found by done. split; [done|].
    intros x Hx. unfold mem. simpl. by rewrite Hx.
Qed.

(** ** Enough fuel *)

(** Termination: Python's import needs no fuel, since a module is in
    [sys.modules] before its statements run; the interpreter's fuel only
    has to cover the depth of the import graph of the package.  Any fuel at
    least the rank of [m] gives the same result, whatever is installed and
    whatever [sys.modules] holds, and that result is never the
    [RecursionError] of running out of fuel. *)
Theorem import_fuel_enough env m f l :
  rank m <= f ->
  import_module env f m l = import_module env (rank m) m l /\ not_rec (import_module env f m l).1.
Proof. intros Hf. destruct (import_fuel env (rank m) m (le_n _) f l Hf) as [-> H]. by split. Qed.

(** The ranks of the modules of the package: [tbutils.seed] imports
    [tbutils.config], which imports [tbutils.exec_max_n]; fuel 3 covers
    every module. *)
Lemma repo_ranks :
  map (fun '(p, _) => rank p) repo_modules = [1; 2; 1; 1; 3; 1].
Proof. vm_compute. reflexivity. Qed.

(** ** What the imports need *)

(** [sys.modules] of a fresh interpreter, as far as the imports look at
    it: whether its start-up imported [importlib.util]. *)
Definition fresh_modules (util : bool) : list string :=
  if util then ["importlib"; "importlib.util"] else [].

(** Computes an import on every answer of the environment to the
    questions the import asks. *)
Ltac env_cases env :=
  let em := fresh "em" in let eh := fresh "eh" in
  destruct env as [em eh]; vm_compute;
  repeat (match goal with
          | |- context [em ?x] => destruct (em x)
          | |- context [eh ?x ?y] => destruct (eh x y)
          end; vm_compute).

Definition seed_import_spec (env : ext_env) : result unit :=
  if ext_module env "hydra" then
    if ext_module env "omegaconf" then
      if ext_has env "omegaconf" "OmegaConf" then Ok tt
      else Err (ImportError "cannot import name 'OmegaConf' from 'omegaconf'")
    else Err (ModuleNotFoundError "No module named 'omegaconf'")
  else Err (ModuleNotFoundError "No module named 'hydra'").

(** C31: [import tbutils.seed] in a fresh interpreter succeeds exactly when
    [hydra] and [omegaconf] (with [OmegaConf]) are installed, which
    [seed.py] needs only because it imports [try_get] from
    [tbutils.config].  When it fails, [tbutils.exec_max_n] stays in
    [sys.modules] while [tbutils.config] and [tbutils.seed] are removed. *)
Theorem import_seed_outcome env util :
  (import_module env 3 "tbutils.seed" (fresh_modules util)).1 = seed_import_spec env /\
  (seed_import_spec env <> Ok tt ->
   mem "tbutils.exec_max_n" (import_module env 3 "tbutils.seed" (fresh_modules util)).2 = true /\
   mem "tbutils.config" (import_module env 3 "tbutils.seed" (fresh_modules util)).2 = false /\
   mem "tbutils.seed" (import_module env 3 "tbutils.seed" (fresh_modules util)).2 = false).
Proof. destruct util; env_cases env; (split; [done|]); intros H; done || (exfalso; by apply H). Qed.

Definition jax_import_spec (env : ext_env) (util : bool) : result unit :=
  if negb util then Err (AttributeError "module 'importlib' has no attribute 'util'")
  else if ext_module env "jax" then
    if ext_has env "jax" "random" then
      if ext_module env "jax.numpy" then
        if ext_module env "numpy" then
          if ext_module env "jax.lib" then
            if ext_has env "jax.lib" "xla_bridge" then Ok tt
            else Err (ImportError "cannot import name 'xla_bridge' from 'jax.lib'")
          else Err (ModuleNotFoundError "No module named 'jax.lib'")
        else Err (ModuleNotFoundError "No module named 'numpy'")
      else Err (ModuleNotFoundError "No module named 'jax.numpy'")
    else Err (ImportError "cannot import name 'random' from 'jax'")
  else Ok tt.

(** C32: [import tbutils.jax] in a fresh interpreter raises
    [AttributeError] unless the start-up imported [importlib.util]
    ([jax.py] only does [import importlib]); without JAX it succeeds,
    leaving [jax], [jnp] and [xla_bridge] unbound; with JAX it needs
    [jax.numpy], numpy and [jax.lib.xla_bridge], and raises [ImportError]
    with a JAX that no longer has [xla_bridge]. *)
Theorem import_jax_outcome env util :
  (import_module env 1 "tbutils.jax" (fresh_modules util)).1 = jax_import_spec env util.
Proof. destruct util; env_cases env; done. Qed.

(** C33: [examples/tmeasure_example.py] raises [ModuleNotFoundError] at
    its line 2, whatever is installed and whatever fuel, from any
    [sys.modules] that does not already hold [tbutils.tmeasure]: the
    package has no module [tmeasure], so lines 4-19 never run. *)
Theorem tmeasure_example_raises env f l :
  mem "tbutils.tmeasure" l = false ->
  exists l', run_imports env f tmeasure_example_imports l =
    (Err (ModuleNotFoundError "No module named 'tbutils.tmeasure'"), l').
Proof.
  intros Hl. unfold run_imports. cbn [exec_stmts exec_stmt exec_line tmeasure_example_imports].
  rewrite import_module_unfold. replace (dotted_prefixes "time") with ["time"] by reflexivity.
  destruct (import_prefixes_added env (fun body l' => match f with
      | O => (Err (RecursionError "maximum recursion depth exceeded"), l')
      | S f0 => exec_stmts env (import_module env f0) body l' end) "time" [] l eq_refl eq_refl)
    as (l1 & -> & Hl1).
  cbn [import_prefixes]. rewrite import_module_unfold.
  replace (dotted_prefixes "tbutils.tmeasure") with ["tbutils"; "tbutils.tmeasure"] by reflexivity.
  edestruct import_prefixes_added as (l2 & -> & Hl2); [reflexivity|reflexivity|].
  cbn [import_prefixes]. rewrite Hl2, Hl1, Hl by reflexivity. eexists. reflexivity.
Qed.

(** ** The scripts with everything installed *)

(** An environment where every module and name is found. *)
Definition full_env : ext_env := {| ext_module := fun _ => true; ext_has := fun _ _ => true |}.

(** With everything installed and [importlib.util] imported at start-up,
    the imports of [examples/config.py], [exec_max_n.py], [seed.py] and
    [struct_example.py] succeed; without numpy, [struct_example.py] stops
    at its line 4. *)
Example example_scripts_import :
  map (fun body => (run_imports full_env 3 body (fresh_modules true)).1)
    [example_config_imports; example_exec_max_n_imports; example_seed_imports; example_struct_imports]
    = [Ok tt; Ok tt; Ok tt; Ok tt] /\
  (run_imports {| ext_module := fun m => negb (String.eqb m "numpy"); ext_has := fun _ _ => true |}
     3 example_struct_imports (fresh_modules true)).1 = Err (ModuleNotFoundError "No module named 'numpy'").
Proof. vm_compute. split; reflexivity. Qed.

(** ** Witnesses *)

Lemma import_fuel_enough_witness :
  rank "tbutils.seed" <= 5 /\
  import_module full_env 5 "tbutils.seed" [] = import_module full_env (rank "tbutils.seed") "tbutils.seed" [] /\
  not_rec (import_module full_env 5 "tbutils.seed" []).1.
Proof.
  assert (H : rank "tbutils.seed" <= 5) by (vm_compute; lia).
  split; [exact H|]. exact (import_fuel_enough full_env "tbutils.seed" 5 [] H).
Defined.

Lemma tmeasure_example_raises_witness :
  mem "tbutils.tmeasure" ["time"; "tbutils"] = false /\
  exists l', run_imports full_env 3 tmeasure_example_imports ["time"; "tbutils"] =
    (Err (ModuleNotFoundError "No module named 'tbutils.tmeasure'"), l').
Proof.
  assert (H : mem "tbutils.tmeasure" ["time"; "tbutils"] = false) by reflexivity.
  split; [exact H|]. exact (tmeasure_example_raises full_env 3 ["time"; "tbutils"] H).
Defined.
