(* ===== verification/Setup.v ===== *)
(** * [src/setup.py]: the metadata of the distribution

    [setup.py] calls [setuptools.setup] with fixed metadata, the packages
    [find_packages()] finds under the directory it runs in, and the text of
    [README.md] read from that directory.  The directory is the list
    [files] of the paths (relative, separated by [/]) and contents of its
    files.  [find_packages()] is written from setuptools' [PackageFinder]:
    the walk enters a directory only when it holds an [__init__.py] and has
    no dot in its name, so a directory is listed (with dots for
    separators) when it and every directory above it look like packages;
    a directory without [__init__.py] (a namespace package) is not found,
    nor is anything below it.

    Theorem: [setup.py] raises [FileNotFoundError] exactly when the
    directory has no [README.md]; otherwise it passes the contents of the
    file and the packages so described. *)

From S2P Require Import Prelude PyVal.

(** The files of the directory [setup.py] runs in. *)
Abbreviation files := (list (string * string))%type.

Record setup_args : Type := {
  s_name : string;
  s_url : string;
  s_author : string;
  s_author_email : string;
  s_packages : list string;
  s_version : string;
  s_license : string;
  s_description : string;
  s_long_description : string;
  s_long_description_content_type : string
}.

(** [open(path).read()] *)
Definition read_file (fs : files) (path : string) : result string :=
  match od_lookup String.eqb path fs with
  | Some c => Ok c
  | None => Err (FileNotFoundError ("[Errno 2] No such file or directory: '" +:+ path +:+ "'"))
  end.

(** The directories a path lies in: [a/b/f.py] gives [a] and [a/b]. *)
Definition parent_dirs (path : string) : list string :=
  let parts := str_split "/" path in
  map (fun k => str_join "/" (take k parts)) (seq 1 (pred (length parts))).

(** The directory [d] and those above it. *)
Definition dir_chain (d : string) : list string := parent_dirs (d +:+ "/__init__.py").

(** The directories of the tree, in the order of the files. *)
Definition tree_dirs (fs : files) : list string :=
  remove_dups (concat (map (fun f => parent_dirs f.1) fs)).

(** [PackageFinder._looks_like_package] *)
Definition looks_like_package (fs : files) (d : string) : bool :=
  existsb (fun f => String.eqb f.1 (d +:+ "/__init__.py")) fs.

(** The walk reaches [d] and lists it. *)
Definition is_found_package (fs : files) (d : string) : bool :=
  forallb (looks_like_package fs) (dir_chain d) && negb (str_contains "." d).

Definition dotted (d : string) : string := str_join "." (str_split "/" d).

(** [find_packages()] *)
Definition find_packages (fs : files) : list string :=
  map dotted (List.filter (is_found_package fs) (tree_dirs fs)).

(** [author="Timothé Boulet"], UTF-8 encoded. *)
Definition author : string := "Timoth" +:+ String "195" (String "169" " Boulet").

(** Lines 3-16: the keyword arguments are evaluated in order, so
    [find_packages()] runs before [README.md] is read. *)
Definition setup_py (fs : files) : result setup_args :=
  let packages := find_packages fs in
  long_description ← read_file fs "README.md";
  mret {| s_name := "tbutils";
          s_url := "https://github.com/tboulet/tbutils";
          s_author := author;
          s_author_email := "timothe.boulet0@gmail.com";
          s_packages := packages;
          s_version := "1.1";
          s_license := "MIT";
          s_description := "tbutils is a package of utility functions for python.";
          s_long_description := long_description;
          s_long_description_content_type := "text/markdown" |}.

(** ** Lemmas *)

Lemma looks_like_package_spec fs d :
  looks_like_package fs d = true <-> In (d +:+ "/__init__.py") (map fst fs).
Proof.
  unfold looks_like_package. rewrite existsb_exists, in_map_iff. split.
  - intros (f & Hf & He). apply String.eqb_eq in He. by exists f.
  - intros (f & He & Hf). exists f. split; [done|]. by apply String.eqb_eq.
Qed.

Lemma is_found_package_spec fs d :
  is_found_package fs d = true <->
    (forall c, In c (dir_chain d) -> In (c +:+ "/__init__.py") (map fst fs)) /\
    str_contains "." d = false.
Proof.
  unfold is_found_package. rewrite andb_true_iff, forallb_forall, negb_true_iff.
  setoid_rewrite looks_like_package_spec. done.
Qed.

(** ** The call of [setup] *)

(** C34: [setup.py] raises [FileNotFoundError] when the directory it runs
    in has no [README.md].  Otherwise it passes the contents of that file
    as [long_description], and as [packages] the dotted names of exactly
    the directories of the tree that have no dot in their path and hold an
    [__init__.py], as does every directory above them. *)
Theorem setup_py_outcome fs :
  match od_lookup String.eqb "README.md" fs with
  | None => setup_py fs = Err (FileNotFoundError "[Errno 2] No such file or directory: 'README.md'")
  | Some readme =>
      exists a, setup_py fs = Ok a /\ s_long_description a = readme /\
        forall p, In p (s_packages a) <->
          exists d, In d (tree_dirs fs) /\ p = dotted d /\ str_contains "." d = false /\
            forall c, In c (dir_chain d) -> In (c +:+ "/__init__.py") (map fst fs)
  end.
Proof.
  unfold setup_py, read_file. destruct (od_lookup String.eqb "README.md" fs) as [readme|]; [|done].
  eexists. split; [reflexivity|]. split; [done|]. intros p. cbn [s_packages].
  unfold find_packages. rewrite in_map_iff. setoid_rewrite filter_In.
  setoid_rewrite is_found_package_spec. naive_solver.
Qed.

(** A directory without [__init__.py] is not found, nor anything below it;
    with it, the package and its subpackages are. *)
Example find_packages_namespace :
  find_packages [("setup.py", ""); ("tbutils/config.py", ""); ("tbutils/sub/__init__.py", "")] = [] /\
  find_packages [("setup.py", ""); ("tbutils/__init__.py", ""); ("tbutils/sub/__init__.py", "");
                 ("examples/seed.py", "")] = ["tbutils"; "tbutils.sub"].
Proof. vm_compute. split; reflexivity. Qed.
