(* ===== verification/ExecMaxNExample.v ===== *)
(** * [src/examples/exec_max_n.py]: the demonstration script

    The script (lines 20-62) asks whether to show the counters, then calls
    every helper of [exec_max_n.py] from a fresh interpreter: [print_once]
    and [print_max_n], [log_once] and [log_max_n] on the logger
    [__main__], a function decorated with [exec_once], a function wrapped
    by [exec_max_n(test_func2, 3)], and [print_once] with a discriminator.
    The answer to [input] is the parameter [answer]; [logging.basicConfig]
    only formats the records, which the world keeps as they are logged.

    Theorem: whatever the answer, the script prints the lines and logs the
    messages of [demo_stdout] and [demo_logs]: each message once or three
    times, with the counters exactly when the answer is [y] or [Y]. *)

From S2P Require Import Prelude PyVal World Limiter ExecMaxN Logging.

(** [str.lower()] on ASCII letters. *)
Definition char_lower (c : ascii) : ascii :=
  let n := nat_of_ascii c in
  if (65 <=? n)%nat && (n <=? 90)%nat then ascii_of_nat (n + 32) else c.

Fixpoint str_lower (s : string) : string :=
  match s with
  | EmptyString => EmptyString
  | String c s' => String (char_lower c) (str_lower s')
  end.

(** [for _ in range(n): m] *)
Fixpoint repeat_m (n : nat) (m : PyM unit) : PyM unit :=
  match n with
  | O => mret tt
  | S n' => m;; repeat_m n' m
  end.

(** [def test_func(): print("Will be printed only once")] *)
Definition test_func : pyfunc :=
  {| fn_name := "test_func"; fn_code := Some [];
     fn_call := fun _ _ => print (PStr "Will be printed only once");; mret PNone |}.

(** [logging.basicConfig(level=logging.INFO, format=...)] (lines 16-19),
    run at import in a fresh interpreter. *)
Definition demo_log_config : log_config := basic_config INFO default_log_config.

Definition exec_max_n_demo (answer : string) : PyM unit :=
  let show_counter := String.eqb (str_lower answer) "y" in
  print_s "Testing printing functions:";;
  print_once (PStr "Will be printed only once") PNone (OVal PNone) false;;
  print_once (PStr "Will be printed only once") PNone (OVal PNone) false;;
  print_s "";;
  repeat_m 5 (print_max_n (PStr "Will be printed only 3 times") 3 PNone (OVal PNone) show_counter);;
  print_s "";;
  print_s "Testing logging functions:";;
  log_once "__main__" (PStr "Will be logged only once") PNone (OVal PNone) INFO false [] [];;
  log_once "__main__" (PStr "Will be logged only once") PNone (OVal PNone) INFO false [] [];;
  print_s "";;
  repeat_m 5 (log_max_n "__main__" (PStr "Will be logged only 3 times") 3 PNone (OVal PNone)
                INFO show_counter [] []);;
  print_s "";;
  print_s "Testing one_time_exec:";;
  tf ← exec_once (OFun test_func) (OVal PNone) false;
  wrapper_call tf [] [];;
  wrapper_call tf [] [];;
  tf2 ← exec_max_n (OFun callee) 3 (OVal PNone) show_counter;
  repeat_m 5 (wrapper_call tf2 [] [];; mret tt);;
  print_s "";;
  print_s "Testing discr_obj and discr_fn:";;
  print_new_tens [5; 9; 13; 14; 15; 16; 25]%Z.

(** The three numbered lines of a message printed at most three times. *)
Definition numbered (msg : string) (show : bool) : list string :=
  if show then [msg +:+ " (1/3)"; msg +:+ " (2/3)"; msg +:+ " (3/3)"] else [msg; msg; msg].

Definition demo_stdout (show : bool) : list string :=
  ["Testing printing functions:"; "Will be printed only once"; ""] ++
  numbered "Will be printed only 3 times" show ++
  [""; "Testing logging functions:"; ""; ""; "Testing one_time_exec:"; "Will be printed only once"] ++
  (if show
   then ["test_func2 was called (1/3)"; "Will be printed only 3 times";
         "test_func2 was called (2/3)"; "Will be printed only 3 times";
         "test_func2 was called (3/3)"; "Will be printed only 3 times"]
   else ["Will be printed only 3 times"; "Will be printed only 3 times"; "Will be printed only 3 times"]) ++
  [""; "Testing discr_obj and discr_fn:";
   "A number of a new ten was detected : 5";
   "A number of a new ten was detected : 13";
   "A number of a new ten was detected : 25"].

Definition demo_logs (show : bool) : list string :=
  "Will be logged only once" :: numbered "Will be logged only 3 times" show.

(** [examples/exec_max_n.py] run in a fresh interpreter: whatever the
    answer to its question, it returns normally, prints [demo_stdout] and
    logs [demo_logs] at level [INFO] on [__main__]: every message at most
    once or three times as its helper promises, the counters shown exactly
    when the answer, lowered, is [y].  The [basicConfig] call of the
    script makes every one of these calls emit a record; without it the
    root logger stays at [WARNING] and none would. *)
Theorem exec_max_n_demo_output answer :
  exists w', exec_max_n_demo answer world_init = (Ok tt, w') /\
    w_stdout w' = demo_stdout (String.eqb (str_lower answer) "y") /\
    map (fun l => py_str (lc_msg l)) (w_logs w') = demo_logs (String.eqb (str_lower answer) "y") /\
    Forall (fun l => lc_logger l = "__main__" /\ lc_level l = INFO) (w_logs w') /\
    emitted demo_log_config (w_logs w') = w_logs w' /\
    emitted default_log_config (w_logs w') = [].
Proof.
  unfold exec_max_n_demo. destruct (String.eqb (str_lower answer) "y");
    (eexists; split; [vm_compute; reflexivity|]); vm_compute; repeat split; repeat constructor.
Qed.
