(* ===== verification/Config.v ===== *)
(** * [src/tbutils/config.py]: dotted-path lookup with defaults

    [try_get] splits the key with [str.split] ([py_split]), then walks the
    config one subkey at a time ([try_get_loop], the [for] loop of lines
    39-57): [subkey in value] and [value[subkey]] are Python's [in] and
    subscription on whatever value is reached.  On the first missing subkey
    it evaluates the default ([resolve_default], lines 43-51: a callable is
    called with the keyword arguments [config] and [key] that its
    [__code__.co_varnames] mention), optionally warns through
    [ExecMaxN.print_once] keyed by the whole key string, and returns it
    ([use_default]).

    The abstract specification is [lookup_path], a walk through nested
    dicts that either finds a value, stops at a missing subkey, or gets
    stuck on a value that is not a dict.  Theorems: [try_get] refines
    [lookup_path] on every config whose walk does not get stuck; a walk stuck
    on a number or [None] raises [TypeError] (the spec asks for the default);
    the callable default receives exactly the keyword arguments its
    [co_varnames] name; the warning is printed at most once per key string,
    sharing [print_once]'s table with every other caller.

    [merge_container] receives the values an OmegaConf interpolation
    passes ([cfg_arg]: a [DictConfig], a [ListConfig] or a plain value)
    and converts each with [OmegaConf.to_container] ([to_container]),
    which raises [ValueError] on a plain value: it is a right-biased union
    of dict configs, a concatenation of list configs, and its tuple branch
    is unreachable.  [instantiate_class] imports the module with
    [importlib.import_module] ([importlib_import_module], over a registry
    of the importable modules and their attributes) and takes the class
    with [getattr] ([getattr_module]); a theorem gives its outcome on every
    branch. *)

From S2P Require Import Prelude PyVal World Limiter ExecMaxN.

(** [default.__code__.co_varnames] *)
Definition code_varnames (f : pyfunc) : result (list string) :=
  match fn_code f with
  | Some vs => Ok vs
  | None => Err (AttributeError ("'" +:+ fn_name f +:+ "' object has no attribute '__code__'"))
  end.

(** Lines 43-51. *)
Definition resolve_default (config : pyval) (key : string) (default : pyobj) : PyM pyval :=
  match default with
  | OVal v => mret v
  | OFun f =>
      varnames ← lift (code_varnames f);
      let kw1 := if existsb (String.eqb "config") varnames then [("config", config)] else [] in
      let kw2 := if existsb (String.eqb "key") varnames then kw1 ++ [("key", PStr key)] else kw1 in
      fn_call f [] kw2
  end.

(** The message of line 54. *)
Definition warn_msg (key subkey : string) (default_value : pyval) : pyval :=
  PStr ("[tbutils.config WARNING] The key " +:+ key +:+ " is not found (" +:+ subkey
        +:+ " not in config/subconfig), using a default value: " +:+ py_str default_value).

(** Lines 43-57: the branch taken at the first missing subkey. *)
Definition use_default (config : pyval) (key : string) (default : pyobj) (warn_if_unvalid : bool)
    (subkey : string) : PyM pyval :=
  default_value ← resolve_default config key default;
  (if warn_if_unvalid
   then print_once (warn_msg key subkey default_value) (PStr key) (OVal PNone) false
   else mret tt);;
  mret default_value.

(** The loop of lines 39-58 over the remaining subkeys. *)
Fixpoint try_get_loop (config : pyval) (key : string) (default : pyobj) (warn_if_unvalid : bool)
    (value : pyval) (subkeys : list string) : PyM pyval :=
  match subkeys with
  | [] => mret value
  | subkey :: rest =>
      lift (py_contains (PStr subkey) value) ≫= fun (found : bool) =>
      if found
      then v ← lift (py_getitem value (PStr subkey));
           try_get_loop config key default warn_if_unvalid v rest
      else use_default config key default warn_if_unvalid subkey
  end.

Definition try_get (config : pyval) (key : string) (default : pyobj) (warn_if_unvalid : bool)
    (sep : string) : PyM pyval :=
  key_split ← lift (py_split sep key);
  try_get_loop config key default warn_if_unvalid config key_split.

(** ** The abstract specification: walking nested dicts *)

Inductive walk : Type :=
| Found (v : pyval)           (** every subkey was present *)
| Missing (subkey : string)   (** the first subkey absent from a dict *)
| Stuck (v : pyval).          (** a value that is not a dict, with subkeys left *)

Fixpoint lookup_path (v : pyval) (ks : list string) : walk :=
  match ks with
  | [] => Found v
  | k :: ks' =>
      match v with
      | PDict d =>
          match od_lookup py_eq (PStr k) d with
          | Some v' => lookup_path v' ks'
          | None => Missing k
          end
      | _ => Stuck v
      end
  end.

(** ** The loop follows [lookup_path] *)

Lemma try_get_loop_walk config key default warn value ks w :
  (forall v, lookup_path value ks <> Stuck v) ->
  try_get_loop config key default warn value ks w =
    match lookup_path value ks with
    | Found v => (Ok v, w)
    | Missing k => use_default config key default warn k w
    | Stuck _ => (Ok PNone, w)
    end.
Proof.
  revert value w. induction ks as [|k ks IH]; intros value w Hns; [done|].
  destruct value as [| | | | | | |d]; try (exfalso; eapply Hns; reflexivity).
  cbn [try_get_loop lookup_path]. unfold mbind, pym_bind, lift. simpl.
  unfold od_mem. destruct (od_lookup py_eq (PStr k) d) as [v'|] eqn:E; simpl; [|done].
  apply IH. intros v Hv. apply (Hns v). simpl. by rewrite E.
Qed.

(** Python's [not iterable] error for [subkey in v]. *)
Definition not_iterable (v : pyval) : py_exc :=
  TypeError ("argument of type '" +:+ py_type_name v +:+ "' is not iterable").

Definition scalar (v : pyval) : bool :=
  match v with PNone | PBool _ | PInt _ => true | _ => false end.

Lemma try_get_loop_stuck config key default warn value ks w v :
  lookup_path value ks = Stuck v -> scalar v = true ->
  try_get_loop config key default warn value ks w = (Err (not_iterable v), w).
Proof.
  revert value. induction ks as [|k ks IH]; intros value Hst Hs; [done|].
  destruct value as [| | | | | | |d]; cbn [lookup_path] in Hst; simplify_eq; try done.
  cbn [try_get_loop]. unfold mbind, pym_bind, lift. simpl.
  unfold od_mem. destruct (od_lookup py_eq (PStr k) d) as [v'|] eqn:E; simpl; [|done].
  by apply IH.
Qed.

Lemma try_get_split config key default warn sep w :
  String.eqb sep "" = false ->
  try_get config key default warn sep w =
    try_get_loop config key default warn config (str_split sep key) w.
Proof. intros Hsep. unfold try_get, py_split. by rewrite Hsep. Qed.

(** C15: Refinement: with a non-empty separator, on every config whose walk
    along the split key never reaches a non-dict with subkeys left,
    [try_get] returns the value at the end of the path without touching
    the world, and at the first missing subkey falls back to the default
    branch (evaluate the default, optionally warn, return it). *)
Theorem try_get_refines config key default warn sep w :
  String.eqb sep "" = false ->
  (forall v, lookup_path config (str_split sep key) <> Stuck v) ->
  try_get config key default warn sep w =
    match lookup_path config (str_split sep key) with
    | Found v => (Ok v, w)
    | Missing k => use_default config key default warn k w
    | Stuck _ => (Ok PNone, w)
    end.
Proof.
  intros Hsep Hns. rewrite try_get_split by done. by apply try_get_loop_walk.
Qed.

(** C16: The specification asks that a path reaching a non-mapping be
    treated as "key not found"; the code evaluates [subkey in value], so a
    walk that reaches a number, a boolean or [None] with subkeys left raises
    [TypeError: argument of type ... is not iterable] instead of returning
    the default. *)
Theorem try_get_stuck_raises config key default warn sep w v :
  String.eqb sep "" = false -> lookup_path config (str_split sep key) = Stuck v -> scalar v = true ->
  try_get config key default warn sep w = (Err (not_iterable v), w).
Proof.
  intros Hsep Hst Hs. rewrite try_get_split by done. by apply try_get_loop_stuck.
Qed.

(** An empty separator raises [ValueError] before the config is read. *)
Lemma try_get_empty_sep config key default warn w :
  try_get config key default warn "" w = (Err (ValueError "empty separator"), w).
Proof. reflexivity. Qed.

Definition cfg_abc : pyval := PDict [(PStr "a", PDict [(PStr "b", PDict [(PStr "c", PInt 1)])])].

(** Section 8, property 1: on [{"a": {"b": {"c": 1}}}], the path [a.b.c]
    gives [1] and the path [a.b.x] gives the default. *)
Lemma try_get_refines_witness :
  try_get cfg_abc "a.b.c" (OVal (PStr "d")) false "." world_init = (Ok (PInt 1), world_init) /\
  try_get cfg_abc "a.b.x" (OVal (PStr "d")) false "." world_init = (Ok (PStr "d"), world_init).
Proof.
  split; rewrite try_get_refines; [reflexivity | reflexivity | intros v; discriminate
                                  | reflexivity | reflexivity | intros v; discriminate].
Defined.

Lemma try_get_stuck_raises_witness :
  try_get (PDict [(PStr "a", PInt 1)]) "a.b" (OVal (PInt 0)) false "." world_init =
    (Err (TypeError "argument of type 'int' is not iterable"), world_init).
Proof. apply (try_get_stuck_raises _ _ _ _ _ _ (PInt 1)); reflexivity. Defined.

(** ** The warning of a missing key *)

Lemma use_default_warn config key dv k w :
  table_wf (w_print_counter w) ->
  use_default config key (OVal dv) true k w =
    (Ok dv, let c := dd_count (w_print_counter w) (PStr key) in
            let t := dd_touch (w_print_counter w) (PStr key) in
            if bool_decide (c < 1)%Z
            then set_print_counter (od_insert py_eq (PStr key) (c + 1)%Z t)
                   (set_stdout (w_stdout w ++ [py_str (warn_msg key k dv)]) w)
            else set_print_counter t w).
Proof.
  intros Ht. unfold use_default, resolve_default, print_once.
  rewrite bind_ret.
  pose proof (print_max_n_call (warn_msg key k dv) 1 (PStr key) (OVal PNone) false
                w (PStr key) w eq_refl eq_refl Ht) as Hp. cbv zeta in Hp |- *.
  destruct (decide (dd_count (w_print_counter w) (PStr key) < 1)%Z) as [Hl|Hl];
    [rewrite bool_decide_eq_true_2 in Hp |- * by done
    |rewrite bool_decide_eq_false_2 in Hp |- * by done];
    by rewrite (bind_run _ _ _ _ _ Hp).
Qed.

Lemma try_get_warn_step config key dv sep w k :
  String.eqb sep "" = false -> lookup_path config (str_split sep key) = Missing k ->
  table_wf (w_print_counter w) ->
  try_get config key (OVal dv) true sep w =
    (Ok dv, let c := dd_count (w_print_counter w) (PStr key) in
            let t := dd_touch (w_print_counter w) (PStr key) in
            if bool_decide (c < 1)%Z
            then set_print_counter (od_insert py_eq (PStr key) (c + 1)%Z t)
                   (set_stdout (w_stdout w ++ [py_str (warn_msg key k dv)]) w)
            else set_print_counter t w).
Proof.
  intros Hsep Hm Ht. rewrite try_get_split by done.
  rewrite try_get_loop_walk by (rewrite Hm; discriminate). rewrite Hm.
  by apply use_default_warn.
Qed.

(** With [warn_if_unvalid], a missing subkey [k] prints
    [[tbutils.config WARNING] The key <key> is not found (<k> not in
    config/subconfig), using a default value: <default>] iff the whole key
    string has not yet been printed through [print_once]'s table, counts it
    there, and returns the default. *)
Theorem try_get_warning config key dv sep w k :
  String.eqb sep "" = false -> lookup_path config (str_split sep key) = Missing k ->
  table_wf (w_print_counter w) ->
  try_get config key (OVal dv) true sep w =
    (Ok dv, let c := dd_count (w_print_counter w) (PStr key) in
            let t := dd_touch (w_print_counter w) (PStr key) in
            if bool_decide (c < 1)%Z
            then set_print_counter (od_insert py_eq (PStr key) (c + 1)%Z t)
                   (set_stdout (w_stdout w ++ [py_str (warn_msg key k dv)]) w)
            else set_print_counter t w).
Proof. apply try_get_warn_step. Qed.

(** The warning is printed once per key: two lookups of the same
    missing key from a table where the key string was never printed write
    exactly one warning line and return the default both times. *)
Theorem try_get_warns_once config key dv sep w k :
  String.eqb sep "" = false -> lookup_path config (str_split sep key) = Missing k ->
  table_wf (w_print_counter w) -> dd_count (w_print_counter w) (PStr key) = 0%Z ->
  exists w', (try_get config key (OVal dv) true sep;; try_get config key (OVal dv) true sep) w = (Ok dv, w') /\
    w_stdout w' = w_stdout w ++ [py_str (warn_msg key k dv)].
Proof.
  intros Hsep Hm Ht H0.
  rewrite (bind_run _ _ _ _ _ (try_get_warn_step config key dv sep w k Hsep Hm Ht)).
  cbv zeta. rewrite H0, bool_decide_eq_true_2 by lia.
  set (t1 := od_insert py_eq (PStr key) (0 + 1)%Z (dd_touch (w_print_counter w) (PStr key))).
  assert (Ht1 : table_wf t1) by (apply table_wf_insert; [apply table_wf_touch|]; done).
  rewrite (try_get_warn_step config key dv sep
             (set_print_counter t1 (set_stdout (w_stdout w ++ [py_str (warn_msg key k dv)]) w))
             k Hsep Hm Ht1).
  assert (Hc1 : dd_count t1 (PStr key) = 1%Z).
  { unfold t1. rewrite (count_insert_eq (dd_touch (w_print_counter w) (PStr key)) (PStr key) (PStr key));
      [done | by apply table_wf_touch | done | done | by apply py_eq_refl]. }
  cbv zeta. simpl. rewrite Hc1, bool_decide_eq_false_2 by lia. by eexists.
Qed.

Lemma try_get_warning_witness :
  try_get cfg_abc "a.b.x" (OVal (PInt 0)) true "." world_init =
    (Ok (PInt 0), set_print_counter [(PStr "a.b.x", 1%Z)]
       (set_stdout ["[tbutils.config WARNING] The key a.b.x is not found (x not in config/subconfig), using a default value: 0"]
          world_init)).
Proof. rewrite (try_get_warning _ _ _ _ _ "x"); reflexivity || constructor. Defined.

Lemma try_get_warns_once_witness :
  exists w', (try_get cfg_abc "a.b.x" (OVal (PInt 0)) true ".";; try_get cfg_abc "a.b.x" (OVal (PInt 0)) true ".")
               world_init = (Ok (PInt 0), w') /\
    w_stdout w' = w_stdout world_init ++ [py_str (warn_msg "a.b.x" "x" (PInt 0))].
Proof.
  apply (try_get_warns_once _ _ _ _ _ "x"); reflexivity || constructor.
Defined.

(** ** Examples of the specification and of [examples/config.py] *)

(** [lambda config, key: config['a'] * 2] *)
Definition double_a : pyfunc :=
  {| fn_name := "<lambda>"; fn_code := Some ["config"; "key"];
     fn_call := fun _ kw =>
       lift (match bind_kwargs "<lambda>" ["config"; "key"] kw with
             | Ok [config; _] =>
                 match py_getitem config (PStr "a") with
                 | Ok (PInt z) => Ok (PInt (z * 2))
                 | Ok v => Err (TypeError ("unsupported operand type(s) for *: '" +:+ py_type_name v +:+ "' and 'int'"))
                 | Err e => Err e
                 end
             | Ok _ => Err (TypeError "<lambda>() takes 2 arguments")
             | Err e => Err e
             end) |}.

(** [examples/config.py] and Section 8, property 2: a callable default
    declaring [config] and [key] is called with the config and the key:
    [try_get({'a': 1}, 'double_a', lambda config, key: config['a'] * 2)]
    returns 2. *)
Example try_get_callable_default_example :
  try_get (PDict [(PStr "a", PInt 1)]) "double_a" (OFun double_a) false "." world_init =
    (Ok (PInt 2), world_init).
Proof. vm_compute. reflexivity. Qed.

(** [def default(config): key = config.get("name"); return key]: [key] is a
    local variable, so it is in [co_varnames] without being a parameter. *)
Definition default_with_local : pyfunc :=
  {| fn_name := "default"; fn_code := Some ["config"; "key"];
     fn_call := fun _ kw =>
       lift (match bind_kwargs "default" ["config"] kw with
             | Ok [config] => match config with
                              | PDict d => Ok (default PNone (od_lookup py_eq (PStr "name") d))
                              | _ => Err (AttributeError "object has no attribute 'get'")
                              end
             | Ok _ => Err (TypeError "default() takes 1 argument")
             | Err e => Err e
             end) |}.

(** [dict], a class: callable, but without [__code__]. *)
Definition dict_class : pyfunc :=
  {| fn_name := "dict"; fn_code := None; fn_call := fun _ _ => mret (PDict []) |}.

(** Two defaults the test of lines 45-47 does not handle.  The
    specification says the default callable receives the arguments among
    [config] and [key] that it declares as parameters; the code tests
    [__code__.co_varnames], which also lists local variables: a default
    with the single parameter [config] and a local variable [key] is passed
    [key=...] and the lookup raises [TypeError].  And a callable without
    [__code__] (a class such as [dict], or a builtin) makes the lookup of a
    missing key raise [AttributeError]. *)
Example try_get_default_pitfalls :
  try_get (PDict []) "name" (OFun default_with_local) false "." world_init =
    (Err (TypeError "default() got an unexpected keyword argument 'key'"), world_init) /\
  try_get (PDict []) "x" (OFun dict_class) false "." world_init =
    (Err (AttributeError "'dict' object has no attribute '__code__'"), world_init).
Proof. split; vm_compute; reflexivity. Qed.

(** The once-only warning shares [print_once]'s table with every other
    caller, keyed by the key string itself: after an unrelated
    [print_once("a.b.x")], the warning for the missing key [a.b.x] is never
    printed. *)
Example try_get_warning_shared_table :
  (print_once (PStr "a.b.x") PNone (OVal PNone) false;;
   try_get cfg_abc "a.b.x" (OVal (PInt 0)) true ".") world_init =
    (Ok (PInt 0), set_print_counter [(PStr "a.b.x", 1%Z)] (set_stdout ["a.b.x"] world_init)).
Proof. vm_compute. reflexivity. Qed.

(** ** [merge_container] (lines 61-75)

    OmegaConf passes a resolver the values its arguments interpolate: a
    config node ([DictConfig], [ListConfig]) or a plain value ([cfg_arg]).
    Line 63 converts each with [OmegaConf.to_container], which turns a
    [DictConfig] into a dict and a [ListConfig] into a list and raises
    [ValueError] on anything else, so the tuple branch of lines 70-71 is
    never taken. *)

Inductive cfg_arg : Type :=
| DictConfig (d : list (pyval * pyval))
| ListConfig (l : list pyval)
| Plain (v : pyval).

Definition cfg_type_name (a : cfg_arg) : string :=
  match a with DictConfig _ => "DictConfig" | ListConfig _ => "ListConfig" | Plain v => py_type_name v end.

(** [OmegaConf.to_container(cfg)] *)
Definition to_container (a : cfg_arg) : result pyval :=
  match a with
  | DictConfig d => Ok (PDict d)
  | ListConfig l => Ok (PList l)
  | Plain v => Err (ValueError ("Input cfg is not an OmegaConf config object (" +:+ py_type_name v +:+ ")"))
  end.

Definition all_kind (is_kind : pyval -> bool) (cs : list pyval) : bool := forallb is_kind cs.

Definition is_list (v : pyval) : bool := match v with PList _ => true | _ => false end.
Definition is_tuple (v : pyval) : bool := match v with PTuple _ => true | _ => false end.

Definition items_of (v : pyval) : list pyval := match v with PList l | PTuple l => l | _ => [] end.

Definition merge_container (args : list cfg_arg) : result pyval :=
  containers ← mapM to_container args;
  if all_kind is_list containers then Ok (PList (concat (map items_of containers)))
  else if all_kind is_dict containers then
    Ok (PDict (od_of_list py_eq (concat (map dict_items containers))))
  else if all_kind is_tuple containers then Ok (PTuple (concat (map items_of containers)))
  else Err (ValueError ("All containers should be of the same type, but got ["
                        +:+ str_join ", " (map (fun c => "<class '" +:+ py_type_name c +:+ "'>") containers)
                        +:+ "]")).

(** ** [instantiate_class] (lines 98-118)

    The modules [importlib.import_module] can load are the registry
    [modules]: a module name gives the module's attributes (the classes it
    defines), or [None] when no such module exists. *)

Abbreviation module_registry := (string -> option (list (string * pyfunc))).

(** [importlib.import_module(name)] with no package: an empty name raises
    [ValueError], a relative one [TypeError], a missing one
    [ModuleNotFoundError]. *)
Definition importlib_import_module (modules : module_registry) (name : string) : result (list (string * pyfunc)) :=
  if String.eqb name "" then Err (ValueError "Empty module name")
  else if starts_with "." name then
    Err (TypeError ("the 'package' argument is required to perform a relative import for '" +:+ name +:+ "'"))
  else match modules name with
       | Some attrs => Ok attrs
       | None => Err (ModuleNotFoundError ("No module named '" +:+ name +:+ "'"))
       end.

(** [getattr(module, name)] *)
Definition getattr_module (module_name : string) (attrs : list (string * pyfunc)) (name : string) : result pyfunc :=
  match od_lookup String.eqb name attrs with
  | Some f => Ok f
  | None => Err (AttributeError ("module '" +:+ module_name +:+ "' has no attribute '" +:+ name +:+ "'"))
  end.

Definition class_string_key : string := "class_string".

(** [module_name, class_name = class_string.split(":")] *)
Definition unpack2 (parts : list string) : result (string * string) :=
  match parts with
  | [m; c] => Ok (m, c)
  | [_] => Err (ValueError "not enough values to unpack (expected 2, got 1)")
  | _ => Err (ValueError ("too many values to unpack (expected 2, got " +:+ pretty (length parts) +:+ ")"))
  end.

(** [kwargs.copy(); object_config.pop("class_string")] *)
Fixpoint od_remove (k : string) (d : list (string * pyval)) : list (string * pyval) :=
  match d with
  | [] => []
  | (k', v) :: d' => if String.eqb k k' then d' else (k', v) :: od_remove k d'
  end.

Definition instantiate_class (modules : module_registry)
    (kwargs : list (string * pyval)) : PyM pyval :=
  match od_lookup String.eqb class_string_key kwargs with
  | None => raise (AssertionError [PStr "The class_string should be specified in the config"])
  | Some cs =>
      match cs with
      | PStr s =>
          '(module_name, class_name) ← lift (unpack2 (str_split ":" s));
          module ← lift (importlib_import_module modules module_name);
          cls ← lift (getattr_module module_name module class_name);
          fn_call cls [] (od_remove class_string_key kwargs)
      | v => raise (AttributeError ("'" +:+ py_type_name v +:+ "' object has no attribute 'split'"))
      end
  end.

(** ** Theorems on the helpers *)

Lemma od_of_list_lookup_go (items d : list (pyval * pyval)) k :
  keys_ok hashable d -> Forall (fun kv => hashable kv.1) items -> hashable k ->
  od_lookup py_eq k (foldl (fun d kv => od_insert py_eq kv.1 kv.2 d) d items) =
    match od_lookup py_eq k (rev items) with Some v => Some v | None => od_lookup py_eq k d end.
Proof.
  revert d. induction items as [|[k' v'] items IH]; intros d Hd Hitems Hk; simpl; [done|].
  inversion Hitems as [|? ? Hk' Hrest]; subst; simpl in *.
  rewrite IH by (try apply keys_ok_insert; done).
  rewrite (od_lookup_app_r py_eq). simpl.
  destruct (od_lookup py_eq k (rev items)); [done|].
  destruct (py_eq k k') eqn:E.
  - by rewrite (od_lookup_insert_eq py_eq hashable py_eq_sym py_eq_trans).
  - by rewrite (od_lookup_insert_ne py_eq hashable py_eq_sym py_eq_trans).
Qed.

(** The conversion of the arguments: the first plain value raises, and
    otherwise every config gives its container. *)
Definition cfg_value (a : cfg_arg) : pyval :=
  match a with DictConfig d => PDict d | ListConfig l => PList l | Plain v => v end.

Definition is_plain (a : cfg_arg) : bool := match a with Plain _ => true | _ => false end.

Lemma to_containers_outcome args :
  match mapM to_container args with
  | Ok cs => cs = map cfg_value args /\ forallb (fun a => negb (is_plain a)) args = true
  | Err e => exists v msg, Plain v ∈ args /\ e = ValueError msg
  end.
Proof.
  induction args as [|a args IH]; simpl; [done|].
  destruct a as [d|l|v]; simpl; rewrite ?result_bind_ok;
    [| |do 2 eexists; split; [constructor|done]].
  all: destruct (mapM to_container args) as [cs|e]; simpl;
    [destruct IH as [-> ->]; done | destruct IH as (v & msg & Hv & ->); do 2 eexists; split; [by constructor|done]].
Qed.

(** On configs, the kind tests of lines 64-70 read the config's type. *)
Lemma kinds_of_configs args :
  forallb (fun a => negb (is_plain a)) args = true ->
  forallb is_list (map cfg_value args) = forallb (fun a => if a is ListConfig _ then true else false) args /\
  forallb is_dict (map cfg_value args) = forallb (fun a => if a is DictConfig _ then true else false) args /\
  forallb is_tuple (map cfg_value args) = (if args is [] then true else false).
Proof.
  induction args as [|a args IH]; [done|]. cbn [map forallb].
  destruct a; cbn [is_plain negb andb]; intros H; [| |done]; destruct (IH H) as (-> & -> & _); done.
Qed.

(** [merge_container] on dict configs is a right-biased union: a key of
    the result maps to its value in the last dict that has it (the dict
    comprehension overwrites in place), for any number of dicts with
    hashable keys. *)
Theorem merge_container_dicts ds :
  ds <> [] -> Forall (fun d => Forall (fun kv => hashable kv.1) d) ds ->
  exists m, merge_container (map DictConfig ds) = Ok (PDict m) /\
    forall k, hashable k -> od_lookup py_eq k m = od_lookup py_eq k (rev (concat ds)).
Proof.
  intros Hne Hk. unfold merge_container, all_kind.
  rewrite (mapM_result_ok _ (fun a => cfg_value a)) by (apply List.Forall_forall; intros a (d & <- & _)%in_map_iff; done).
  rewrite result_bind_ok, map_map.
  assert (Hl : forallb is_list (map (fun d => PDict d) ds) = false) by (destruct ds; done).
  assert (Hd : forallb is_dict (map (fun d => PDict d) ds) = true)
    by (apply forallb_forall; intros c (d & <- & _)%in_map_iff; done).
  cbn [cfg_value]. rewrite Hl, Hd. eexists. split; [reflexivity|]. intros k Hk'. unfold od_of_list.
  assert (Hc : concat (map dict_items (map (fun d => PDict d) ds)) = concat ds) by (rewrite map_map; f_equal; apply map_id).
  rewrite Hc, od_of_list_lookup_go; [by case_match | constructor | | done].
  apply List.Forall_forall. intros kv Hkv.
  apply in_concat in Hkv as (l & Hl' & Hin).
  eapply List.Forall_forall in Hk; [|exact Hl']. by eapply List.Forall_forall in Hk.
Qed.

Lemma merge_container_dicts_witness :
  exists m, merge_container [DictConfig [(PStr "a", PInt 1); (PStr "b", PInt 2)]; DictConfig [(PStr "a", PInt 3)]]
              = Ok (PDict m) /\
    od_lookup py_eq (PStr "a") m = Some (PInt 3).
Proof.
  destruct (merge_container_dicts [[(PStr "a", PInt 1); (PStr "b", PInt 2)]; [(PStr "a", PInt 3)]])
    as (m & Hm & Hlook); [done | repeat constructor |].
  exists m. split; [exact Hm | rewrite Hlook; reflexivity].
Defined.

(** C17: Typing of [merge_container]: every argument is converted by
    [OmegaConf.to_container] first, so a result is a list when every
    argument is a [ListConfig] (an empty argument list included) or a dict
    when every argument is a [DictConfig], and never a tuple; otherwise the
    call raises [ValueError], and then some argument is not a config, or a
    [DictConfig] and a [ListConfig] are mixed. *)
Theorem merge_container_type args :
  match merge_container args with
  | Ok v => (is_list v = true /\ Forall (fun a => if a is ListConfig _ then True else False) args) \/
            (is_dict v = true /\ args <> [] /\ Forall (fun a => if a is DictConfig _ then True else False) args)
  | Err e => (exists msg, e = ValueError msg) /\
      ((exists v, Plain v ∈ args) \/ (exists d l, DictConfig d ∈ args /\ ListConfig l ∈ args))
  end.
Proof.
  unfold merge_container, all_kind. pose proof (to_containers_outcome args) as Hc.
  destruct (mapM to_container args) as [cs|e]; simpl;
    [|destruct Hc as (v & msg & Hv & ->); split; [by eexists|left; by exists v]].
  destruct Hc as [-> Hnp]. destruct (kinds_of_configs args Hnp) as (-> & -> & ->).
  destruct (forallb (fun a => if a is ListConfig _ then true else false) args) eqn:El.
  { left. split; [done|]. apply List.Forall_forall. intros a Ha.
    apply (proj1 (forallb_forall _ _) El) in Ha. by destruct a. }
  destruct (forallb (fun a => if a is DictConfig _ then true else false) args) eqn:Ed.
  { right. split; [done|]. split; [by intros ->|]. apply List.Forall_forall. intros a Ha.
    apply (proj1 (forallb_forall _ _) Ed) in Ha. by destruct a. }
  destruct args as [|a0 args0]; [done|].
  split; [by eexists|right].
  destruct (forallb_false_elem _ _ El) as (a & Ha & Ha').
  destruct (forallb_false_elem _ _ Ed) as (b & Hb & Hb').
  pose proof (proj1 (forallb_forall _ _) Hnp a (proj1 (list_elem_of_In _ _) Ha)) as Hpa.
  pose proof (proj1 (forallb_forall _ _) Hnp b (proj1 (list_elem_of_In _ _) Hb)) as Hpb.
  destruct a as [d| |]; try discriminate; destruct b as [|l|]; try discriminate. by exists d, l.
Qed.

Lemma merge_container_type_witness :
  merge_container [ListConfig [PInt 1]; Plain (PTuple [PInt 2])] =
    Err (ValueError "Input cfg is not an OmegaConf config object (tuple)") /\
  match merge_container [ListConfig [PInt 1]; Plain (PTuple [PInt 2])] with
  | Ok v => (is_list v = true /\ Forall (fun a => if a is ListConfig _ then True else False)
                                   [ListConfig [PInt 1]; Plain (PTuple [PInt 2])]) \/
            (is_dict v = true /\ [ListConfig [PInt 1]; Plain (PTuple [PInt 2])] <> [] /\
             Forall (fun a => if a is DictConfig _ then True else False) [ListConfig [PInt 1]; Plain (PTuple [PInt 2])])
  | Err e => (exists msg, e = ValueError msg) /\
      ((exists v, Plain v ∈ [ListConfig [PInt 1]; Plain (PTuple [PInt 2])]) \/
       (exists d l, DictConfig d ∈ [ListConfig [PInt 1]; Plain (PTuple [PInt 2])] /\
                    ListConfig l ∈ [ListConfig [PInt 1]; Plain (PTuple [PInt 2])]))
  end.
Proof.
  split; [vm_compute; reflexivity|].
  exact (merge_container_type [ListConfig [PInt 1]; Plain (PTuple [PInt 2])]).
Defined.

(** C18: [instantiate_class] resolves ["module:Class"] and calls the class
    with every other keyword argument of the config, in order.  A config
    without [class_string] fails its assertion; a [class_string] that is
    not a string raises [AttributeError] at [split]; one without exactly one
    [:] raises [ValueError]; an empty module name raises [ValueError], a
    relative one [TypeError], a missing module [ModuleNotFoundError], and a
    module without the class [AttributeError].  No error changes the
    world. *)
Theorem instantiate_class_spec modules kwargs w :
  match od_lookup String.eqb class_string_key kwargs with
  | None => instantiate_class modules kwargs w =
              (Err (AssertionError [PStr "The class_string should be specified in the config"]), w)
  | Some (PStr s) =>
      match str_split ":" s with
      | [m; c] =>
          if String.eqb m "" then instantiate_class modules kwargs w = (Err (ValueError "Empty module name"), w)
          else if starts_with "." m then exists e, instantiate_class modules kwargs w = (Err (TypeError e), w)
          else match modules m with
               | None => instantiate_class modules kwargs w =
                           (Err (ModuleNotFoundError ("No module named '" +:+ m +:+ "'")), w)
               | Some attrs =>
                   match od_lookup String.eqb c attrs with
                   | Some cls => instantiate_class modules kwargs w = fn_call cls [] (od_remove class_string_key kwargs) w
                   | None => instantiate_class modules kwargs w =
                               (Err (AttributeError ("module '" +:+ m +:+ "' has no attribute '" +:+ c +:+ "'")), w)
                   end
               end
      | _ => exists e, instantiate_class modules kwargs w = (Err (ValueError e), w)
      end
  | Some _ => exists e, instantiate_class modules kwargs w = (Err (AttributeError e), w)
  end.
Proof.
  unfold instantiate_class. destruct (od_lookup String.eqb class_string_key kwargs) as [cs|]; [|done].
  destruct cs; try by eexists.
  unfold mbind, pym_bind, lift, unpack2.
  destruct (str_split ":" s) as [|m [|c [|x rest]]]; try by eexists.
  cbn beta iota zeta. unfold importlib_import_module, getattr_module.
  destruct (String.eqb m ""); [done|]. destruct (starts_with "." m); [by eexists|].
  destruct (modules m) as [attrs|]; [|done]. cbn beta iota zeta. by destruct (od_lookup String.eqb c attrs).
Qed.
