(* ===== verification/Struct.v ===== *)
(** * [src/tbutils/struct.py]: flattening nested dicts and shapes

    [get_dict_flattened] (lines 7-26) walks a dict, refuses keys containing
    the separator, prefixes keys with the parent key when the parent key is
    truthy and collects the leaves with [dict(items)].  [unflatten_dict]
    (lines 28-47) splits every key and inserts the value along the path,
    creating intermediate dicts; [set_path] is the inner loop over
    [keys[:-1]] followed by [current[keys[-1]] = value].  Python mutates
    [current] in place; here each level is rebuilt and written back, which
    gives the same result as long as no dict object of the input is reached
    twice (see the header of the development).

    Theorems: the round trip [unflatten_dict(get_dict_flattened(d)) == d]
    for a one-character separator on well-formed nested dicts (non-empty
    string keys without the separator, no empty sub-dict), and the three
    ways it fails outside that set; the shape of ragged lists with and
    without [assert_same_shape], and the shape of a list of dicts. *)

From S2P Require Import Prelude PyVal.

(** ** [get_dict_flattened] *)

Definition sep_error (sep : string) : py_exc :=
  AssertionError [PStr ("Separator " +:+ sep +:+ " is not allowed in keys")].

(** [f"{parent_key}{sep}{k}" if parent_key else k] *)
Definition new_key (parent_key : pyval) (sep : string) (k : pyval) : pyval :=
  if py_truthy parent_key then PStr (py_str parent_key +:+ sep +:+ py_str k) else k.

(** The loop of lines 21-25 over [d.items()], given the recursive call
    [flat v parent_key] of line 23; [items] is the list being extended. *)
Fixpoint flatten_items (flat : pyval -> pyval -> result pyval) (parent_key : pyval)
    (sep : string) (es items : list (pyval * pyval)) : result (list (pyval * pyval)) :=
  match es with
  | [] => Ok items
  | (k, v) :: es' =>
      py_contains (PStr sep) k ≫= fun (has_sep : bool) =>
      if has_sep then Err (sep_error sep)
      else if is_dict v
      then sub ← flat v (new_key parent_key sep k);
           flatten_items flat parent_key sep es' (items ++ dict_items sub)
      else flatten_items flat parent_key sep es' (items ++ [(new_key parent_key sep k, v)])
  end.

Fixpoint get_dict_flattened (d : pyval) (parent_key : pyval) (sep : string) : result pyval :=
  match d with
  | PDict entries =>
      items ← flatten_items (fun v pk => get_dict_flattened v pk sep) parent_key sep entries [];
      Ok (PDict (od_of_list py_eq items))
  | _ => Err (AttributeError ("'" +:+ py_type_name d +:+ "' object has no attribute 'items'"))
  end.

(** ** [unflatten_dict] *)

(** Lines 42-46 for one key: walk [keys[:-1]] from [current], creating
    [{}] under a missing key, then [current[keys[-1]] = value].  Each dict
    walked through is written back into its parent, which stands for the
    in-place mutation of the source. *)
Fixpoint set_path (current : pyval) (ks : list string) (last : string) (value : pyval)
    : result pyval :=
  match ks with
  | [] => py_setitem current (PStr last) value
  | k :: ks' =>
      py_contains (PStr k) current ≫= fun (present : bool) =>
      current1 ← (if present then Ok current else py_setitem current (PStr k) (PDict []));
      sub ← py_getitem current1 (PStr k);
      sub' ← set_path sub ks' last value;
      py_setitem current1 (PStr k) sub'
  end.

(** [key.split(sep)] of a dict key: only strings have [split]. *)
Definition key_split (key : pyval) (sep : string) : result (list string) :=
  match key with
  | PStr s => py_split sep s
  | _ => Err (AttributeError ("'" +:+ py_type_name key +:+ "' object has no attribute 'split'"))
  end.

Fixpoint unflatten_items (res : pyval) (items : list (pyval * pyval)) (sep : string)
    : result pyval :=
  match items with
  | [] => Ok res
  | (key, value) :: items' =>
      keys ← key_split key sep;
      res' ← set_path res (removelast keys) (List.last keys EmptyString) value;
      unflatten_items res' items' sep
  end.

Definition unflatten_dict (d : pyval) (sep : string) : result pyval :=
  match d with
  | PDict items => unflatten_items (PDict []) items sep
  | _ => Err (AttributeError ("'" +:+ py_type_name d +:+ "' object has no attribute 'items'"))
  end.

(** ** [get_shape] *)

(** [(n, *rest)]: unpacking iterates over [rest], so a string contributes
    its characters. *)
Definition unpack_after (n : Z) (rest : pyval) : result pyval :=
  match py_iter rest with
  | Ok l => Ok (PTuple (PInt n :: l))
  | Err _ => Err (TypeError ("Value after * must be an iterable, not " +:+ py_type_name rest))
  end.

Definition shape_error (sub_shapes : list pyval) : py_exc :=
  AssertionError [PStr "All sub-objects must have the same shape, but got: "; PList sub_shapes].

(** [fuel] is the depth of Python's call stack left: the call that would
    exceed it raises [RecursionError] as the interpreter does. *)
Fixpoint get_shape (fuel : nat) (obj : pyval) (authorized_types : list string)
    (assert_same_shape : bool) : result pyval :=
  match fuel with
  | O => Err (RecursionError "maximum recursion depth exceeded")
  | S fuel' =>
      if existsb (py_isinstance obj) authorized_types then
        n ← py_len obj;
        if Z.eqb n 0 then Ok (PTuple [PInt 0]) else
        match obj with
        | PDict d =>
            shape ← get_shape fuel' (PList (map snd d)) authorized_types assert_same_shape;
            Ok (PStr ("Dict(" +:+ pretty n +:+ " keys to " +:+ py_str shape +:+ ")"))
        | _ =>
            elems ← py_iter obj;
            first_shape ← get_shape fuel' (default PNone (head elems))
                                    authorized_types assert_same_shape;
            (if assert_same_shape then
               sub_shapes ← mapM (fun el => get_shape fuel' el authorized_types assert_same_shape) elems;
               if existsb (fun s => negb (py_eq s first_shape)) sub_shapes
               then Err (shape_error sub_shapes) else Ok tt
             else Ok tt) ≫= fun _ =>
            unpack_after n first_shape
        end
      else Ok (PTuple [])
  end.

(** The default [authorized_types]; [np.ndarray] has no value in the model. *)
Definition default_authorized : list string := ["list"; "tuple"; "set"; "dict"].

(** ** Shapes of nested sequences *)

(** [v] is a nested sequence of lists, tuples or sets of sizes [dims],
    with leaves outside the default [authorized_types]. *)
Fixpoint is_tensor (dims : list nat) (v : pyval) : bool :=
  match dims with
  | [] => negb (existsb (py_isinstance v) default_authorized)
  | d :: ds =>
      match v with
      | PList l | PTuple l | PSet l => (length l =? d)%nat && forallb (is_tensor ds) l
      | _ => false
      end
  end.

Definition shape_of (dims : list nat) : pyval := PTuple (map (fun d => PInt (Z.of_nat d)) dims).

(** The same steps for a list, a tuple and a set [obj] whose elements are
    [l]: the shape of the first element, the check of the others, then
    [(len(obj), *first_shape)]. *)
Lemma get_shape_seq fuel obj l auth b :
  py_iter obj = Ok l -> py_len obj = Ok (Z.of_nat (length l)) -> l <> [] ->
  existsb (py_isinstance obj) auth = true -> (forall d, obj <> PDict d) ->
  get_shape (S fuel) obj auth b =
    (first_shape ← get_shape fuel (default PNone (head l)) auth b;
     (if b then
        sub_shapes ← mapM (fun el => get_shape fuel el auth b) l;
        if existsb (fun s => negb (py_eq s first_shape)) sub_shapes
        then Err (shape_error sub_shapes) else Ok tt
      else Ok tt) ≫= fun _ => unpack_after (Z.of_nat (length l)) first_shape).
Proof.
  intros Hit Hlen Hne Hauth Hnd. simpl. rewrite Hauth, Hlen, result_bind_ok.
  destruct l as [|x l]; [done|]. rewrite (proj2 (Z.eqb_neq _ _)) by (simpl; lia).
  destruct obj; try by (simpl in Hit; discriminate).
  all: try exact (False_rect _ (Hnd _ eq_refl)); by rewrite Hit, result_bind_ok.
Qed.

(** The shape of a regular nested sequence is its list of sizes, with or
    without [assert_same_shape], once the recursion depth allows one call
    per level. *)
Theorem get_shape_tensor dims v fuel b :
  is_tensor dims v = true -> Forall (fun d => (0 < d)%nat) dims -> (length dims < fuel)%nat ->
  get_shape fuel v default_authorized b = Ok (shape_of dims).
Proof.
  revert v fuel. induction dims as [|d ds IH]; intros v fuel Ht Hpos Hfuel;
    destruct fuel as [|fuel]; simpl in Hfuel; try lia.
  - cbn [get_shape]. apply negb_true_iff in Ht. by rewrite Ht.
  - apply List.Forall_cons_iff in Hpos as [Hd Hpos].
    assert (Hseq : exists l, py_iter v = Ok l /\ py_len v = Ok (Z.of_nat (length l)) /\
              existsb (py_isinstance v) default_authorized = true /\ (forall e, v <> PDict e) /\
              length l = d /\ forallb (is_tensor ds) l = true)
      by (destruct v; try discriminate; apply andb_true_iff in Ht as [Hl Ht];
          apply Nat.eqb_eq in Hl; eexists; repeat split; done).
    destruct Hseq as (l & Hit & Hlen & Hauth & Hnd & <- & Hall).
    rewrite forallb_forall in Hall.
    assert (Hsub : Forall (fun el => get_shape fuel el default_authorized b = Ok (shape_of ds)) l)
      by (apply List.Forall_forall; intros x Hx; apply IH; auto with lia).
    destruct l as [|x l]; simpl in Hd; [lia|].
    rewrite (get_shape_seq fuel v (x :: l)) by done.
    change (default PNone (head (x :: l))) with x.
    rewrite (List.Forall_inv Hsub), result_bind_ok.
    destruct b; [|done].
    rewrite (mapM_result_ok _ (fun _ => shape_of ds) _ Hsub), result_bind_ok.
    by rewrite existsb_ne_const by (apply hashable_tuple_map; done).
Qed.

(** ** Termination of [get_shape] *)

(** Nesting depth of sequences and dicts; a dict counts two levels since
    [get_shape] first rebuilds the list of its values. *)
Fixpoint pdepth (v : pyval) : nat :=
  match v with
  | PList l | PTuple l | PSet l => S (list_max (map pdepth l))
  | PDict d => S (S (list_max (map (fun kv => pdepth kv.2) d)))
  | _ => O
  end.

Lemma pdepth_dict d : pdepth (PDict d) = S (pdepth (PList (map snd d))).
Proof. simpl. by rewrite map_map. Qed.

Lemma pdepth_elem x l : In x l -> (pdepth x <= list_max (map pdepth l))%nat.
Proof.
  intros Hin. pose proof (proj1 (list_max_le (map pdepth l) _) (le_n _)) as H.
  rewrite List.Forall_forall in H. apply H, in_map, Hin.
Qed.

Lemma pdepth_head l : (pdepth (default PNone (head l)) <= list_max (map pdepth l))%nat.
Proof. destruct l as [|x l]; simpl; [lia|]. lia. Qed.

Lemma str_not_authorized s auth :
  ~ In "str" auth -> existsb (py_isinstance (PStr s)) auth = false.
Proof.
  intros Hs. apply Bool.not_true_iff_false. intros (t & Hin & Ht)%existsb_exists.
  unfold py_isinstance in Ht. change (py_type_name (PStr s)) with "str" in Ht.
  apply orb_true_iff in Ht as [Ht|Ht].
  - apply String.eqb_eq in Ht. subst. done.
  - apply andb_true_iff in Ht as [_ Ht]. by apply bool_decide_eq_true in Ht.
Qed.

Section Fuel.
Context (auth : list string) (b : bool) (Hstr : ~ In "str" auth).

(** Two call-stack depths above the nesting depth give the same result. *)
Lemma get_shape_fuel n m v :
  (pdepth v < n)%nat -> (pdepth v < m)%nat -> get_shape n v auth b = get_shape m v auth b.
Proof.
  revert v m. induction n as [|n IH]; intros v m Hn Hm; [lia|]. destruct m as [|m]; [lia|].
  assert (Hseq : forall l, (S (list_max (map pdepth l)) < S n)%nat -> (S (list_max (map pdepth l)) < S m)%nat ->
            get_shape n (default PNone (head l)) auth b = get_shape m (default PNone (head l)) auth b /\
            mapM (fun el => get_shape n el auth b) l = mapM (fun el => get_shape m el auth b) l).
  { intros l Hn' Hm'. pose proof (pdepth_head l). split; [apply IH; lia|].
    apply mapM_ext_in. intros x Hx. pose proof (pdepth_elem x l Hx). apply IH; lia. }
  destruct v as [| | |s|l|l|l|d]; simpl in Hn, Hm; try reflexivity.
  2-4: destruct (Hseq l Hn Hm) as [H1 H2]; simpl; by rewrite H1, H2.
  - cbn [get_shape]. by rewrite str_not_authorized.
  - rewrite <- map_map in Hn, Hm. simpl. rewrite (IH (PList (map snd d)) m) by (simpl; lia). done.
Qed.

Lemma get_shape_not_rec n v : (pdepth v < n)%nat -> not_rec (get_shape n v auth b).
Proof.
  revert v. induction n as [|n IH]; intros v Hn; [lia|].
  assert (Hseq : forall l z, (S (list_max (map pdepth l)) < S n)%nat ->
            not_rec (first_shape ← get_shape n (default PNone (head l)) auth b;
                     (if b then sub_shapes ← mapM (fun el => get_shape n el auth b) l;
                        if existsb (fun s => negb (py_eq s first_shape)) sub_shapes
                        then Err (shape_error sub_shapes) else Ok tt
                      else Ok tt) ≫= fun _ => unpack_after z first_shape)).
  { intros l z Hn'. pose proof (pdepth_head l).
    apply not_rec_bind; [apply IH; lia|]. intros first _.
    apply not_rec_bind.
    - destruct b; [|not_rec_triv]. apply not_rec_bind.
      + apply not_rec_mapM, List.Forall_forall. intros x Hx. pose proof (pdepth_elem x l Hx). apply IH; lia.
      + intros. case_match; not_rec_triv.
    - intros. unfold unpack_after. destruct (py_iter first); not_rec_triv. }
  destruct v as [| | |s|l|l|l|d]; simpl in Hn; cbn [get_shape];
    try (destruct (existsb _ auth); not_rec_triv).
  2-4: destruct (existsb _ auth); [|not_rec_triv]; simpl;
    destruct (Z.eqb _ 0); [not_rec_triv|]; by apply Hseq.
  - rewrite str_not_authorized by done. not_rec_triv.
  - destruct (existsb _ auth); [|not_rec_triv]. simpl. destruct (Z.eqb _ 0); [not_rec_triv|].
    apply not_rec_bind; [|intros; not_rec_triv]. apply IH. rewrite <- map_map in Hn. simpl. lia.
Qed.
End Fuel.

Lemma str_authorized s auth : In "str" auth -> existsb (py_isinstance (PStr s)) auth = true.
Proof. intros Hin. apply existsb_exists. exists "str". split; [done|]. reflexivity. Qed.

Lemma list_authorized l auth : In "list" auth -> existsb (py_isinstance (PList l)) auth = true.
Proof. intros Hin. apply existsb_exists. exists "list". split; [done|]. reflexivity. Qed.

(** C23: when strings are not in [authorized_types], [get_shape] returns
    without exhausting the call stack: every depth above the nesting depth
    of [obj] gives one result, and it is not a [RecursionError]. *)
Theorem get_shape_terminates v auth b :
  ~ In "str" auth ->
  exists r, not_rec r /\ forall n, (pdepth v < n)%nat -> get_shape n v auth b = r.
Proof.
  intros Hs. exists (get_shape (S (pdepth v)) v auth b). split.
  - apply get_shape_not_rec; [done|lia].
  - intros n Hn. apply get_shape_fuel; [done|lia|lia].
Qed.

(** C24: with [str] in [authorized_types], a non-empty string never gets a
    shape: its first character is a string of length one whose first
    character is itself, and the recursion exhausts every call stack. *)
Theorem get_shape_str_diverges s auth b n :
  In "str" auth -> s <> EmptyString ->
  get_shape n (PStr s) auth b = Err (RecursionError "maximum recursion depth exceeded").
Proof.
  intros Hin. revert s. induction n as [|n IH]; intros s Hs; [done|].
  destruct s as [|c s]; [done|]. cbn [get_shape]. rewrite str_authorized by done.
  simpl. by rewrite IH.
Qed.

(** Without [assert_same_shape] only the first element is looked at:
    lists of the same length and first element get the same shape, however
    the other elements differ. *)
Theorem get_shape_first_only n x xs ys auth :
  length xs = length ys ->
  get_shape n (PList (x :: xs)) auth false = get_shape n (PList (x :: ys)) auth false.
Proof. intros Hlen. destruct n as [|n]; [done|]. simpl. by rewrite Hlen. Qed.

(** C22: with [assert_same_shape], a list whose elements have shapes [g el]
    of which one differs from the first element's raises [AssertionError]
    with the list of all the shapes. *)
Theorem get_shape_strict_ragged n x xs g auth :
  In "list" auth ->
  Forall (fun el => get_shape n el auth true = Ok (g el)) (x :: xs) ->
  existsb (fun el => negb (py_eq (g el) (g x))) xs = true ->
  get_shape (S n) (PList (x :: xs)) auth true = Err (shape_error (map g (x :: xs))).
Proof.
  intros Hl Hall Hdiff.
  rewrite (get_shape_seq n (PList (x :: xs)) (x :: xs)) by (try apply list_authorized; done).
  change (default PNone (head (x :: xs))) with x.
  rewrite (List.Forall_inv Hall), result_bind_ok, (mapM_result_ok _ g _ Hall), result_bind_ok.
  assert (existsb (fun s => negb (py_eq s (g x))) (map g xs) = true) as Hd
    by (rewrite existsb_map; exact Hdiff).
  simpl. by rewrite Hd, orb_true_r.
Qed.

(** ** Flattening as a list of paths *)

(** A key of a nested dict at any level: a string without the separator. *)
Definition key_ok (c : ascii) (k : pyval) : bool :=
  match k with PStr s => negb (str_contains (str_of_char c) s) | _ => false end.

(** Nested dicts with such keys, pairwise distinct (as the keys of a Python
    dict are), and no empty dict below the top. *)
Fixpoint wf_nested (c : ascii) (v : pyval) : bool :=
  match v with
  | PDict d =>
      (fix go (d : list (pyval * pyval)) : bool :=
         match d with
         | [] => true
         | (k, x) :: d' =>
             key_ok c k && forallb (fun kv => negb (py_eq kv.1 k)) d'
             && negb (bool_decide (x = PDict [])) && wf_nested c x && go d'
         end) d
  | _ => true
  end.

Lemma wf_nested_cons c k x d :
  wf_nested c (PDict ((k, x) :: d)) =
    key_ok c k && forallb (fun kv => negb (py_eq kv.1 k)) d
    && negb (bool_decide (x = PDict [])) && wf_nested c x && wf_nested c (PDict d).
Proof. reflexivity. Qed.

(** At the top level, where the parent key is [""], a key holding a dict
    must be truthy for its own keys to get a prefix. *)
Definition top_ok (d : list (pyval * pyval)) : bool :=
  forallb (fun kv => negb (is_dict kv.2) || negb (bool_decide (kv.1 = PStr EmptyString))) d.

(** The leaves of a nested dict with the keys leading to them, in the
    order of the depth-first walk. *)
Fixpoint flat_paths (v : pyval) : list (list string * pyval) :=
  match v with
  | PDict d =>
      (fix go (d : list (pyval * pyval)) :=
         match d with
         | [] => []
         | (k, x) :: d' =>
             (if is_dict x then map (fun pv => (py_str k :: pv.1, pv.2)) (flat_paths x)
              else [([py_str k], x)]) ++ go d'
         end) d
  | _ => []
  end.

Definition entry_paths (k x : pyval) : list (list string * pyval) :=
  if is_dict x then map (fun pv => (py_str k :: pv.1, pv.2)) (flat_paths x) else [([py_str k], x)].

Lemma flat_paths_cons k x d :
  flat_paths (PDict ((k, x) :: d)) = entry_paths k x ++ flat_paths (PDict d).
Proof. reflexivity. Qed.

(** The key a path gets under parent key [parent]. *)
Definition join_under (parent sep : string) (p : list string) : string :=
  if String.eqb parent EmptyString then str_join sep p else parent +:+ sep +:+ str_join sep p.

Definition keyed (parent sep : string) (ps : list (list string * pyval)) : list (pyval * pyval) :=
  map (fun pv => (PStr (join_under parent sep pv.1), pv.2)) ps.

(** A path of [flat_paths]: non-empty, of pieces without the separator. *)
Definition path_ok (c : ascii) (p : list string) : Prop :=
  p <> [] /\ Forall (fun s => str_contains (str_of_char c) s = false) p.

Lemma key_ok_str c k :
  key_ok c k = true -> exists s, k = PStr s /\ str_contains (str_of_char c) s = false.
Proof. destruct k; try discriminate. intros H. apply negb_true_iff in H. eauto. Qed.

Lemma wf_nested_keys c d :
  wf_nested c (PDict d) = true -> Forall (fun kv => key_ok c kv.1 = true) d.
Proof.
  induction d as [|[k x] d IH]; intros Hwf; [constructor|].
  rewrite wf_nested_cons in Hwf. apply andb_true_iff in Hwf as [Hwf Hd].
  repeat apply andb_true_iff in Hwf as [Hwf ?]. constructor; auto.
Qed.

Lemma flat_paths_heads d :
  Forall (fun pv => exists k x, In (k, x) d /\ head pv.1 = Some (py_str k)) (flat_paths (PDict d)).
Proof.
  induction d as [|[k x] d IH]; [constructor|]. rewrite flat_paths_cons.
  apply Forall_app; split.
  - unfold entry_paths. destruct (is_dict x).
    + apply List.Forall_map, List.Forall_forall. intros pv _. exists k, x. by split; [left|].
    + constructor; [|constructor]. exists k, x. by split; [left|].
  - eapply Forall_impl; [exact IH|]. intros pv (k' & x' & Hin & Hh). exists k', x'. by split; [right|].
Qed.

(** The paths of the entries after a key [k] start with other keys. *)
Lemma flat_paths_fresh_head c k d :
  key_ok c k = true -> wf_nested c (PDict d) = true ->
  forallb (fun kv => negb (py_eq kv.1 k)) d = true ->
  Forall (fun pv => head pv.1 <> Some (py_str k)) (flat_paths (PDict d)).
Proof.
  intros Hk Hwf Hfr. eapply Forall_impl; [apply flat_paths_heads|].
  intros pv (k' & x' & Hin & Hh) Heq. rewrite Hh in Heq. injection Heq as Heq.
  apply wf_nested_keys in Hwf. rewrite List.Forall_forall in Hwf.
  destruct (key_ok_str c k Hk) as (s & -> & _).
  destruct (key_ok_str c k' (Hwf _ Hin)) as (s' & -> & _).
  rewrite forallb_forall in Hfr. specialize (Hfr _ Hin). simpl in Heq, Hfr.
  subst. by rewrite String.eqb_refl in Hfr.
Qed.

Lemma flat_paths_wf c v :
  wf_nested c v = true ->
  Forall (fun pv => path_ok c pv.1) (flat_paths v) /\ NoDup (map fst (flat_paths v)).
Proof.
  induction v as [| | | | | | |d IH] using pyval_ind'; intros Hwf; try (split; constructor).
  induction d as [|[k x] d IHd]; [split; constructor|].
  apply List.Forall_cons_iff in IH as [[_ Hx] IH]. simpl in Hx.
  pose proof Hwf as Hwf'. rewrite wf_nested_cons in Hwf.
  apply andb_true_iff in Hwf as [Hwf Hwfd]. apply andb_true_iff in Hwf as [Hwf Hwfx].
  apply andb_true_iff in Hwf as [Hwf _]. apply andb_true_iff in Hwf as [Hk Hfr].
  destruct (IHd IH Hwfd) as [Hok Hnd]. destruct (key_ok_str c k Hk) as (s & -> & Hs).
  rewrite flat_paths_cons, map_app. split.
  - apply Forall_app; split; [|done]. unfold entry_paths. destruct (is_dict x).
    + destruct (Hx Hwfx) as [Hokx _]. apply List.Forall_map.
      eapply Forall_impl; [exact Hokx|]. intros [p y] [Hne Hp]. split; [done|]. by constructor.
    + constructor; [|constructor]. split; [done|]. by repeat constructor.
  - apply NoDup_app. split; [|split; [|done]].
    + unfold entry_paths. destruct (is_dict x).
      * rewrite map_map. simpl. rewrite <- (map_map fst (cons s)).
        apply NoDup_map_inj; [by intros ?? [=]|]. by apply Hx.
      * apply NoDup_singleton.
    + intros p Hp Hp'. apply list_elem_of_In, in_map_iff in Hp' as (pv & <- & Hin).
      pose proof (flat_paths_fresh_head c (PStr s) d Hk Hwfd Hfr) as Hh.
      rewrite List.Forall_forall in Hh. apply (Hh pv Hin).
      apply list_elem_of_In, in_map_iff in Hp as (pv' & Hpv & Hin').
      unfold entry_paths in Hin'. destruct (is_dict x).
      * apply in_map_iff in Hin' as (q & <- & _). by rewrite <- Hpv.
      * destruct Hin' as [<-|[]]. by rewrite <- Hpv.
Qed.

Lemma join_under_inj c parent p q :
  path_ok c p -> path_ok c q ->
  join_under parent (str_of_char c) p = join_under parent (str_of_char c) q -> p = q.
Proof.
  intros [Hp Hp'] [Hq Hq'] H. unfold join_under in H.
  destruct (String.eqb parent EmptyString).
  - rewrite <- (str_split_join c p), <- (str_split_join c q) by done. by rewrite H.
  - apply (inj (String.append parent)), (inj (String.append (str_of_char c))) in H.
    rewrite <- (str_split_join c p), <- (str_split_join c q) by done. by rewrite H.
Qed.

(** Distinct paths give distinct keys, so [dict(items)] keeps them all. *)
Lemma keyed_fresh c parent ps :
  Forall (fun pv => path_ok c pv.1) ps -> NoDup (map fst ps) ->
  keys_fresh py_eq (keyed parent (str_of_char c) ps).
Proof.
  induction ps as [|[p v] ps IH]; intros Hok Hnd; [done|].
  apply List.Forall_cons_iff in Hok as [Hp Hok]. apply NoDup_cons in Hnd as [Hn Hnd].
  split; [|by apply IH]. apply List.Forall_map, List.Forall_forall. intros [q w] Hin. simpl.
  apply String.eqb_neq. intros Heq. apply Hn.
  rewrite List.Forall_forall in Hok. apply (join_under_inj c parent) in Heq; [|apply (Hok _ Hin)|done].
  subst. apply list_elem_of_In, in_map_iff. eexists; split; [|exact Hin]. done.
Qed.

Lemma new_key_str p sep s :
  new_key (PStr p) sep (PStr s) = PStr (join_under p sep [s]).
Proof. unfold new_key, join_under. simpl. by destruct (String.eqb p EmptyString). Qed.

Lemma join_under_cons p sep s q :
  q <> [] -> (p <> EmptyString \/ s <> EmptyString) ->
  join_under (join_under p sep [s]) sep q = join_under p sep (s :: q).
Proof.
  intros Hq Hps. destruct q as [|y q]; [done|].
  unfold join_under. simpl. destruct (String.eqb p EmptyString) eqn:Ep.
  - apply String.eqb_eq in Ep. destruct Hps as [|Hs]; [done|].
    apply String.eqb_neq in Hs. by rewrite Hs.
  - destruct (String.eqb (p +:+ sep +:+ s) EmptyString) eqn:E.
    + apply String.eqb_eq in E. apply String.eqb_neq in Ep. by destruct p.
    + by rewrite <- !str_app_assoc.
Qed.

Lemma keyed_app parent sep ps qs :
  keyed parent sep (ps ++ qs) = keyed parent sep ps ++ keyed parent sep qs.
Proof. apply map_app. Qed.

Lemma join_under_nonempty p sep s :
  (p <> EmptyString \/ s <> EmptyString) -> join_under p sep [s] <> EmptyString.
Proof.
  intros Hps. unfold join_under. destruct (String.eqb p EmptyString) eqn:E; simpl.
  - apply String.eqb_eq in E. subst. by destruct Hps.
  - apply String.eqb_neq in E. by destruct p.
Qed.

Lemma keyed_entry c p s x :
  is_dict x = true -> wf_nested c x = true -> (p <> EmptyString \/ s <> EmptyString) ->
  keyed p (str_of_char c) (entry_paths (PStr s) x) =
    keyed (join_under p (str_of_char c) [s]) (str_of_char c) (flat_paths x).
Proof.
  intros Hx Hwf Hps. unfold entry_paths, keyed. rewrite Hx, map_map.
  apply map_ext_in. intros [q w] Hin. simpl. f_equal. f_equal.
  destruct (flat_paths_wf c x Hwf) as [Hok _]. rewrite List.Forall_forall in Hok.
  symmetry. apply join_under_cons; [apply (Hok _ Hin)|done].
Qed.

Lemma flatten_items_paths c p d items :
  wf_nested c (PDict d) = true -> (p <> EmptyString \/ top_ok d = true) ->
  Forall (fun kv => forall p', p' <> EmptyString -> is_dict kv.2 = true -> wf_nested c kv.2 = true ->
            get_dict_flattened kv.2 (PStr p') (str_of_char c) =
              Ok (PDict (keyed p' (str_of_char c) (flat_paths kv.2)))) d ->
  flatten_items (fun v pk => get_dict_flattened v pk (str_of_char c)) (PStr p) (str_of_char c) d items
    = Ok (items ++ keyed p (str_of_char c) (flat_paths (PDict d))).
Proof.
  revert items. induction d as [|[k x] d IHd]; intros items Hwf Htop IH; [by rewrite app_nil_r|].
  apply List.Forall_cons_iff in IH as [Hx IH]. simpl in Hx.
  pose proof Hwf as Hwf'. rewrite wf_nested_cons in Hwf.
  apply andb_true_iff in Hwf as [Hwf Hwfd]. apply andb_true_iff in Hwf as [Hwf Hwfx].
  apply andb_true_iff in Hwf as [Hwf _]. apply andb_true_iff in Hwf as [Hk _].
  destruct (key_ok_str c k Hk) as (s & -> & Hs).
  assert (Htop' : p <> EmptyString \/ top_ok d = true)
    by (destruct Htop as [|Ht]; [by left|right]; by apply andb_true_iff in Ht as [_ Ht]).
  rewrite flat_paths_cons, keyed_app.
  cbn [flatten_items]. change (py_contains (PStr (str_of_char c)) (PStr s))
    with (Ok (A := bool) (str_contains (str_of_char c) s)).
  rewrite result_bind_ok, Hs. destruct (is_dict x) eqn:Ex.
  - assert (Hps : p <> EmptyString \/ s <> EmptyString).
    { destruct Htop as [|Ht]; [by left|right]. apply andb_true_iff in Ht as [Ht _].
      simpl in Ht. rewrite Ex in Ht. simpl in Ht. intros ->. by rewrite bool_decide_eq_true_2 in Ht. }
    rewrite new_key_str, Hx, result_bind_ok by auto using join_under_nonempty.
    simpl dict_items. rewrite IHd by done. rewrite keyed_entry by done. by rewrite app_assoc.
  - rewrite IHd by done. unfold entry_paths. rewrite Ex, new_key_str, app_assoc. done.
Qed.

Lemma flatten_dict_paths c p d :
  wf_nested c (PDict d) = true -> (p <> EmptyString \/ top_ok d = true) ->
  Forall (fun kv => forall p', p' <> EmptyString -> is_dict kv.2 = true -> wf_nested c kv.2 = true ->
            get_dict_flattened kv.2 (PStr p') (str_of_char c) =
              Ok (PDict (keyed p' (str_of_char c) (flat_paths kv.2)))) d ->
  get_dict_flattened (PDict d) (PStr p) (str_of_char c) =
    Ok (PDict (keyed p (str_of_char c) (flat_paths (PDict d)))).
Proof.
  intros Hwf Hp IH. cbn [get_dict_flattened].
  rewrite (flatten_items_paths c p d []) by done. simpl.
  destruct (flat_paths_wf c (PDict d) Hwf) as [Hok Hnd].
  by rewrite od_of_list_fresh by (apply keyed_fresh; done).
Qed.

Lemma flatten_nested_paths c v p :
  p <> EmptyString -> is_dict v = true -> wf_nested c v = true ->
  get_dict_flattened v (PStr p) (str_of_char c) = Ok (PDict (keyed p (str_of_char c) (flat_paths v))).
Proof.
  revert p. induction v as [| | | | | | |d IH] using pyval_ind'; intros p Hp Hv Hwf; try discriminate.
  apply flatten_dict_paths; [done|by left|].
  eapply Forall_impl; [exact IH|]. intros [k x] [_ Hx] p' Hp' Hd Hw. by apply Hx.
Qed.

(** ** Unflattening, path by path *)

(** Lines 40-46 for a key already split into the path [p]. *)
Definition ins_path (cur : pyval) (p : list string) (v : pyval) : result pyval :=
  set_path cur (removelast p) (List.last p EmptyString) v.

Fixpoint ins_all (cur : pyval) (ps : list (list string * pyval)) : result pyval :=
  match ps with
  | [] => Ok cur
  | (p, v) :: ps' => cur' ← ins_path cur p v; ins_all cur' ps'
  end.

Lemma ins_all_app cur ps qs :
  ins_all cur (ps ++ qs) = (cur' ← ins_all cur ps; ins_all cur' qs).
Proof.
  revert cur. induction ps as [|[p v] ps IH]; intros cur; [done|]. simpl.
  destruct (ins_path cur p v); simpl; [apply IH|done].
Qed.

(** [unflatten_dict] splits each key back into its path. *)
Lemma unflatten_keyed c res ps :
  Forall (fun pv => path_ok c pv.1) ps ->
  unflatten_items res (keyed EmptyString (str_of_char c) ps) (str_of_char c) = ins_all res ps.
Proof.
  revert res. induction ps as [|[p v] ps IH]; intros res Hok; [done|].
  apply List.Forall_cons_iff in Hok as [[Hne Hp] Hok]. simpl.
  unfold py_split. simpl. rewrite str_split_join by done. simpl.
  change (set_path res (removelast p) (List.last p EmptyString) v) with (ins_path res p v).
  destruct (ins_path res p v); simpl; [by apply IH|done].
Qed.

Definition fresh_in (k : string) (acc : list (pyval * pyval)) : Prop :=
  Forall (fun kv => py_eq (PStr k) kv.1 = false) acc.

Lemma lookup_fresh_last k acc X :
  fresh_in k acc -> od_lookup py_eq (PStr k) (acc ++ [(PStr k, X)]) = Some X.
Proof.
  intros Hf. rewrite od_lookup_app_r, od_lookup_fresh by done. simpl. by rewrite String.eqb_refl.
Qed.

(** Going down into the dict stored under [k], last in [acc ++ [(k, X)]],
    and writing the result back in place. *)
Lemma descend_into k acc X ks last v :
  fresh_in k acc ->
  (sub ← py_getitem (PDict (acc ++ [(PStr k, X)])) (PStr k);
   sub' ← set_path sub ks last v;
   py_setitem (PDict (acc ++ [(PStr k, X)])) (PStr k) sub') =
  (X' ← set_path X ks last v; Ok (PDict (acc ++ [(PStr k, X')]))).
Proof.
  intros Hf. unfold py_getitem. simpl. rewrite lookup_fresh_last by done. simpl.
  destruct (set_path X ks last v) as [X'|e]; simpl; [|done].
  rewrite od_insert_app_fresh by done. simpl. by rewrite String.eqb_refl.
Qed.

Lemma removelast_last_cons (k : string) p :
  p <> [] -> removelast (k :: p) = k :: removelast p /\ List.last (k :: p) EmptyString = List.last p EmptyString.
Proof. by destruct p. Qed.

Lemma ins_path_leaf k acc x :
  fresh_in k acc -> ins_path (PDict acc) [k] x = Ok (PDict (acc ++ [(PStr k, x)])).
Proof. intros Hf. unfold ins_path. simpl. by rewrite od_insert_fresh. Qed.

Lemma ins_path_into k acc X p v :
  fresh_in k acc -> p <> [] ->
  ins_path (PDict (acc ++ [(PStr k, X)])) (k :: p) v =
    (X' ← ins_path X p v; Ok (PDict (acc ++ [(PStr k, X')]))).
Proof.
  intros Hf Hp. unfold ins_path. destruct (removelast_last_cons k p Hp) as [-> ->].
  cbn [set_path]. unfold py_contains, od_mem. simpl py_hashable. cbv iota.
  rewrite lookup_fresh_last by done. rewrite result_bind_ok.
  apply descend_into, Hf.
Qed.

Lemma ins_path_new k acc p v :
  fresh_in k acc -> p <> [] ->
  ins_path (PDict acc) (k :: p) v = (X' ← ins_path (PDict []) p v; Ok (PDict (acc ++ [(PStr k, X')]))).
Proof.
  intros Hf Hp. unfold ins_path. destruct (removelast_last_cons k p Hp) as [-> ->].
  cbn [set_path]. unfold py_contains, od_mem. simpl py_hashable. cbv iota.
  rewrite od_lookup_fresh by done. rewrite result_bind_ok. cbv iota beta.
  assert (py_setitem (PDict acc) (PStr k) (PDict []) = Ok (PDict (acc ++ [(PStr k, PDict [])])))
    as -> by (simpl; by rewrite od_insert_fresh).
  rewrite result_bind_ok. apply descend_into, Hf.
Qed.

Lemma ins_all_into k acc X ps :
  fresh_in k acc -> Forall (fun pv => pv.1 <> []) ps ->
  ins_all (PDict (acc ++ [(PStr k, X)])) (map (fun pv => (k :: pv.1, pv.2)) ps) =
    (X' ← ins_all X ps; Ok (PDict (acc ++ [(PStr k, X')]))).
Proof.
  intros Hf. revert X. induction ps as [|[p v] ps IH]; intros X Hne; [done|].
  apply List.Forall_cons_iff in Hne as [Hp Hne]. simpl.
  rewrite ins_path_into by done. destruct (ins_path X p v); simpl; [by apply IH|done].
Qed.

(** The paths of a sub-dict stored under a new key [k] build that
    sub-dict from [{}] and append it under [k]. *)
Lemma ins_all_entry_dict k acc ps :
  fresh_in k acc -> ps <> [] -> Forall (fun pv => pv.1 <> []) ps ->
  ins_all (PDict acc) (map (fun pv => (k :: pv.1, pv.2)) ps) =
    (X' ← ins_all (PDict []) ps; Ok (PDict (acc ++ [(PStr k, X')]))).
Proof.
  intros Hf Hps Hne. destruct ps as [|[p0 v0] ps]; [done|].
  apply List.Forall_cons_iff in Hne as [Hp0 Hne]. simpl.
  rewrite ins_path_new by done. destruct (ins_path (PDict []) p0 v0); simpl; [|done].
  by apply ins_all_into.
Qed.

Lemma flat_paths_nonempty c v :
  wf_nested c v = true -> is_dict v = true -> v <> PDict [] -> flat_paths v <> [].
Proof.
  induction v as [| | | | | | |d IH] using pyval_ind'; intros Hwf Hd Hne; try discriminate.
  destruct d as [|[k x] d]; [done|]. rewrite flat_paths_cons.
  apply List.Forall_cons_iff in IH as [[_ Hx] _]. simpl in Hx.
  rewrite wf_nested_cons in Hwf. apply andb_true_iff in Hwf as [Hwf _].
  apply andb_true_iff in Hwf as [Hwf Hwfx]. apply andb_true_iff in Hwf as [_ Hx0].
  apply negb_true_iff, bool_decide_eq_false in Hx0.
  unfold entry_paths. destruct (is_dict x) eqn:Ex; [|done].
  destruct (flat_paths x) as [|pv ps] eqn:E; [by destruct (Hx Hwfx eq_refl Hx0)|done].
Qed.

Lemma fresh_step c s x d acc :
  wf_nested c (PDict d) = true -> forallb (fun kv => negb (py_eq kv.1 (PStr s))) d = true ->
  Forall (fun kv => fresh_in (py_str kv.1) acc) d ->
  Forall (fun kv => fresh_in (py_str kv.1) (acc ++ [(PStr s, x)])) d.
Proof.
  intros Hwf Hfr Hacc. apply wf_nested_keys in Hwf.
  rewrite List.Forall_forall in Hwf, Hacc |- *. rewrite forallb_forall in Hfr.
  intros [k y] Hin. apply Forall_app. split; [by apply (Hacc _ Hin)|].
  specialize (Hfr _ Hin). destruct (key_ok_str c k (Hwf _ Hin)) as (s' & -> & _).
  constructor; [|constructor]. simpl in *. by apply negb_true_iff in Hfr.
Qed.

(** Inserting the paths of a well-formed dict [d], in order, into a dict
    [acc] holding none of its keys appends [d] to [acc]. *)
Lemma ins_all_flat c v acc :
  wf_nested c v = true -> is_dict v = true ->
  Forall (fun kv => fresh_in (py_str kv.1) acc) (dict_items v) ->
  ins_all (PDict acc) (flat_paths v) = Ok (PDict (acc ++ dict_items v)).
Proof.
  revert acc. induction v as [| | | | | | |d IH] using pyval_ind'; intros acc Hwf Hd Hacc; try discriminate.
  clear Hd. simpl dict_items in *. revert acc Hacc.
  induction d as [|[k x] d IHd]; intros acc Hacc; [by rewrite app_nil_r|].
  apply List.Forall_cons_iff in IH as [[_ Hx] IH]. simpl in Hx.
  apply List.Forall_cons_iff in Hacc as [Hk Hacc]. simpl in Hk.
  pose proof Hwf as Hwf'. rewrite wf_nested_cons in Hwf.
  apply andb_true_iff in Hwf as [Hwf Hwfd]. apply andb_true_iff in Hwf as [Hwf Hwfx].
  apply andb_true_iff in Hwf as [Hwf Hx0]. apply andb_true_iff in Hwf as [Hko Hfr].
  apply negb_true_iff, bool_decide_eq_false in Hx0.
  destruct (key_ok_str c k Hko) as (s & -> & _). simpl in Hk.
  rewrite flat_paths_cons, ins_all_app. unfold entry_paths. simpl py_str.
  destruct (is_dict x) eqn:Ex.
  - destruct (flat_paths_wf c x Hwfx) as [Hok _].
    rewrite ins_all_entry_dict; [|done|by apply (flat_paths_nonempty c)|].
    2: { eapply Forall_impl; [exact Hok|]. by intros pv [? _]. }
    destruct x as [| | | | | | |e]; try discriminate.
    rewrite Hx by (try done; apply List.Forall_forall; intros; constructor).
    simpl. rewrite (IHd IH Hwfd) by (apply (fresh_step c); done). by rewrite <- app_assoc.
  - cbn [ins_all]. rewrite ins_path_leaf by done. rewrite !result_bind_ok.
    rewrite (IHd IH Hwfd) by (apply (fresh_step c); done). by rewrite <- app_assoc.
Qed.

Lemma flatten_children c d :
  Forall (fun kv : pyval * pyval => forall p', p' <> EmptyString -> is_dict kv.2 = true -> wf_nested c kv.2 = true ->
            get_dict_flattened kv.2 (PStr p') (str_of_char c) =
              Ok (PDict (keyed p' (str_of_char c) (flat_paths kv.2)))) d.
Proof. apply List.Forall_forall. intros kv _ p' Hp Hd Hw. by apply flatten_nested_paths. Qed.

(** ** The round trip *)

(** On a nested dict with string keys free of the one-character
    separator, distinct, no empty sub-dict and no [""] key holding a dict
    at the top, [get_dict_flattened(d)] is the dict of the leaves, in
    depth-first order, each keyed by the keys leading to it joined with
    [sep]. *)
Theorem get_dict_flattened_spec c d :
  top_ok d = true -> wf_nested c (PDict d) = true ->
  get_dict_flattened (PDict d) (PStr EmptyString) (str_of_char c) =
    Ok (PDict (keyed EmptyString (str_of_char c) (flat_paths (PDict d)))).
Proof. intros Htop Hwf. apply flatten_dict_paths; [done|by right|apply flatten_children]. Qed.

(** C21: [unflatten_dict(get_dict_flattened(d), sep) == d] on the same
    dicts, and the result is [d] itself, with its keys in their order. *)
Theorem flatten_unflatten_roundtrip c d :
  top_ok d = true -> wf_nested c (PDict d) = true ->
  (f ← get_dict_flattened (PDict d) (PStr EmptyString) (str_of_char c);
   unflatten_dict f (str_of_char c)) = Ok (PDict d).
Proof.
  intros Htop Hwf.
  rewrite flatten_dict_paths by first [done|by right|apply flatten_children].
  rewrite result_bind_ok. cbn [unflatten_dict].
  destruct (flat_paths_wf c (PDict d) Hwf) as [Hok _].
  rewrite unflatten_keyed by done.
  apply (ins_all_flat c (PDict d) []); [done|done|]. apply List.Forall_forall. intros. constructor.
Qed.

(** ** Outside the hypotheses of the round trip *)

(** The round trip loses an empty sub-dict, splits a key at a
    separator of two characters that the join created, and drops the
    prefix of the sub-keys of a top-level [""] key holding a dict. *)
Example roundtrip_boundary_cases :
  (f ← get_dict_flattened (PDict [(PStr "a", PDict [])]) (PStr "") ".";
   unflatten_dict f ".") = Ok (PDict []) /\
  (f ← get_dict_flattened (PDict [(PStr "xa", PDict [(PStr "y", PInt 1)])]) (PStr "") "aa";
   unflatten_dict f "aa") = Ok (PDict [(PStr "x", PDict [(PStr "ay", PInt 1)])]) /\
  (f ← get_dict_flattened (PDict [(PStr "", PDict [(PStr "a", PInt 1)])]) (PStr "") ".";
   unflatten_dict f ".") = Ok (PDict [(PStr "a", PInt 1)]).
Proof. vm_compute. repeat split. Qed.

(** The shape of a dict is a string (here the example of
    [examples/struct_example.py]); the shape of a list of dicts then unpacks
    the string of the first dict, one character per entry of the tuple. *)
Example get_shape_dict_elements :
  get_shape 1000 (PDict [(PInt 1, PList [PInt 1; PInt 2]); (PInt 2, PTuple [PInt 1; PInt 2]);
                         (PInt 3, PSet [PInt 1; PInt 2])]) default_authorized false =
    Ok (PStr "Dict(3 keys to (3, 2))") /\
  get_shape 1000 (PList [PDict [(PStr "a", PInt 1)]]) default_authorized false =
    Ok (PTuple (PInt 1 :: str_chars "Dict(1 keys to (1,))")).
Proof. split; vm_compute; reflexivity. Qed.

(** ** Witnesses *)

(** The dict of [examples/struct_example.py]. *)
Definition nested_example : list (pyval * pyval) :=
  [(PStr "key1", PInt 1);
   (PStr "key2", PDict [(PStr "key3", PInt 3); (PStr "key4", PDict [(PStr "key5", PInt 5)])]);
   (PStr "key6", PDict [(PStr "key7", PInt 7)])].

Lemma flatten_unflatten_roundtrip_witness :
  top_ok nested_example = true /\ wf_nested "." (PDict nested_example) = true /\
  (f ← get_dict_flattened (PDict nested_example) (PStr EmptyString) (str_of_char ".");
   unflatten_dict f (str_of_char ".")) = Ok (PDict nested_example).
Proof.
  split; [reflexivity|]. split; [reflexivity|].
  apply flatten_unflatten_roundtrip; reflexivity.
Defined.

Lemma get_dict_flattened_spec_witness :
  top_ok nested_example = true /\ wf_nested "." (PDict nested_example) = true /\
  get_dict_flattened (PDict nested_example) (PStr EmptyString) (str_of_char ".") =
    Ok (PDict [(PStr "key1", PInt 1); (PStr "key2.key3", PInt 3); (PStr "key2.key4.key5", PInt 5);
               (PStr "key6.key7", PInt 7)]).
Proof.
  split; [reflexivity|]. split; [reflexivity|].
  rewrite (get_dict_flattened_spec "." nested_example) by reflexivity. reflexivity.
Defined.

Definition matrix_2x3 : pyval :=
  PList [PList [PInt 1; PInt 2; PInt 3]; PList [PInt 4; PInt 5; PInt 6]].

Lemma get_shape_tensor_witness :
  is_tensor [2; 3]%nat matrix_2x3 = true /\ Forall (fun d => (0 < d)%nat) [2; 3]%nat /\
  get_shape 1000 matrix_2x3 default_authorized true = Ok (PTuple [PInt 2; PInt 3]).
Proof.
  split; [reflexivity|]. split; [repeat constructor; lia|].
  apply (get_shape_tensor [2; 3]%nat); [reflexivity|repeat constructor; lia|simpl; lia].
Defined.

Lemma get_shape_terminates_witness :
  ~ In "str" default_authorized /\
  exists r, not_rec r /\ forall n, (pdepth matrix_2x3 < n)%nat -> get_shape n matrix_2x3 default_authorized true = r.
Proof.
  assert (H : ~ In "str" default_authorized) by (simpl; intuition discriminate).
  split; [exact H|]. exact (get_shape_terminates matrix_2x3 default_authorized true H).
Defined.

Lemma get_shape_str_diverges_witness :
  In "str" ["str"] /\ "ab" <> EmptyString /\
  get_shape 1000 (PStr "ab") ["str"] false = Err (RecursionError "maximum recursion depth exceeded").
Proof.
  split; [left; reflexivity|]. split; [discriminate|].
  apply get_shape_str_diverges; [left; reflexivity|discriminate].
Defined.

Lemma get_shape_first_only_witness :
  length [PInt 3] = length [PList [PInt 4]] /\
  get_shape 5 (PList [PList [PInt 1; PInt 2]; PInt 3]) default_authorized false =
  get_shape 5 (PList [PList [PInt 1; PInt 2]; PList [PInt 4]]) default_authorized false.
Proof. split; [reflexivity|]. apply get_shape_first_only. reflexivity. Defined.

Definition shape10 (el : pyval) : pyval :=
  match get_shape 10 el default_authorized true with Ok s => s | Err _ => PNone end.

Lemma get_shape_strict_ragged_witness :
  In "list" default_authorized /\
  Forall (fun el => get_shape 10 el default_authorized true = Ok (shape10 el))
    [PList [PInt 1; PInt 2]; PList [PInt 3]] /\
  existsb (fun el => negb (py_eq (shape10 el) (shape10 (PList [PInt 1; PInt 2])))) [PList [PInt 3]] = true /\
  get_shape 11 (PList [PList [PInt 1; PInt 2]; PList [PInt 3]]) default_authorized true =
    Err (shape_error [PTuple [PInt 2]; PTuple [PInt 1]]).
Proof.
  assert (Hl : In "list" default_authorized) by (left; reflexivity).
  assert (Hf : Forall (fun el => get_shape 10 el default_authorized true = Ok (shape10 el))
                 [PList [PInt 1; PInt 2]; PList [PInt 3]]) by (repeat constructor).
  assert (He : existsb (fun el => negb (py_eq (shape10 el) (shape10 (PList [PInt 1; PInt 2]))))
                 [PList [PInt 3]] = true) by reflexivity.
  split; [exact Hl|]. split; [exact Hf|]. split; [exact He|].
  exact (get_shape_strict_ragged 10 _ _ shape10 default_authorized Hl Hf He).
Defined.
