(* ===== verification/StructExample.v ===== *)
(** * [src/examples/struct_example.py]: the demonstration script

    The script flattens and unflattens the dict [d] of lines 11-15
    ([Struct.nested_example]) and prints the shapes of a few nested lists,
    the last one with [assert_same_shape=True] inside
    [try]/[except AssertionError].  Line 24 calls [get_shape] on a numpy
    array, which has no value in the model: the script is modelled as its
    two parts, lines 10-23 ([struct_demo_dicts]) and lines 25-31
    ([struct_demo_shapes]).  Python's recursion limit gives [get_shape] the
    fuel [1000].

    Example: what the two parts print. *)

From S2P Require Import Prelude PyVal World Struct.

Definition recursion_limit : nat := 1000.

(** [print(f"{get_shape(obj, assert_same_shape=b)=}")] *)
Definition print_shape (expr : string) (obj : pyval) (assert_same_shape : bool) : PyM unit :=
  s ← lift (get_shape recursion_limit obj default_authorized assert_same_shape);
  print_s (debug_line expr s).

(** Lines 10-23. *)
Definition struct_demo_dicts : PyM unit :=
  let d := PDict nested_example in
  print_s ("Testing get_dict_flattened with " +:+ py_str d);;
  flattened ← lift (get_dict_flattened d (PStr "") ".");
  print_s ("Flattened: " +:+ py_str flattened);;
  unflattened ← lift (unflatten_dict flattened ".");
  print_s ("Unflattened: " +:+ py_str unflattened);;
  print_shape "get_shape([[1, 2], [3, 4]])" (PList [PList [PInt 1; PInt 2]; PList [PInt 3; PInt 4]]) false.

(** [[[None, None, None, None, None, None, None], [4]], [None, [7, 8]]] *)
Definition ragged : pyval :=
  PList [PList [PList (repeat PNone 7); PList [PInt 4]]; PList [PNone; PList [PInt 7; PInt 8]]].

(** Lines 25-31: [try: ... except AssertionError as e: print(...)]; any
    other exception propagates. *)
Definition struct_demo_shapes : PyM unit :=
  print_shape "get_shape({1: [1, 2], 2: (1, 2), 3: {1, 2}})"
    (PDict [(PInt 1, PList [PInt 1; PInt 2]); (PInt 2, PTuple [PInt 1; PInt 2]);
            (PInt 3, PSet [PInt 1; PInt 2])]) false;;
  print_shape "get_shape([[[None, None, None, None, None, None, None], [4]], [None, [7, 8]]])"
    ragged false;;
  try_except
    (print_shape "get_shape([[[None, None, None, None, None, None, None], [4]], [None, [7, 8]]], assert_same_shape=True)"
       ragged true)
    (fun e => match e with
              | AssertionError _ => print_s ("AssertionError was raised: " +:+ py_exc_str e)
              | _ => raise e
              end).

(** The output of both parts: the round trip gives [d] back, and the
    ragged list has the shape [(2, 2, 7)] of its first elements unless the
    check is asked for, which fails on the sub-shapes [(7,)] and [(1,)].
    The shape of the dict of line 25 is a string. *)
Example struct_demo_output :
  (struct_demo_dicts;; struct_demo_shapes) world_init = (Ok tt, set_stdout
    ["Testing get_dict_flattened with {'key1': 1, 'key2': {'key3': 3, 'key4': {'key5': 5}}, 'key6': {'key7': 7}}";
     "Flattened: {'key1': 1, 'key2.key3': 3, 'key2.key4.key5': 5, 'key6.key7': 7}";
     "Unflattened: {'key1': 1, 'key2': {'key3': 3, 'key4': {'key5': 5}}, 'key6': {'key7': 7}}";
     "get_shape([[1, 2], [3, 4]])=(2, 2)";
     "get_shape({1: [1, 2], 2: (1, 2), 3: {1, 2}})='Dict(3 keys to (3, 2))'";
     "get_shape([[[None, None, None, None, None, None, None], [4]], [None, [7, 8]]])=(2, 2, 7)";
     "AssertionError was raised: ('All sub-objects must have the same shape, but got: ', [(7,), (1,)])"]
    world_init).
Proof. vm_compute. reflexivity. Qed.
