(* ===== verification/Seed.v ===== *)
(** * [src/tbutils/seed.py]: seeds, and [os.environ] of [config.py]

    [try_get_seed] (lines 10-41) looks the seed up with [Config.try_get],
    passing as default a number drawn from [random] before the lookup, and
    draws again (warning through [ExecMaxN.print_once]) when the value found
    is not an [int].  [set_seed] (lines 45-85) seeds [random], writes
    [PYTHONHASHSEED] into [os.environ] and seeds numpy, torch and tensorflow
    when they are in [sys.modules].  [get_env_variable] ([config.py] line
    78) reads [os.environ].

    The generator of [random] is the interface [Generator]: [below s h n]
    is the number in [[0, n)] drawn by [random._randbelow] from a generator
    seeded with [s] after draws of bounds [h].  Mersenne Twister is a
    function of exactly this, so the theorems, proved for every instance,
    hold for the real generator; [lcg] is an instance to run them on.

    Theorems: the three outcomes of [try_get_seed] (an [int] found, a
    missing key, another value found), the range of the drawn seeds, the
    [ValueError] raised for [seed_max <= 0] even when the config has a seed,
    the state left by [set_seed] (with numpy seeded with [0] whatever the
    seed), and reproducibility: after [set_seed s] the seed chosen does not
    depend on the earlier state of the generator. *)

From S2P Require Import Prelude PyVal World Limiter ExecMaxN Config.

(** ** [os.environ] ([config.py] line 78) *)

(** [os.environ.get(name)] *)
Definition get_env_variable (name : string) : PyM pyval :=
  gets (fun w => match od_lookup String.eqb name (w_environ w) with
                 | Some v => PStr v
                 | None => PNone
                 end).

(** [os.environ[name] = value] *)
Definition set_env (name value : string) : PyM unit :=
  modify (fun w => set_environ (od_insert String.eqb name value (w_environ w)) w).

(** [name in sys.modules] *)
Definition module_loaded (name : string) : PyM bool :=
  gets (fun w => existsb (String.eqb name) (w_modules w)).

(** A seed or flag set in a library, by the name of the call or flag. *)
Definition lib_set (name : string) (v : pyval) : PyM unit :=
  modify (fun w => set_libs (od_insert String.eqb name v (w_libs w)) w).

(** ** The [random] module *)

(** What [random] offers to [seed.py]: [_randbelow(n)], a number in
    [[0, n)], as a function of the seed and of the bounds drawn since. *)
Class Generator := {
  below : pyval -> list Z -> Z -> Z;
  below_range : forall s h n, (0 < n)%Z -> (0 <= below s h n < n)%Z
}.

Section Random.
Context `{Generator}.

(** [random.randint(a, b)], that is [randrange(a, b + 1)]: an empty range
    raises [ValueError] (message of CPython 3.11). *)
Definition randint (a b : Z) : PyM Z :=
  fun w =>
    let width := (b + 1 - a)%Z in
    if bool_decide (width <= 0)%Z
    then (Err (ValueError ("empty range for randrange() (" +:+ pretty a +:+ ", "
                            +:+ pretty (b + 1)%Z +:+ ", " +:+ pretty width +:+ ")")), w)
    else let r := w_random w in
         (Ok (a + below (rs_seed r) (rs_draws r) width)%Z,
          set_random {| rs_seed := rs_seed r; rs_draws := rs_draws r ++ [width] |} w).

Definition seed_types_msg : string :=
  "The only supported seed types are: None," +:+ str_of_char (ascii_of_nat 10)
  +:+ "int, float, str, bytes, and bytearray.".

(** [random.seed(s)] *)
Definition random_seed (s : pyval) : PyM unit :=
  match s with
  | PList _ | PTuple _ | PSet _ | PDict _ => raise (TypeError seed_types_msg)
  | _ => modify (set_random {| rs_seed := s; rs_draws := [] |})
  end.

(** ** [try_get_seed] (lines 10-41) *)

Definition seed_warning (seed : Z) : pyval :=
  PStr ("[WARNING] The seed is not an integer, using a random seed instead: " +:+ pretty seed).

Definition try_get_seed (config : pyval) (seed_max : Z) (key_seed : string) (warn_if_unvalid : bool)
    : PyM pyval :=
  default ← randint 0 (seed_max - 1);
  seed ← try_get config key_seed (OVal (PInt default)) false ".";
  if py_isinstance seed "int" then mret seed
  else
    seed' ← randint 0 (seed_max - 1);
    (if warn_if_unvalid then print_once (seed_warning seed') PNone (OVal PNone) false
     else mret tt);;
    mret (PInt seed').

(** ** [set_seed] (lines 45-85) *)

Definition set_seed (seed : pyval) : PyM unit :=
  random_seed seed;;
  set_env "PYTHONHASHSEED" (py_str seed);;
  module_loaded "numpy" ≫= (fun (np : bool) =>
    if np then lib_set "numpy.random.seed" (PInt 0) else mret tt);;
  module_loaded "torch" ≫= (fun (torch : bool) =>
    if torch then
      lib_set "torch.manual_seed" seed;;
      lib_set "torch.cuda.manual_seed" seed;;
      lib_set "torch.cuda.manual_seed_all" seed;;
      lib_set "torch.backends.cudnn.deterministic" (PBool true);;
      lib_set "torch.backends.cudnn.enabled" (PBool false);;
      lib_set "torch.backends.cudnn.benchmark" (PBool false)
    else mret tt);;
  module_loaded "tensorflow" ≫= (fun (tf : bool) =>
    if tf then lib_set "tensorflow.random.set_seed" seed else mret tt).

End Random.

(** ** Lemmas *)

Section Lemmas.
Context `{Generator}.

Definition advance (r : rng_state) (n : Z) : rng_state :=
  {| rs_seed := rs_seed r; rs_draws := rs_draws r ++ [n] |}.

Definition draw (r : rng_state) (n : Z) : Z :=
  below (rs_seed r) (rs_draws r) n.

Lemma randint_run a b w :
  (a <= b)%Z ->
  randint a b w =
    (Ok (a + draw (w_random w) (b + 1 - a))%Z, set_random (advance (w_random w) (b + 1 - a)) w).
Proof. intros Hab. unfold randint. by rewrite bool_decide_eq_false_2 by lia. Qed.

Definition empty_range (a b : Z) : py_exc :=
  ValueError ("empty range for randrange() (" +:+ pretty a +:+ ", " +:+ pretty (b + 1)%Z +:+ ", "
              +:+ pretty (b + 1 - a)%Z +:+ ")").

Lemma randint_empty a b w : (b < a)%Z -> randint a b w = (Err (empty_range a b), w).
Proof. intros Hab. unfold randint. by rewrite bool_decide_eq_true_2 by lia. Qed.

(** With a value as default and no warning, [try_get] neither reads nor
    writes the world. *)
Definition try_get_value (config : pyval) (key : string) (v : pyval) (sep : string) : result pyval :=
  (try_get config key (OVal v) false sep world_init).1.

Lemma try_get_loop_pure config key v value ks w :
  try_get_loop config key (OVal v) false value ks w =
    ((try_get_loop config key (OVal v) false value ks world_init).1, w).
Proof.
  revert value. induction ks as [|k ks IH]; intros value; [done|].
  cbn [try_get_loop]. unfold mbind, pym_bind, lift.
  destruct (py_contains (PStr k) value) as [[|]|e]; [|done|done].
  destruct (py_getitem value (PStr k)) as [v'|e]; [apply IH|done].
Qed.

Lemma try_get_pure config key v sep w :
  try_get config key (OVal v) false sep w = (try_get_value config key v sep, w).
Proof.
  unfold try_get_value, try_get. unfold mbind, pym_bind, lift.
  destruct (py_split sep key) as [ks|e]; [|done]. apply try_get_loop_pure.
Qed.

(** [try_get] on a walk that does not get stuck, as [try_get_seed] calls it. *)
Lemma try_get_value_walk config key v :
  (forall u, lookup_path config (str_split "." key) <> Stuck u) ->
  try_get_value config key v "." =
    match lookup_path config (str_split "." key) with
    | Found u => Ok u
    | Missing _ => Ok v
    | Stuck _ => Ok PNone
    end.
Proof.
  intros Hns. unfold try_get_value. rewrite try_get_split by done.
  rewrite try_get_loop_walk by done. by destruct (lookup_path config (str_split "." key)).
Qed.

(** Every step of [try_get_seed] when [seed_max >= 1]. *)
Lemma try_get_seed_run config m key warn w :
  (1 <= m)%Z ->
  try_get_seed config m key warn w =
    (let r1 := advance (w_random w) m in
     match try_get_value config key (PInt (draw (w_random w) m)) "." with
     | Err e => (Err e, set_random r1 w)
     | Ok seed =>
         if py_isinstance seed "int" then (Ok seed, set_random r1 w)
         else ((if warn then print_once (seed_warning (draw r1 m)) PNone (OVal PNone) false
                else mret tt);; mret (PInt (draw r1 m))) (set_random (advance r1 m) w)
     end).
Proof.
  intros Hm. unfold try_get_seed. rewrite (bind_run _ _ _ _ _ (randint_run 0 (m - 1) w ltac:(lia))).
  replace (m - 1 + 1 - 0)%Z with m by lia. cbv beta. unfold mbind at 1, pym_bind at 1.
  rewrite try_get_pure. simpl (0 + _)%Z.
  destruct (try_get_value _ _ _ _) as [seed|e]; [|done].
  destruct (py_isinstance seed "int"); [done|].
  rewrite (bind_run _ _ _ _ _ (randint_run 0 (m - 1) _ ltac:(lia))).
  replace (m - 1 + 1 - 0)%Z with m by lia. done.
Qed.


Lemma draw_range r m : (1 <= m)%Z -> (0 <= draw r m <= m - 1)%Z.
Proof. intros Hm. unfold draw. pose proof (below_range (rs_seed r) (rs_draws r) m). lia. Qed.

(** When the config holds an [int] under [key_seed] (a [bool]
    included, [bool] being a subclass of [int]), [try_get_seed] returns it;
    a number has still been drawn from [random] for the default, before the
    lookup. *)
Theorem try_get_seed_found_int config m key warn w v :
  (1 <= m)%Z -> lookup_path config (str_split "." key) = Found v -> py_isinstance v "int" = true ->
  try_get_seed config m key warn w = (Ok v, set_random (advance (w_random w) m) w).
Proof.
  intros Hm Hf Hi. rewrite try_get_seed_run by done.
  rewrite try_get_value_walk by (rewrite Hf; discriminate). by rewrite Hf, Hi.
Qed.

(** Without the key, [try_get_seed] returns the number drawn for the
    default, in [[0, seed_max - 1]], and changes nothing else (no warning:
    [try_get] is called with [warn_if_unvalid=False]). *)
Theorem try_get_seed_missing config m key warn w k :
  (1 <= m)%Z -> lookup_path config (str_split "." key) = Missing k ->
  try_get_seed config m key warn w =
    (Ok (PInt (draw (w_random w) m)), set_random (advance (w_random w) m) w) /\
  (0 <= draw (w_random w) m <= m - 1)%Z.
Proof.
  intros Hm Hf. split; [|by apply draw_range]. rewrite try_get_seed_run by done.
  rewrite try_get_value_walk by (rewrite Hf; discriminate). by rewrite Hf.
Qed.

(** A value found that is not an [int] is replaced by a second draw,
    in [[0, seed_max - 1]]; with [warn_if_unvalid] the warning goes through
    [print_once], keyed by its own text. *)
Theorem try_get_seed_not_int config m key warn w v :
  (1 <= m)%Z -> lookup_path config (str_split "." key) = Found v -> py_isinstance v "int" = false ->
  let r1 := advance (w_random w) m in
  let d := draw r1 m in
  try_get_seed config m key warn w =
    ((if warn then print_once (seed_warning d) PNone (OVal PNone) false else mret tt);;
     mret (PInt d)) (set_random (advance r1 m) w) /\
  (0 <= d <= m - 1)%Z.
Proof.
  intros Hm Hf Hi r1 d. split; [|by apply draw_range]. rewrite try_get_seed_run by done.
  rewrite try_get_value_walk by (rewrite Hf; discriminate). by rewrite Hf, Hi.
Qed.

(** C25: with [seed_max <= 0] the default [random.randint(0, seed_max - 1)]
    is evaluated before the config is read, so [try_get_seed] raises
    [ValueError] even when the config holds a valid seed. *)
Theorem try_get_seed_bad_max config m key warn w :
  (m <= 0)%Z -> try_get_seed config m key warn w = (Err (empty_range 0 (m - 1)), w).
Proof.
  intros Hm. unfold try_get_seed. by rewrite (bind_err _ _ _ _ _ (randint_empty 0 (m - 1) w ltac:(lia))).
Qed.

(** The seed [try_get_seed] returns depends on the world only through the
    state of [random]. *)
Lemma try_get_seed_value config m key warn w1 w2 :
  w_random w1 = w_random w2 ->
  (try_get_seed config m key warn w1).1 = (try_get_seed config m key warn w2).1.
Proof.
  intros Hr. destruct (Z_le_gt_dec m 0) as [Hm|Hm].
  { unfold try_get_seed. by rewrite !(bind_err _ _ _ _ _ (randint_empty 0 (m - 1) _ ltac:(lia))). }
  rewrite !try_get_seed_run by lia. cbv zeta. rewrite Hr.
  destruct (try_get_value _ _ _ _) as [seed|e]; [|done].
  destruct (py_isinstance seed "int"); [done|]. destruct warn.
  - unfold print_once. erewrite !(seq_ret_fst _ _ _ tt); [done| |];
      (eapply print_max_n_ok; [reflexivity|done]).
  - done.
Qed.

(** Runs [set_seed (PInt z)] to its final world, one case per library
    found in [sys.modules]. *)
Ltac set_seed_run w :=
  destruct (existsb (String.eqb "numpy") (w_modules w)) eqn:?,
    (existsb (String.eqb "torch") (w_modules w)) eqn:?,
    (existsb (String.eqb "tensorflow") (w_modules w)) eqn:?;
  unfold set_seed, random_seed, set_env, module_loaded, lib_set, get_env_variable, gets, modify,
    mbind, pym_bind, mret, pym_ret; cbn -[existsb String.eqb od_insert pretty];
  repeat match goal with
         | H : existsb ?f ?l = _ |- context [existsb ?f ?l] =>
             rewrite H; cbn -[existsb String.eqb od_insert pretty]
         end;
  (eexists; split; [reflexivity|]); cbn -[existsb String.eqb od_insert pretty];
  rewrite ?od_lookup_insert_string; simpl.

Lemma set_seed_random z w :
  exists w', set_seed (PInt z) w = (Ok tt, w') /\ w_random w' = {| rs_seed := PInt z; rs_draws := [] |}.
Proof. set_seed_run w; done. Qed.

(** C26: [set_seed(z)] seeds [random] with [z], sets [PYTHONHASHSEED] to
    [str(z)] (read back by [get_env_variable]), seeds torch and tensorflow
    with [z] when they are loaded, but seeds numpy with [0] whatever [z];
    nothing is printed and [sys.modules] is unchanged. *)
Theorem set_seed_state z w :
  exists w', set_seed (PInt z) w = (Ok tt, w') /\
    w_random w' = {| rs_seed := PInt z; rs_draws := [] |} /\
    get_env_variable "PYTHONHASHSEED" w' = (Ok (PStr (pretty z)), w') /\
    od_lookup String.eqb "numpy.random.seed" (w_libs w') =
      (if existsb (String.eqb "numpy") (w_modules w) then Some (PInt 0)
       else od_lookup String.eqb "numpy.random.seed" (w_libs w)) /\
    od_lookup String.eqb "torch.manual_seed" (w_libs w') =
      (if existsb (String.eqb "torch") (w_modules w) then Some (PInt z)
       else od_lookup String.eqb "torch.manual_seed" (w_libs w)) /\
    od_lookup String.eqb "tensorflow.random.set_seed" (w_libs w') =
      (if existsb (String.eqb "tensorflow") (w_modules w) then Some (PInt z)
       else od_lookup String.eqb "tensorflow.random.set_seed" (w_libs w)) /\
    w_stdout w' = w_stdout w /\ w_modules w' = w_modules w.
Proof. set_seed_run w; repeat split. Qed.

(** C27: reproducibility: after [set_seed(z)], [try_get_seed] chooses the
    same seed (or raises the same exception) whatever the state of the
    generator, the counters and the output before. *)
Theorem set_seed_reproducible z config m key warn w1 w2 :
  ((set_seed (PInt z);; try_get_seed config m key warn) w1).1 =
  ((set_seed (PInt z);; try_get_seed config m key warn) w2).1.
Proof.
  destruct (set_seed_random z w1) as (w1' & H1 & R1).
  destruct (set_seed_random z w2) as (w2' & H2 & R2).
  rewrite (bind_run _ _ _ _ _ H1), (bind_run _ _ _ _ _ H2).
  apply try_get_seed_value. by rewrite R1, R2.
Qed.

End Lemmas.

(** ** Witnesses *)

(** A generator to run the theorems on. *)
Definition lcg_below (s : pyval) (h : list Z) (n : Z) : Z := ((7 * Z.of_nat (length h) + 3) mod n)%Z.

Lemma lcg_below_range s h n : (0 < n)%Z -> (0 <= lcg_below s h n < n)%Z.
Proof. intros Hn. unfold lcg_below. apply Z.mod_pos_bound. lia. Qed.

#[export] Instance lcg : Generator := {| below := lcg_below; below_range := lcg_below_range |}.

(** The configs of [examples/seed.py]. *)
Definition cfg_seed (v : pyval) : pyval := PDict [(PStr "seed", v)].

Lemma try_get_seed_found_int_witness :
  (1 <= 1000)%Z /\ lookup_path (cfg_seed (PBool true)) (str_split "." "seed") = Found (PBool true) /\
  py_isinstance (PBool true) "int" = true /\
  try_get_seed (cfg_seed (PBool true)) 1000 "seed" true world_init =
    (Ok (PBool true), set_random (advance (w_random world_init) 1000) world_init) /\
  try_get_seed (cfg_seed (PInt 42)) 1000 "seed" true world_init =
    (Ok (PInt 42), set_random (advance (w_random world_init) 1000) world_init).
Proof.
  split; [lia|]. split; [reflexivity|]. split; [reflexivity|].
  split; apply try_get_seed_found_int; (lia || reflexivity).
Defined.

Lemma try_get_seed_missing_witness :
  (1 <= 1000)%Z /\ lookup_path (PDict []) (str_split "." "seed") = Missing "seed" /\
  try_get_seed (PDict []) 1000 "seed" true world_init =
    (Ok (PInt 3), set_random (advance (w_random world_init) 1000) world_init).
Proof.
  split; [lia|]. split; [reflexivity|].
  exact (proj1 (try_get_seed_missing (PDict []) 1000 "seed" true world_init
                  "seed" ltac:(lia) eq_refl)).
Defined.

Lemma try_get_seed_not_int_witness :
  (1 <= 1000)%Z /\ lookup_path (cfg_seed (PStr "42")) (str_split "." "seed") = Found (PStr "42") /\
  py_isinstance (PStr "42") "int" = false /\
  (try_get_seed (cfg_seed (PStr "42")) 1000 "seed" false world_init).1 = Ok (PInt 10).
Proof.
  split; [lia|]. split; [reflexivity|]. split; [reflexivity|].
  rewrite (proj1 (try_get_seed_not_int (cfg_seed (PStr "42")) 1000 "seed"
                    false world_init (PStr "42") ltac:(lia) eq_refl eq_refl)).
  reflexivity.
Defined.

Lemma try_get_seed_bad_max_witness :
  (0 <= 0)%Z /\
  try_get_seed (cfg_seed (PInt 3)) 0 "seed" true world_init =
    (Err (ValueError "empty range for randrange() (0, 0, 0)"), world_init).
Proof. split; [lia|]. apply try_get_seed_bad_max. lia. Defined.
