(* ===== verification/SeedExample.v ===== *)
(** * [src/examples/seed.py]: the demonstration script

    The script (lines 4-9) asks [try_get_seed] for the seed of a config
    holding [42], of an empty config and of a config holding the string
    ["42"], printing each, then calls [set_seed(42)].  Each f-string
    evaluates its call before printing, so the warning of the third call
    comes before the line that prints its seed.

    Example: its output and final state with the generator [Seed.lcg]
    standing for the Mersenne Twister; the seeds drawn depend on the
    generator, the rest of the output does not. *)

From S2P Require Import Prelude PyVal World Limiter ExecMaxN Config Seed.

Definition seed_demo `{Generator} : PyM unit :=
  s1 ← try_get_seed (cfg_seed (PInt 42)) 1000 "seed" true;
  print_s ("Try get seed on a config with seed: " +:+ py_str s1);;
  s2 ← try_get_seed (PDict []) 1000 "seed" true;
  print_s ("Try get seed on a config without seed: " +:+ py_str s2);;
  s3 ← try_get_seed (cfg_seed (PStr "42")) 1000 "seed" true;
  print_s ("Try get seed on a config with non-integer seed: " +:+ py_str s3);;
  set_seed (PInt 42).

(** The seed of the config is returned as it is; the two other seeds are
    the second and the fourth draws of the generator (the first and the
    third are the defaults evaluated before each lookup); the warning is
    printed once; [set_seed(42)] reseeds [random] and sets
    [PYTHONHASHSEED]. *)
Example seed_demo_output :
  seed_demo (H := lcg) world_init =
    (Ok tt,
     set_environ [("PYTHONHASHSEED", "42")]
       (set_random {| rs_seed := PInt 42; rs_draws := [] |}
          (set_print_counter
             [(PStr "[WARNING] The seed is not an integer, using a random seed instead: 24", 1%Z)]
             (set_stdout
                ["Try get seed on a config with seed: 42";
                 "Try get seed on a config without seed: 10";
                 "[WARNING] The seed is not an integer, using a random seed instead: 24";
                 "Try get seed on a config with non-integer seed: 24"] world_init)))).
Proof. vm_compute. reflexivity. Qed.
