(* ===== verification/ConfigExample.v ===== *)
(** * [src/examples/config.py]: the demonstration script

    The script (lines 16-26) prints two lookups of [try_get], the config
    [config_for_class] (lines 10-14), the object [instantiate_class] builds
    from it, and the environment variable [USERNAME].  The class [Class] of
    lines 3-8 is reached by [import_module("examples.config")] and
    [getattr(module, "Class")], with [example_import] the module found; an instance is
    represented by the string its [__repr__] returns, the only use the
    script makes of it.

    Example: what the script prints, with and without [USERNAME] in the
    environment. *)

From S2P Require Import Prelude PyVal World Limiter ExecMaxN Config Seed.

(** [Class(arg1, arg2)] and its [__repr__]. *)
Definition example_class : pyfunc :=
  {| fn_name := "Class"; fn_code := None;
     fn_call := fun _ kw =>
       lift (match bind_kwargs "__init__" ["arg1"; "arg2"] kw with
             | Ok [a1; a2] => Ok (PStr ("Class(arg1=" +:+ py_str a1 +:+ ", arg2=" +:+ py_str a2 +:+ ")"))
             | Ok _ => Err (TypeError "__init__() takes 3 positional arguments")
             | Err e => Err e
             end) |}.

(** The modules [importlib.import_module] finds for the script run from
    the root of the project: [examples.config] defines [Class]. *)
Definition example_import (m : string) : option (list (string * pyfunc)) :=
  if String.eqb m "examples.config" then Some [("Class", example_class)] else None.

Definition config_for_class : list (string * pyval) :=
  [("class_string", PStr "examples.config:Class"); ("arg1", PInt 1); ("arg2", PInt 2)].

Definition config_demo : PyM unit :=
  v1 ← try_get cfg_abc "a.b.c" (OVal PNone) false ".";
  print_s (debug_line "try_get({'a': {'b': {'c': 1}}}, 'a.b.c')" v1);;
  v2 ← try_get (PDict [(PStr "a", PInt 1)]) "double_a" (OFun double_a) false ".";
  print_s (debug_line "try_get({'a': 1}, 'double_a', lambda config, key: config['a'] * 2)" v2);;
  print_s ("Class instanciation from config: "
           +:+ py_str (PDict (map (fun '(k, v) => (PStr k, v)) config_for_class)));;
  obj ← instantiate_class example_import config_for_class;
  print_s ("Obj: " +:+ py_str obj);;
  u ← get_env_variable "USERNAME";
  print_s ("Environment variable: " +:+ py_str u).

(** The lines of the script: [1] and [2] found by the two lookups (the
    second through the callable default), the object built with [arg1=1,
    arg2=2], and [None] when [USERNAME] is not set. *)
Example config_demo_output :
  config_demo world_init =
    (Ok tt, set_stdout
      ["try_get({'a': {'b': {'c': 1}}}, 'a.b.c')=1";
       "try_get({'a': 1}, 'double_a', lambda config, key: config['a'] * 2)=2";
       "Class instanciation from config: {'class_string': 'examples.config:Class', 'arg1': 1, 'arg2': 2}";
       "Obj: Class(arg1=1, arg2=2)";
       "Environment variable: None"] world_init) /\
  (w_stdout (config_demo (set_environ [("USERNAME", "tb")] world_init)).2 !! 4%nat =
    Some "Environment variable: tb").
Proof. split; vm_compute; reflexivity. Qed.
