(* ===== verification/Resolvers.v ===== *)
(** * [register_hydra_resolvers] ([src/tbutils/config.py] lines 83-95)

    The function registers three resolvers with OmegaConf's global table:
    [merge] ([merge_container]), [eval] (Python's [eval]) and
    [env_variable] ([get_env_variable]).  The table is a class attribute of
    OmegaConf, modelled as an association list [registry] threaded through
    [RegM].  [OmegaConf.register_new_resolver] is written from its
    documented behaviour: a name already in the table raises [ValueError]
    (no [replace=True] is passed), otherwise the resolver is added.  An
    interpolation [${name:args}] calls the resolver registered under
    [name], or raises [UnsupportedInterpolationType]; Python's [eval] on a
    string is the parameter [py_eval], and a resolver registered by other
    code the parameter [call_other].  The arguments of an interpolation
    are [Config.cfg_arg]s: nested interpolations give [DictConfig] and
    [ListConfig] nodes, and literals plain values.

    Theorems: [register_hydra_resolvers] succeeds exactly when none of the
    three names is taken; a name already taken raises and leaves the
    resolvers before it registered, so a second call always raises; and
    after a call the interpolations [${env_variable:...}] and [${merge:...}]
    read [os.environ] and merge containers as [Seed.get_env_variable] and
    [Config.merge_container] do. *)

From S2P Require Import Prelude PyVal World Limiter ExecMaxN Config Seed.

Inductive resolver : Type :=
| RMerge         (** [merge_container] *)
| REval          (** [eval] *)
| REnvVariable   (** [get_env_variable] *)
| ROther.        (** a resolver registered by other code *)

#[export] Instance resolver_eq_dec : EqDecision resolver.
Proof. solve_decision. Defined.

(** OmegaConf's table of resolvers, in registration order. *)
Definition registry : Type := list (string * resolver).

(** A computation on the table that returns or raises; what it registered
    before raising stays registered. *)
Definition RegM (A : Type) : Type := registry -> result A * registry.

#[export] Instance regm_ret : MRet RegM := fun _ a reg => (Ok a, reg).
#[export] Instance regm_bind : MBind RegM :=
  fun _ _ f m reg => match m reg with
                     | (Ok a, reg') => f a reg'
                     | (Err e, reg') => (Err e, reg')
                     end.

Definition has_resolver (name : string) (reg : registry) : bool :=
  existsb (fun nr => String.eqb name nr.1) reg.

(** [OmegaConf.register_new_resolver(name, resolver)] *)
Definition register_new_resolver (name : string) (r : resolver) : RegM unit :=
  fun reg => if has_resolver name reg
             then (Err (ValueError ("resolver '" +:+ name +:+ "' is already registered")), reg)
             else (Ok tt, reg ++ [(name, r)]).

Definition register_hydra_resolvers : RegM unit :=
  register_new_resolver "merge" RMerge;;
  register_new_resolver "eval" REval;;
  register_new_resolver "env_variable" REnvVariable.

(** The three entries a successful call adds. *)
Definition hydra_resolvers : registry :=
  [("merge", RMerge); ("eval", REval); ("env_variable", REnvVariable)].

Section Resolve.
Context (py_eval : list cfg_arg -> PyM pyval)
        (call_other : string -> list cfg_arg -> PyM pyval).

(** [get_env_variable( *args)]: one argument, a string key of
    [os.environ] ([os.environ.get] raises [TypeError] on a key that is not
    a string). *)
Definition call_env_variable (args : list cfg_arg) : PyM pyval :=
  match args with
  | [Plain (PStr name)] => get_env_variable name
  | [a] => raise (TypeError ("str expected, not " +:+ cfg_type_name a))
  | _ => raise (TypeError ("get_env_variable() takes 1 positional argument but "
                           +:+ pretty (length args) +:+ " were given"))
  end.

(** The value of the interpolation [${name:args}]. *)
Definition resolve (reg : registry) (name : string) (args : list cfg_arg) : PyM pyval :=
  match od_lookup String.eqb name reg with
  | Some RMerge => lift (merge_container args)
  | Some REnvVariable => call_env_variable args
  | Some REval => py_eval args
  | Some ROther => call_other name args
  | None => raise (UnsupportedInterpolationType ("Unsupported interpolation type " +:+ name))
  end.
End Resolve.

(** ** Registering *)

Lemma has_resolver_app nm reg l : has_resolver nm (reg ++ l) = has_resolver nm reg || has_resolver nm l.
Proof. unfold has_resolver. by rewrite existsb_app. Qed.

Lemma has_resolver_snoc nm reg e :
  String.eqb nm e.1 = false -> has_resolver nm (reg ++ [e]) = has_resolver nm reg.
Proof. intros H. rewrite has_resolver_app. simpl. by rewrite H, !orb_false_r. Qed.

Lemma has_resolver_lookup nm reg : has_resolver nm reg = false -> od_lookup String.eqb nm reg = None.
Proof.
  induction reg as [|[k r] reg IH]; simpl; [done|].
  destruct (String.eqb nm k); [done|]. exact IH.
Qed.

Lemma register_new_resolver_run nm r reg :
  register_new_resolver nm r reg =
    if has_resolver nm reg
    then (Err (ValueError ("resolver '" +:+ nm +:+ "' is already registered")), reg)
    else (Ok tt, reg ++ [(nm, r)]).
Proof. reflexivity. Qed.

(** The names [register_hydra_resolvers] registers, in order. *)
Definition hydra_names : list string := map fst hydra_resolvers.

(** The entries of [l] before the one named [nm]. *)
Fixpoint entries_before (nm : string) (l : registry) : registry :=
  match l with
  | [] => []
  | e :: l' => if String.eqb e.1 nm then [] else e :: entries_before nm l'
  end.

(** The outcome of [register_hydra_resolvers], as the claim below states it; shared by the theorems on resolution. *)
Lemma register_outcome reg :
  match List.filter (fun nm => has_resolver nm reg) hydra_names with
  | [] => register_hydra_resolvers reg = (Ok tt, reg ++ hydra_resolvers)
  | nm :: _ => register_hydra_resolvers reg =
      (Err (ValueError ("resolver '" +:+ nm +:+ "' is already registered")),
       reg ++ entries_before nm hydra_resolvers)
  end.
Proof.
  unfold register_hydra_resolvers, hydra_names, mbind, regm_bind. cbn [List.filter map fst hydra_resolvers].
  rewrite !register_new_resolver_run.
  destruct (has_resolver "merge" reg) eqn:E1; cbv beta iota; [by rewrite app_nil_r|].
  rewrite register_new_resolver_run, has_resolver_snoc by reflexivity.
  destruct (has_resolver "eval" reg) eqn:E2; cbv beta iota; [done|].
  rewrite register_new_resolver_run, !has_resolver_snoc by reflexivity.
  destruct (has_resolver "env_variable" reg) eqn:E3; cbv beta iota; by rewrite <- ?app_assoc.
Qed.

(** C19: [register_hydra_resolvers] adds the three resolvers when none of
    their names is taken.  Otherwise it raises [ValueError] at the first
    taken name, in the order [merge], [eval], [env_variable], and the
    resolvers registered before it stay registered: a call can leave the
    table half set up. *)
Theorem register_hydra_resolvers_outcome reg :
  match List.filter (fun nm => has_resolver nm reg) hydra_names with
  | [] => register_hydra_resolvers reg = (Ok tt, reg ++ hydra_resolvers)
  | nm :: _ => register_hydra_resolvers reg =
      (Err (ValueError ("resolver '" +:+ nm +:+ "' is already registered")),
       reg ++ entries_before nm hydra_resolvers)
  end.
Proof. apply register_outcome. Qed.

(** A successful call found the three names free and added them. *)
Lemma register_hydra_resolvers_ok reg reg' :
  register_hydra_resolvers reg = (Ok tt, reg') ->
  reg' = reg ++ hydra_resolvers /\ has_resolver "merge" reg = false /\
  has_resolver "eval" reg = false /\ has_resolver "env_variable" reg = false.
Proof.
  pose proof (register_outcome reg) as H. unfold hydra_names in H.
  cbn [List.filter map fst hydra_resolvers] in H.
  destruct (has_resolver "merge" reg), (has_resolver "eval" reg), (has_resolver "env_variable" reg);
    intros Hr; rewrite Hr in H; try discriminate H. by injection H as ->.
Qed.

(** ** Resolving after registering *)

(** C20: After a successful [register_hydra_resolvers], the interpolations
    [${env_variable:NAME}], [${merge:...}] and [${eval:...}] call
    [get_env_variable], [merge_container] and [eval] whatever was
    registered before, and a second call of [register_hydra_resolvers]
    raises [ValueError] on [merge] and changes nothing: the function can
    run once per process. *)
Theorem resolve_after_register py_eval call_other reg reg' :
  register_hydra_resolvers reg = (Ok tt, reg') ->
  (forall name, resolve py_eval call_other reg' "env_variable" [Plain (PStr name)] = get_env_variable name) /\
  (forall args, resolve py_eval call_other reg' "merge" args = lift (merge_container args)) /\
  (forall args, resolve py_eval call_other reg' "eval" args = py_eval args) /\
  register_hydra_resolvers reg' = (Err (ValueError "resolver 'merge' is already registered"), reg').
Proof.
  intros Hr. destruct (register_hydra_resolvers_ok reg reg' Hr) as (-> & Hm & He & Hv).
  unfold resolve. rewrite !od_lookup_app_r, (has_resolver_lookup _ _ Hm), (has_resolver_lookup _ _ He),
    (has_resolver_lookup _ _ Hv).
  do 3 (split; [intros; reflexivity|]).
  pose proof (register_outcome (reg ++ hydra_resolvers)) as H.
  unfold hydra_names in H. cbn [List.filter map fst hydra_resolvers] in H.
  rewrite (has_resolver_app "merge") in H. cbn [has_resolver existsb String.eqb fst] in H.
  rewrite orb_true_r in H. simpl in H. by rewrite app_nil_r in H.
Qed.

(** ** Witnesses *)

Lemma register_hydra_resolvers_outcome_witness :
  register_hydra_resolvers [("eval", ROther)] =
    (Err (ValueError "resolver 'eval' is already registered"), [("eval", ROther); ("merge", RMerge)]).
Proof. exact (register_hydra_resolvers_outcome [("eval", ROther)]). Defined.

Lemma resolve_after_register_witness :
  register_hydra_resolvers [("now", ROther)] =
    (Ok tt, [("now", ROther); ("merge", RMerge); ("eval", REval); ("env_variable", REnvVariable)]) /\
  resolve (fun _ => mret PNone) (fun _ _ => mret PNone)
    [("now", ROther); ("merge", RMerge); ("eval", REval); ("env_variable", REnvVariable)]
    "env_variable" [Plain (PStr "USERNAME")] (set_environ [("USERNAME", "tb")] world_init) =
    (Ok (PStr "tb"), set_environ [("USERNAME", "tb")] world_init).
Proof.
  assert (H : register_hydra_resolvers [("now", ROther)] =
    (Ok tt, [("now", ROther); ("merge", RMerge); ("eval", REval); ("env_variable", REnvVariable)]))
    by reflexivity.
  split; [exact H|].
  destruct (resolve_after_register (fun _ => mret PNone) (fun _ _ => mret PNone) _ _ H) as (Henv & _).
  rewrite Henv. reflexivity.
Defined.
