(* ===== verification/Info.v ===== *)
(** * [src/tbutils/info.py]: installed packages and versions

    [is_installed(name)] asks [importlib.util.find_spec] whether a package
    can be imported; [check_versions()] prints the interpreter, the system
    and a section per installed package among NumPy, PyTorch, TensorFlow and
    JAX.  What these calls read (the installed packages, [sys.version],
    [platform], the versions and devices the packages report) is the record
    [platform_info]: the code only reads it.  An import of an installed
    package is taken to succeed, except the import of [jax.lib.xla_bridge],
    which recent JAX releases no longer provide ([jax_import]); a call into
    JAX that raises is [jax_devices] or [jax_platform] being an error.

    Theorem: [check_versions] writes the header, one section per installed
    package in the order of the code, with one line per GPU numbered from
    0, and the footer; it raises only from JAX, after the lines before the
    failing call. *)

From S2P Require Import Prelude PyVal World.

Record torch_info : Type := {
  torch_version : string;          (** [torch.__version__] *)
  cuda_available : bool;           (** [torch.cuda.is_available()] *)
  cuda_version : pyval;            (** [torch.version.cuda]: a string or [None] *)
  gpu_names : list string          (** [torch.cuda.get_device_name(i)], [i < device_count()] *)
}.

Record tf_info : Type := {
  tf_version : string;             (** [tf.__version__] *)
  built_with_cuda : bool;          (** [tf.test.is_built_with_cuda()] *)
  tf_gpus : list string            (** [str] of [tf.config.list_physical_devices("GPU")] *)
}.

Record jax_info : Type := {
  jax_version : string;            (** [jax.__version__] *)
  jax_import : option py_exc;      (** [from jax.lib import xla_bridge] raises this *)
  jax_devices : result string;     (** [str(jax.devices())] *)
  jax_platform : result string     (** [xla_bridge.get_backend().platform] *)
}.

Record platform_info : Type := {
  sys_version : string;            (** [sys.version] *)
  system_name : string;            (** [platform.system()] *)
  machine : string;                (** [platform.machine()] *)
  installed : list string;         (** the names [find_spec] finds *)
  numpy_version : string;
  torch : torch_info;
  tf : tf_info;
  jax : jax_info
}.

Section Info.
Context (env : platform_info).

(** [is_installed(package_name)] (lines 6-7) *)
Definition is_installed (package_name : string) : bool :=
  existsb (String.eqb package_name) (installed env).

Definition tab : string := String "009" EmptyString.

Definition bool_str (b : bool) : string := py_str (PBool b).

Definition banner : string :=
  String "010" "============== Checking Packages & System Info ================".

Definition footer : string :=
  "===============================================================".

(** [f"\t  - GPU {i}: {torch.cuda.get_device_name(i)}"] *)
Definition gpu_line (i : nat) (nm : string) : string := tab +:+ "  - GPU " +:+ pretty i +:+ ": " +:+ nm.

(** [for i in range(torch.cuda.device_count()): print(...)] (lines 35-36),
    from GPU [i]. *)
Fixpoint print_gpus (i : nat) (names : list string) : PyM unit :=
  match names with
  | [] => mret tt
  | nm :: names' => print_s (gpu_line i nm);; print_gpus (S i) names'
  end.

(** [f"\t  - {gpu}"] *)
Definition tf_gpu_line (g : string) : string := tab +:+ "  - " +:+ g.

(** [for gpu in tf.config.list_physical_devices("GPU"): print(...)]
    (lines 45-46) *)
Fixpoint print_tf_gpus (gpus : list string) : PyM unit :=
  match gpus with
  | [] => mret tt
  | g :: gpus' => print_s (tf_gpu_line g);; print_tf_gpus gpus'
  end.

Definition check_versions : PyM unit :=
  let python_version := default "" (head (str_split " " (sys_version env))) in
  print_s banner;;
  print_s ("OS: " +:+ system_name env +:+ " (" +:+ machine env +:+ ")");;
  print_s ("Python: " +:+ python_version);;
  (if is_installed "numpy" then print_s ("NumPy: " +:+ numpy_version env) else mret tt);;
  (if is_installed "torch" then
     let t := torch env in
     print_s ("PyTorch: " +:+ torch_version t);;
     print_s (tab +:+ "CUDA Available: " +:+ bool_str (cuda_available t));;
     print_s (tab +:+ "CUDA Version: " +:+ (if cuda_available t then py_str (cuda_version t) else "N/A"));;
     print_s (tab +:+ "Available GPUs: " +:+ pretty (length (gpu_names t)));;
     print_gpus 0 (gpu_names t)
   else mret tt);;
  (if is_installed "tensorflow" then
     let t := tf env in
     print_s ("TensorFlow: " +:+ tf_version t);;
     print_s (tab +:+ "CUDA Available: " +:+ bool_str (built_with_cuda t));;
     print_s (tab +:+ "Available GPUs: " +:+ pretty (length (tf_gpus t)));;
     print_tf_gpus (tf_gpus t)
   else mret tt);;
  (if is_installed "jax" then
     let j := jax env in
     match jax_import j with
     | Some e => raise e
     | None =>
         print_s ("JAX: " +:+ jax_version j);;
         devices ← lift (jax_devices j);
         print_s (tab +:+ "Available Devices: " +:+ devices);;
         plat ← lift (jax_platform j);
         print_s (tab +:+ "Platform: " +:+ plat)
     end
   else mret tt);;
  print_s footer.

(** ** What [check_versions] prints *)

Definition python_line : string :=
  "Python: " +:+ default "" (head (str_split " " (sys_version env))).

Definition torch_lines (t : torch_info) : list string :=
  ["PyTorch: " +:+ torch_version t;
   tab +:+ "CUDA Available: " +:+ bool_str (cuda_available t);
   tab +:+ "CUDA Version: " +:+ (if cuda_available t then py_str (cuda_version t) else "N/A");
   tab +:+ "Available GPUs: " +:+ pretty (length (gpu_names t))] ++
  map (fun '(i, nm) => gpu_line i nm) (zip (seq 0 (length (gpu_names t))) (gpu_names t)).

Definition tf_lines (t : tf_info) : list string :=
  ["TensorFlow: " +:+ tf_version t;
   tab +:+ "CUDA Available: " +:+ bool_str (built_with_cuda t);
   tab +:+ "Available GPUs: " +:+ pretty (length (tf_gpus t))] ++ map tf_gpu_line (tf_gpus t).

(** The JAX section: its lines, and the exception that ends it early. *)
Definition jax_outcome (j : jax_info) : list string * option py_exc :=
  match jax_import j with
  | Some e => ([], Some e)
  | None =>
      match jax_devices j with
      | Err e => (["JAX: " +:+ jax_version j], Some e)
      | Ok d =>
          match jax_platform j with
          | Err e => (["JAX: " +:+ jax_version j; tab +:+ "Available Devices: " +:+ d], Some e)
          | Ok pl => (["JAX: " +:+ jax_version j; tab +:+ "Available Devices: " +:+ d;
                       tab +:+ "Platform: " +:+ pl], None)
          end
      end
  end.

Definition versions_out : result unit * list string :=
  let pre := [banner; "OS: " +:+ system_name env +:+ " (" +:+ machine env +:+ ")"; python_line] ++
             (if is_installed "numpy" then ["NumPy: " +:+ numpy_version env] else []) ++
             (if is_installed "torch" then torch_lines (torch env) else []) ++
             (if is_installed "tensorflow" then tf_lines (tf env) else []) in
  if is_installed "jax" then
    match jax_outcome (jax env) with
    | (ls, None) => (Ok tt, pre ++ ls ++ [footer])
    | (ls, Some e) => (Err e, pre ++ ls)
    end
  else (Ok tt, pre ++ [footer]).
End Info.

Lemma print_gpus_out i names :
  outputs (print_gpus i names) (Ok tt) (map (fun '(k, nm) => gpu_line k nm) (zip (seq i (length names)) names)).
Proof.
  revert i. induction names as [|nm names IH]; intros i; simpl; [apply outputs_ret|].
  apply (outputs_bind _ _ tt _ [gpu_line i nm]); [apply outputs_print_s|apply IH].
Qed.

Lemma print_tf_gpus_out gpus : outputs (print_tf_gpus gpus) (Ok tt) (map tf_gpu_line gpus).
Proof.
  induction gpus as [|g gpus IH]; simpl; [apply outputs_ret|].
  apply (outputs_bind _ _ tt _ [tf_gpu_line g]); [apply outputs_print_s|apply IH].
Qed.

#[export] Hint Resolve print_gpus_out print_tf_gpus_out : tbu.


(** ** The output of [check_versions] *)

(** [check_versions()] prints the banner, the system and the Python
    version (the first word of [sys.version]), then a section for each of
    NumPy, PyTorch, TensorFlow and JAX that is installed, in this order,
    the PyTorch section listing [GPU 0], [GPU 1], ... with their names and
    the TensorFlow one each GPU device, and the closing rule.  It raises
    only from the JAX section (the import of [xla_bridge], [jax.devices()]
    or the backend), after the lines printed before the failing call and
    without the closing rule. *)
Theorem check_versions_output env :
  outputs (check_versions env) (versions_out env).1 (versions_out env).2.
Proof.
  unfold check_versions, versions_out, jax_outcome. cbv zeta.
  destruct (jax_import (jax env)), (jax_devices (jax env)), (jax_platform (jax env));
  destruct (is_installed env "numpy"), (is_installed env "torch"), (is_installed env "tensorflow"),
    (is_installed env "jax"); cbv beta iota;
  (eapply outputs_eq; [outputs_run|]).
  all: simpl; rewrite <- ?app_assoc; reflexivity.
Qed.
