(* ===== verification/Jax.v ===== *)
(** * [src/tbutils/jax.py]: [nest_for_array] and [check_jax_device]

    [nest_for_array(func)] (lines 23-61) returns [wrapper], which applies
    [func] to every [jnp.ndarray] of a structure of nested dicts and lists,
    writing each result back in place ([arr[key] = ...], [arr[idx] = ...])
    and raising [ValueError] on anything else.  When the keyword argument
    [key_random] is given it is removed and, for each child in turn,
    [key_random, subkey = random.split(key_random)] gives the child the key
    [subkey].

    Arrays and PRNG keys are abstract ([A] and [K]); [func] stands for
    [func] with the other positional and keyword arguments, which the
    wrapper passes unchanged to every call; [split] is [jax.random.split]
    into two keys.  A structure is a [jtree]: an array, a dict (its items in
    order), a list, or another Python value.

    Theorem: on dicts with distinct keys, the in-place loops compute the
    structural map [jspec], in which the [i]-th child of a container gets
    the second half of the [(i+1)]-th split of the parent's key
    ([subkey]); the first value that is not an array, a dict or a list
    raises [ValueError].

    [check_jax_device] (lines 14-20) reads the names [jax] and [xla_bridge]
    that the module binds only when JAX is installed (lines 6-11,
    [jax_module]); its [try]/[except Exception] is [World.try_except].
    Theorem: it never raises, and prints what it learnt or the error. *)

From S2P Require Import Prelude PyVal World Info.

#[local] Set Warnings "-register-all".

Section Nest.
Context {A K : Type}.

Inductive jtree : Type :=
| JArr (a : A)                              (** a [jnp.ndarray] *)
| JDict (d : list (pyval * jtree))          (** a [dict] *)
| JList (l : list jtree)                    (** a [list] *)
| JOther (v : pyval).                       (** anything else *)

Context (func : A -> option K -> result A) (split : K -> K * K).

Definition unknown_type (v : pyval) : py_exc :=
  ValueError ("Unknown type for array: <class '" +:+ py_type_name v +:+ "'>").

(** The loop of lines 40-42 (with a key) or 44-45 (without) over the items
    [es] still to visit; [cur] is [arr] as updated so far. *)
Fixpoint nest_dict (rec : jtree -> option K -> result jtree) (es : list (pyval * jtree))
    (key : option K) (cur : list (pyval * jtree)) : result (list (pyval * jtree)) :=
  match es with
  | [] => Ok cur
  | (x, v) :: es' =>
      match key with
      | Some k =>
          let (k', sub) := split k in
          v' ← rec v (Some sub);
          nest_dict rec es' (Some k') (od_insert py_eq x v' cur)
      | None =>
          v' ← rec v None;
          nest_dict rec es' None (od_insert py_eq x v' cur)
      end
  end.

(** The loop of lines 51-53 or 55-56 over [enumerate(arr)] from index [idx]. *)
Fixpoint nest_list (rec : jtree -> option K -> result jtree) (es : list jtree) (idx : nat)
    (key : option K) (cur : list jtree) : result (list jtree) :=
  match es with
  | [] => Ok cur
  | v :: es' =>
      match key with
      | Some k =>
          let (k', sub) := split k in
          v' ← rec v (Some sub);
          nest_list rec es' (S idx) (Some k') (<[idx := v']> cur)
      | None =>
          v' ← rec v None;
          nest_list rec es' (S idx) None (<[idx := v']> cur)
      end
  end.

(** [wrapper(arr, *args, **kwargs)]; [key] is [kwargs.get("key_random")]
    when present. *)
Fixpoint nest_for_array (t : jtree) (key : option K) : result jtree :=
  match t with
  | JArr a => a' ← func a key; Ok (JArr a')
  | JDict d => d' ← nest_dict nest_for_array d key d; Ok (JDict d')
  | JList l => l' ← nest_list nest_for_array l O key l; Ok (JList l')
  | JOther v => Err (unknown_type v)
  end.

(** ** Specification: a structural map *)

(** The key after [n] splits, each keeping the first half. *)
Fixpoint chain (k : K) (n : nat) : K :=
  match n with O => k | S n' => chain (split k).1 n' end.

(** The key given to the [i]-th child. *)
Definition subkey (k : K) (i : nat) : K := (split (chain k i)).2.

(** The children of a container: the [i]-th gets [subkey key i]. *)
Fixpoint jspec_dict (rec : jtree -> option K -> result jtree) (key : option K)
    (es : list (pyval * jtree)) (i : nat) : result (list (pyval * jtree)) :=
  match es with
  | [] => Ok []
  | (x, v) :: es' =>
      v' ← rec v (option_map (fun k => subkey k i) key);
      rest ← jspec_dict rec key es' (S i); Ok ((x, v') :: rest)
  end.

Fixpoint jspec_list (rec : jtree -> option K -> result jtree) (key : option K)
    (es : list jtree) (i : nat) : result (list jtree) :=
  match es with
  | [] => Ok []
  | v :: es' =>
      v' ← rec v (option_map (fun k => subkey k i) key);
      rest ← jspec_list rec key es' (S i); Ok (v' :: rest)
  end.

Fixpoint jspec (t : jtree) (key : option K) : result jtree :=
  match t with
  | JArr a => a' ← func a key; Ok (JArr a')
  | JDict d => d' ← jspec_dict jspec key d O; Ok (JDict d')
  | JList l => l' ← jspec_list jspec key l O; Ok (JList l')
  | JOther v => Err (unknown_type v)
  end.

(** Dicts whose keys are hashable and pairwise distinct, at every level:
    what a Python dict is. *)
Fixpoint jwf (t : jtree) : Prop :=
  match t with
  | JDict d =>
      Forall (fun xv => hashable xv.1) d /\ keys_fresh py_eq d /\
      (fix go (d : list (pyval * jtree)) : Prop :=
         match d with [] => True | (_, v) :: d' => jwf v /\ go d' end) d
  | JList l => (fix go (l : list jtree) : Prop := match l with [] => True | v :: l' => jwf v /\ go l' end) l
  | _ => True
  end.

Section jtree_ind.
Context (P : jtree -> Prop)
  (HArr : forall a, P (JArr a))
  (HDict : forall d, Forall (fun xv => P xv.2) d -> P (JDict d))
  (HList : forall l, Forall P l -> P (JList l))
  (HOther : forall v, P (JOther v)).

Fixpoint jtree_ind' (t : jtree) : P t :=
  match t with
  | JArr a => HArr a
  | JDict d => HDict d ((fix go (d : list (pyval * jtree)) : Forall (fun xv => P xv.2) d :=
                          match d with
                          | [] => List.Forall_nil _
                          | (x, v) :: d' => @List.Forall_cons _ _ (x, v) d' (jtree_ind' v) (go d')
                          end) d)
  | JList l => HList l ((fix go (l : list jtree) : Forall P l :=
                          match l with
                          | [] => List.Forall_nil _
                          | v :: l' => @List.Forall_cons _ _ v l' (jtree_ind' v) (go l')
                          end) l)
  | JOther v => HOther v
  end.
End jtree_ind.

(** ** The in-place loops compute [jspec] *)

Lemma jwf_dict d :
  jwf (JDict d) <->
  Forall (fun xv => hashable xv.1) d /\ keys_fresh py_eq d /\ Forall (fun xv => jwf xv.2) d.
Proof.
  simpl. enough (Hgo : (fix go (d : list (pyval * jtree)) : Prop :=
                    match d with [] => True | (_, v) :: d' => jwf v /\ go d' end) d <->
                  Forall (fun xv => jwf xv.2) d) by (rewrite Hgo; done).
  induction d as [|[x v] d IH]; [split; [constructor|done]|].
  rewrite List.Forall_cons_iff, IH. done.
Qed.

Lemma jwf_list l : jwf (JList l) <-> Forall jwf l.
Proof.
  simpl. induction l as [|v l IH]; [split; [constructor|done]|].
  rewrite List.Forall_cons_iff, IH. done.
Qed.

Lemma chain_succ k i : chain k (S i) = (split (chain k i)).1.
Proof.
  revert k. induction i as [|i IH]; intros k; [done|].
  change (chain k (S (S i))) with (chain (split k).1 (S i)). by rewrite IH.
Qed.

(** The dict loop, after the items [pre] have been replaced. *)
Lemma nest_dict_spec es pre i key :
  Forall (fun xv => forall key, nest_for_array xv.2 key = jspec xv.2 key) es ->
  Forall (fun xv => hashable xv.1) es -> keys_fresh py_eq es ->
  Forall (fun xv => Forall (fun kv => py_eq xv.1 kv.1 = false) pre) es ->
  nest_dict nest_for_array es (option_map (fun k => chain k i) key) (pre ++ es) =
    (es' ← jspec_dict jspec key es i; Ok (pre ++ es')).
Proof.
  revert pre i. induction es as [|[x v] es IH]; intros pre i Hrec Hh Hfr Hpre.
  { simpl. by rewrite app_nil_r. }
  apply List.Forall_cons_iff in Hrec as [Hv Hrec], Hh as [Hx Hh], Hpre as [Hxpre Hpre].
  destruct Hfr as [Hxes Hfr]. simpl in Hv, Hx, Hxpre.
  assert (Hpre' : forall v', Forall (fun xv => Forall (fun kv => py_eq xv.1 kv.1 = false) (pre ++ [(x, v')])) es).
  { intros v'. rewrite List.Forall_forall in Hpre, Hxes |- *. intros xv Hin.
    apply Forall_app. split; [by apply Hpre|]. constructor; [by apply Hxes|constructor]. }
  destruct key as [k|]; cbn [nest_dict jspec_dict option_map].
  - unfold subkey. destruct (split (chain k i)) as [k' sub] eqn:E. simpl. rewrite Hv.
    destruct (jspec v (Some sub)) as [v'|e]; simpl; [|done].
    rewrite od_insert_app_fresh by done. simpl. rewrite py_eq_refl by done.
    replace (pre ++ (x, v') :: es) with ((pre ++ [(x, v')]) ++ es) by by rewrite <- app_assoc.
    replace (Some k') with (option_map (fun k => chain k (S i)) (Some k)) by (cbn [option_map]; rewrite chain_succ, E; done).
    rewrite IH by done. destruct (jspec_dict jspec (Some k) es (S i)); simpl; [|done].
    by rewrite <- app_assoc.
  - rewrite Hv. destruct (jspec v None) as [v'|e]; simpl; [|done].
    rewrite od_insert_app_fresh by done. simpl. rewrite py_eq_refl by done.
    replace (pre ++ (x, v') :: es) with ((pre ++ [(x, v')]) ++ es) by by rewrite <- app_assoc.
    change (nest_dict nest_for_array es None)
      with (nest_dict nest_for_array es (option_map (fun k => chain k (S i)) None)).
    rewrite IH by done. destruct (jspec_dict jspec None es (S i)); simpl; [|done].
    by rewrite <- app_assoc.
Qed.

(** The list loop, after the elements [pre] have been replaced. *)
Lemma nest_list_spec es pre key :
  Forall (fun v => forall key, nest_for_array v key = jspec v key) es ->
  nest_list nest_for_array es (length pre) (option_map (fun k => chain k (length pre)) key) (pre ++ es) =
    (es' ← jspec_list jspec key es (length pre); Ok (pre ++ es')).
Proof.
  revert pre. induction es as [|v es IH]; intros pre Hrec.
  { simpl. by rewrite app_nil_r. }
  apply List.Forall_cons_iff in Hrec as [Hv Hrec].
  assert (Hins : forall v', <[length pre := v']> (pre ++ v :: es) = (pre ++ [v']) ++ es)
    by (intros v'; rewrite <- (Nat.add_0_r (length pre)), insert_app_r, <- app_assoc; done).
  assert (Hlen : forall v', S (length pre) = length (pre ++ [v'])) by (intros; rewrite length_app; simpl; lia).
  destruct key as [k|]; cbn [nest_list jspec_list option_map].
  - unfold subkey. destruct (split (chain k (length pre))) as [k' sub] eqn:E. simpl. rewrite Hv.
    destruct (jspec v (Some sub)) as [v'|e]; simpl; [|done].
    rewrite Hins, (Hlen v').
    replace (Some k') with (option_map (fun k => chain k (length (pre ++ [v']))) (Some k))
      by (cbn [option_map]; rewrite <- Hlen, chain_succ, E; done).
    rewrite IH by done. rewrite <- Hlen.
    destruct (jspec_list jspec (Some k) es (S (length pre))); simpl; [|done].
    by rewrite <- app_assoc.
  - rewrite Hv. destruct (jspec v None) as [v'|e]; simpl; [|done].
    rewrite Hins, (Hlen v').
    change (nest_list nest_for_array es (length (pre ++ [v'])) None)
      with (nest_list nest_for_array es (length (pre ++ [v']))
              (option_map (fun k => chain k (length (pre ++ [v']))) None)).
    rewrite IH by done. rewrite <- Hlen.
    destruct (jspec_list jspec None es (S (length pre))); simpl; [|done].
    by rewrite <- app_assoc.
Qed.

Lemma nest_jspec t key : jwf t -> nest_for_array t key = jspec t key.
Proof.
  revert key. induction t as [a|d IH|l IH|v] using jtree_ind'; intros key Hwf; try done.
  - apply jwf_dict in Hwf as (Hh & Hfr & Hw).
    assert (Hrec : Forall (fun xv => forall key, nest_for_array xv.2 key = jspec xv.2 key) d).
    { rewrite List.Forall_forall in IH, Hw |- *. intros xv Hin key'. by apply IH, Hw. }
    cbn [nest_for_array jspec].
    rewrite <- (app_nil_l d) at 2.
    replace key with (option_map (fun k => chain k O) key) at 1 by (by destruct key).
    rewrite (nest_dict_spec d [] O key) by (try done; apply Forall_true; constructor).
    by destruct (jspec_dict jspec key d 0).
  - apply jwf_list in Hwf.
    assert (Hrec : Forall (fun v => forall key, nest_for_array v key = jspec v key) l).
    { rewrite List.Forall_forall in IH, Hwf |- *. intros v Hin key'. by apply IH, Hwf. }
    cbn [nest_for_array jspec].
    pose proof (nest_list_spec l [] key Hrec) as H. cbn [length app chain] in H.
    replace (option_map (fun k => k) key) with key in H by (by destruct key).
    rewrite H. by destruct (jspec_list jspec key l 0).
Qed.

(** C28: on structures whose dicts have hashable, pairwise distinct keys
    (every Python dict), [nest_for_array(func)] computes the structural map
    [jspec]: [func] is applied to each array in depth-first order, each
    container is rebuilt with its keys in their order, and with
    [key_random] the [i]-th child of a container receives the second half
    of the [(i+1)]-th split of the container's key. *)
Theorem nest_for_array_spec t key : jwf t -> nest_for_array t key = jspec t key.
Proof. apply nest_jspec. Qed.

(** ** When the wrapper raises *)

(** The first value, in the depth-first order of the loops, that is not
    an array, a dict or a list. *)
Fixpoint first_other (t : jtree) : option pyval :=
  match t with
  | JArr _ => None
  | JDict d => foldr (fun xv acc => match first_other xv.2 with Some v => Some v | None => acc end) None d
  | JList l => foldr (fun v acc => match first_other v with Some o => Some o | None => acc end) None l
  | JOther v => Some v
  end.

Definition is_ok {B} (r : result B) : bool := match r with Ok _ => true | Err _ => false end.

(** What a call of the wrapper gives when only the first other value can
    raise. *)
Definition other_outcome {B} (o : option pyval) (r : result B) : Prop :=
  match o with
  | Some v => r = Err (unknown_type v)
  | None => exists x, r = Ok x
  end.

Section Total.
Context (func_ok : forall a k, is_ok (func a k) = true).

(** A child's outcome decides the container's: the first child that
    raises gives the error, otherwise the loop goes on. *)
Lemma other_outcome_bind {B C} o (r : result B) (f : B -> result C) orest :
  other_outcome o r -> (forall x, other_outcome orest (f x)) ->
  other_outcome (match o with Some v => Some v | None => orest end) (x ← r; f x).
Proof. destruct o as [v|]; simpl; [intros ->; reflexivity|intros [x ->] H; apply H]. Qed.

Lemma other_outcome_ret {B C} o (r : result B) (g : B -> C) :
  other_outcome o r -> other_outcome o (x ← r; Ok (g x)).
Proof. destruct o as [v|]; simpl; [intros ->; reflexivity|intros [x ->]; by eexists]. Qed.

Lemma jspec_first_other t key : other_outcome (first_other t) (jspec t key).
Proof.
  revert key. induction t as [a|d IH|l IH|v] using jtree_ind'; intros key; cbn [first_other jspec].
  - pose proof (func_ok a key). destruct (func a key) as [a'|]; [by eexists|done].
  - enough (Hd : forall i, other_outcome (foldr (fun xv acc => match first_other xv.2 with
                                                   Some v => Some v | None => acc end) None d)
                                        (jspec_dict jspec key d i)).
    { apply other_outcome_ret, Hd. }
    induction IH as [|[x v] d Hv _ IHd]; intros i; [by eexists|]. cbn [foldr jspec_dict].
    apply other_outcome_bind; [apply Hv|]. intros v'. apply other_outcome_ret, IHd.
  - enough (Hl : forall i, other_outcome (foldr (fun v acc => match first_other v with
                                                   Some o => Some o | None => acc end) None l)
                                        (jspec_list jspec key l i)).
    { apply other_outcome_ret, Hl. }
    induction IH as [|v l Hv _ IHl]; intros i; [by eexists|]. cbn [foldr jspec_list].
    apply other_outcome_bind; [apply Hv|]. intros v'. apply other_outcome_ret, IHl.
  - done.
Qed.

(** C29: when [func] itself returns normally, the wrapper raises exactly
    on the structures that hold a value other than a [jnp.ndarray], a dict
    or a list (a number, a tuple, a numpy array, ...), and it raises the
    [ValueError "Unknown type for array: <class ...>"] of the first such
    value in the depth-first order of its loops; otherwise it returns. *)
Theorem nest_for_array_raises t key :
  jwf t ->
  match first_other t with
  | Some v => nest_for_array t key = Err (unknown_type v)
  | None => exists t', nest_for_array t key = Ok t'
  end.
Proof. intros Hwf. rewrite nest_jspec by done. apply (jspec_first_other t key). Qed.
End Total.

End Nest.

Arguments jtree : clear implicits.

(** ** [check_jax_device] (lines 14-20) *)

(** Lines 6-11: when [find_spec("jax")] finds JAX, the module imports
    [jax] and [xla_bridge], and importing [tbutils.jax] raises if that
    import does; otherwise the names stay unbound. *)
Definition jax_module (env : platform_info) : result (option jax_info) :=
  if is_installed env "jax" then
    match jax_import (jax env) with
    | Some e => Err e
    | None => Ok (Some (jax env))
    end
  else Ok None.

(** [jax.devices()] and [xla_bridge.get_backend().platform], or the
    [NameError] of an unbound name. *)
Definition jax_devices_of (jm : option jax_info) : result string :=
  match jm with Some j => jax_devices j | None => Err (NameError "name 'jax' is not defined") end.

Definition jax_platform_of (jm : option jax_info) : result string :=
  match jm with Some j => jax_platform j | None => Err (NameError "name 'xla_bridge' is not defined") end.

Definition jax_error_line (e : py_exc) : string := "Error while checking JAX device: " +:+ py_exc_str e.

Definition check_jax_device (jm : option jax_info) : PyM unit :=
  try_except
    (print_s "Checking device used by JAX:";;
     devices ← lift (jax_devices_of jm);
     print_s (tab +:+ "Available devices: " +:+ devices);;
     plat ← lift (jax_platform_of jm);
     print_s (tab +:+ "Platform: " +:+ plat))
    (fun e => print_s (jax_error_line e)).

(** What follows the first line. *)
Definition jax_device_lines (jm : option jax_info) : list string :=
  match jax_devices_of jm with
  | Err e => [jax_error_line e]
  | Ok d =>
      match jax_platform_of jm with
      | Err e => [tab +:+ "Available devices: " +:+ d; jax_error_line e]
      | Ok pl => [tab +:+ "Available devices: " +:+ d; tab +:+ "Platform: " +:+ pl]
      end
  end.

(** C30: [check_jax_device] never raises: it prints its first line, then
    the devices and the platform, and an exception of either call
    (a [NameError] when JAX is not installed, so that [jax] is unbound, or
    an error of JAX itself) is caught and printed as one line after the
    lines already printed. *)
Theorem check_jax_device_total jm :
  outputs (check_jax_device jm) (Ok tt) ("Checking device used by JAX:" :: jax_device_lines jm).
Proof.
  unfold check_jax_device, jax_device_lines.
  destruct (jax_devices_of jm) as [d|e]; [destruct (jax_platform_of jm) as [pl|e]|].
  - apply outputs_try_ok. eapply outputs_eq; [outputs_run|done].
  - eapply outputs_eq; [eapply outputs_try_err; [outputs_run|apply outputs_print_s]|done].
  - eapply outputs_eq; [eapply outputs_try_err; [outputs_run|apply outputs_print_s]|done].
Qed.

(** ** Witnesses *)

Definition add_key (a : Z) (k : option Z) : result Z := Ok (a + default 0 k)%Z.
Definition split_lin (k : Z) : Z * Z := (2 * k, 2 * k + 1)%Z.

Definition params_tree : jtree Z :=
  JDict [(PStr "w", JArr 1%Z); (PStr "b", JList [JArr 2%Z; JArr 3%Z])].

Lemma params_tree_wf : jwf params_tree.
Proof. apply jwf_dict. repeat split; repeat constructor. Qed.

Lemma nest_for_array_spec_witness :
  jwf params_tree /\
  nest_for_array add_key split_lin params_tree (Some 5%Z) = jspec add_key split_lin params_tree (Some 5%Z).
Proof. split; [exact params_tree_wf|]. apply nest_for_array_spec. exact params_tree_wf. Defined.

Definition tuple_tree : jtree Z := JList [JArr 1%Z; JOther (PTuple [PInt 2])].

Lemma nest_for_array_raises_witness :
  (forall a k, is_ok (add_key a k) = true) /\ jwf tuple_tree /\
  nest_for_array add_key split_lin tuple_tree None =
    Err (ValueError "Unknown type for array: <class 'tuple'>").
Proof.
  assert (Hf : forall a k, is_ok (add_key a k) = true) by reflexivity.
  assert (Hw : jwf tuple_tree) by (apply jwf_list; repeat constructor).
  split; [exact Hf|]. split; [exact Hw|].
  exact (nest_for_array_raises add_key split_lin Hf tuple_tree None Hw).
Defined.
